(** * flopy grid package: spatial reference, model grids and EPSG resolver

    A shallow embedding of [flopy/grid/reference.py] and
    [flopy/grid/modelgrid.py].  Floats are read as real numbers (exact
    arithmetic), Python exceptions as an error result, NumPy arrays as a
    shape together with the row-major list of their entries. *)

From Stdlib Require Import Reals Lra Lia String Ascii ZArith List Bool.
From stdpp Require Import gmap.
Import ListNotations.

Local Open Scope string_scope.

(** ** Python results and exceptions *)

Module Py.

(** The exception classes the modelled code can raise. *)
Inductive exn : Type :=
| ValueError (msg : string)
| TypeError (msg : string)
| AttributeError (msg : string)
| AssertionError
| KeyError (msg : string)
| IndexError (msg : string)
| NotImplementedError (msg : string)
| MFGridException (msg : string)
| ZeroDivisionError
| FloatingPointError (msg : string)
| ImportError (msg : string)
| NameError (msg : string)
| FileNotFoundError (msg : string).

Inductive result (A : Type) : Type :=
| Ok (a : A)
| Raise (e : exn).
Arguments Ok {A} a.
Arguments Raise {A} e.

Definition bind {A B : Type} (r : result A) (k : A -> result B) : result B :=
  match r with
  | Ok a => k a
  | Raise e => Raise e
  end.

(** [try: body except: handler] with a bare [except]. *)
Definition try_except {A : Type} (body : result A) (handler : A) : A :=
  match body with
  | Ok a => a
  | Raise _ => handler
  end.

Definition is_ok {A : Type} (r : result A) : bool :=
  match r with Ok _ => true | Raise _ => false end.

(** Dynamically typed values handed to setters. *)
Inductive pyval : Type :=
| PyNone
| PyFloatV (r : R)
| PyIntV (z : Z)
| PyStrV (s : string).

Definition is_none (v : pyval) : bool :=
  match v with PyNone => true | _ => false end.

End Py.
Export Py.

#[export] Instance result_ret : MRet Py.result := @Py.Ok.
#[export] Instance result_bind : MBind Py.result := fun A B k r => Py.bind r k.

(** ** The string methods the code uses *)

Module Str.

Definition lower_ascii (c : ascii) : ascii :=
  let n := nat_of_ascii c in
  if (65 <=? n)%nat && (n <=? 90)%nat then ascii_of_nat (n + 32) else c.

Definition upper_ascii (c : ascii) : ascii :=
  let n := nat_of_ascii c in
  if (97 <=? n)%nat && (n <=? 122)%nat then ascii_of_nat (n - 32) else c.

Fixpoint map_string (f : ascii -> ascii) (s : string) : string :=
  match s with
  | EmptyString => EmptyString
  | String c s' => String (f c) (map_string f s')
  end.

(** [s.lower()] and [s.upper()] *)
Definition lower : string -> string := map_string lower_ascii.
Definition upper : string -> string := map_string upper_ascii.

(** [sub in s] *)
Fixpoint contains (sub s : string) : bool :=
  String.prefix sub s ||
  match s with
  | EmptyString => false
  | String _ s' => contains sub s'
  end.

Definition is_space (c : ascii) : bool :=
  let n := nat_of_ascii c in
  (n =? 32)%nat || ((9 <=? n)%nat && (n <=? 13)%nat)
  || ((28 <=? n)%nat && (n <=? 31)%nat).

Definition is_empty (s : string) : bool :=
  match s with EmptyString => true | _ => false end.

Fixpoint split_aux (cur s : string) : list string :=
  match s with
  | EmptyString => if is_empty cur then [] else [cur]
  | String c s' =>
      if is_space c
      then (if is_empty cur then split_aux EmptyString s' else cur :: split_aux EmptyString s')
      else split_aux (cur ++ String c EmptyString) s'
  end.

(** [s.split()] *)
Definition split : string -> list string := split_aux EmptyString.

Fixpoint split_on_aux (sep : ascii) (cur s : string) : list string :=
  match s with
  | EmptyString => [cur]
  | String c s' =>
      if Ascii.eqb c sep then cur :: split_on_aux sep EmptyString s'
      else split_on_aux sep (cur ++ String c EmptyString) s'
  end.

(** [s.split(sep)] for a one-character separator *)
Definition split_on (sep : ascii) : string -> list string :=
  split_on_aux sep EmptyString.

(** [s in l] for a list of strings *)
Definition mem (s : string) (l : list string) : bool :=
  existsb (String.eqb s) l.

End Str.

(** ** NumPy values

    An [ndarray] is its shape and its entries in row-major order.  The
    arguments of [transform] are Python floats, Python lists or arrays. *)

Module Np.

Record ndarray : Type := mk_ndarray { shape : list nat; data : list R }.

Inductive num : Type :=
| Float (r : R)
| PyList (l : list R)
| NdArray (a : ndarray).

Definition amap (f : R -> R) (a : ndarray) : ndarray :=
  {| shape := shape a; data := map f (data a) |}.

Fixpoint zip_with (f : R -> R -> R) (l1 l2 : list R) : list R :=
  match l1, l2 with
  | a :: l1', b :: l2' => f a b :: zip_with f l1' l2'
  | _, _ => []
  end.

Definition shape_eqb (s1 s2 : list nat) : bool :=
  bool_decide (s1 = s2).

(** [isinstance(x, list)] *)
Definition isinstance_list (x : num) : bool :=
  match x with PyList _ => true | _ => false end.

(** [np.isscalar(x)] *)
Definition isscalar (x : num) : bool :=
  match x with Float _ => true | _ => false end.

(** [np.array(x)]: a new array; a float becomes a 0-d array. *)
Definition array (x : num) : num :=
  match x with
  | Float r => NdArray {| shape := []; data := [r] |}
  | PyList l => NdArray {| shape := [length l]; data := l |}
  | NdArray a => NdArray a
  end.

(** [x.copy()]: arrays and lists have the method, a Python float has not. *)
Definition copy (x : num) : result num :=
  match x with
  | Float _ => Raise (AttributeError "'float' object has no attribute 'copy'")
  | PyList l => Ok (PyList l)
  | NdArray a => Ok (NdArray a)
  end.

(** An arithmetic operator between one operand of [transform] and a float
    ([x * lm], [x + xll], [x - xorigin], [cos(theta) * x], ...).  A Python
    list does not support them with a float. *)
Definition scalar_op (f : R -> R) (x : num) : result num :=
  match x with
  | Float r => Ok (Float (f r))
  | PyList _ => Raise (TypeError "unsupported operand type(s): 'list' and 'float'")
  | NdArray a => Ok (NdArray (amap f a))
  end.

(** [x /= d] for a float [d].  Dividing a Python float by zero raises;
    NumPy instead fills the array with infinities and NaN, which are not
    real numbers, so the model stops there with an error of its own. *)
Definition divide_op (d : R) (x : num) : result num :=
  match x with
  | Float r =>
      if Req_dec_T d 0 then Raise ZeroDivisionError else Ok (Float (r / d)%R)
  | PyList _ => Raise (TypeError "unsupported operand type(s): 'list' and 'float'")
  | NdArray a =>
      if Req_dec_T d 0 then Raise (FloatingPointError "divide by zero")
      else Ok (NdArray (amap (fun v => v / d)%R a))
  end.

(** An arithmetic operator between two computed operands.  Arrays of one
    shape combine entry by entry and a 0-d array combines like a float; for
    other pairs of shapes NumPy broadcasts when the shapes allow it, which
    is not modelled: the model keeps the error NumPy gives when they do
    not. *)
Definition binary_op (f : R -> R -> R) (x y : num) : result num :=
  match x, y with
  | Float a, Float b => Ok (Float (f a b))
  | Float a, NdArray b => Ok (NdArray (amap (f a) b))
  | NdArray a, Float b => Ok (NdArray (amap (fun v => f v b) a))
  | NdArray a, NdArray b =>
      if shape_eqb (shape a) (shape b)
      then Ok (NdArray {| shape := shape a; data := zip_with f (data a) (data b) |})
      else match data a, data b, shape a, shape b with
           | [v], _, [], _ => Ok (NdArray (amap (f v) b))
           | _, [v], _, [] => Ok (NdArray (amap (fun w => f w v) a))
           | _, _, _, _ =>
               Raise (ValueError "operands could not be broadcast together")
           end
  | _, _ => Raise (TypeError "unsupported operand type(s) for a list")
  end.

(** [a[i, j]] for a two-dimensional array and in-range indices. *)
Definition index2 (a : ndarray) (i j : nat) : result R :=
  match shape a with
  | [nr; nc] =>
      if (i <? nr)%nat && (j <? nc)%nat
      then match data a !! (i * nc + j)%nat with
           | Some v => Ok v
           | None => Raise (IndexError "index out of bounds")
           end
      else Raise (IndexError "index out of bounds")
  | _ => Raise (IndexError "too many indices for array")
  end.

End Np.
Export Np.

(** ** What the code takes from outside

    Library functions, the remote service and the classes of modules that
    are not among the sources. *)

(** The address [get_spatialreference] asks for,
    ["http://spatialreference.org/ref/{cat}/{epsg}/{text}/"], kept as its
    three fields. *)
Record url : Type := mk_url { cat : string; code : pyval; text : string }.

(** The [crs] container of reference.py; its parsed fields are functions
    of [wktstr]. *)
Record crs : Type := mk_crs { wktstr : option string }.

(** The grid a spatial reference is attached to.  reference.py takes the
    class from [structuredmodelgrid.py], which is not among the sources;
    the fields are the attributes reference.py reads from it. *)
Record AttachedGrid : Type := mk_grid {
  g_delc : list R;
  g_delr : list R;
  g_nrow : nat;
  g_ncol : nat;
  g_xedges : num;
  g_yedges : num;
  g_xcenters : num;
  g_ycenters : num;
  g_grid_lines : list ((R * R) * (R * R))
}.

Class Environment : Type := {
  (** [int(s)] and [float(s)] on strings, [None] when they raise *)
  int_of_string : string -> option Z;
  float_of_string : string -> option R;
  (** ['{}'.format(v)] *)
  format_value : pyval -> string;
  (** [pyproj.Proj(s, ...).srs], [None] when pyproj raises *)
  pyproj_srs : string -> option string;
  (** [flopy.utils.flopy_io.get_url_text]: the text behind an address, or
      [None] when the service cannot be reached or has no such page *)
  get_url_text : url -> option string;
  (** [open(prj).read()] in the constructor of [crs] *)
  read_prj : pyval -> result string;
  (** the text [getprj(epsg)] gives the constructor of [crs]; the body of
      [getprj] against the store is in the module [Resolver] *)
  getprj_text : pyval -> result (option string);
  (** [crs.parse_wkt()] on a text: the parsing of the fields can raise *)
  parse_wkt : string -> result unit;
  (** [StructuredModelGrid(delc, delr, top=0, botm=[0], idomain=1)] of
      [structuredmodelgrid.py] *)
  default_grid : list R -> list R -> AttachedGrid
}.

(** ** reference.py: the remote lookup of EPSG texts *)

Module Remote.

Definition epsg_categories : list string := ["epsg"; "esri"].

Section Defs.
Context `{Environment}.

(** [result.replace(newline, empty)] *)
Fixpoint remove_newlines (s : string) : string :=
  match s with
  | EmptyString => EmptyString
  | String c s' =>
      if Ascii.eqb c "010"%char then remove_newlines s'
      else String c (remove_newlines s')
  end.

(** The [for cat in epsg_categories] loop: the addresses requested, in
    order, and the first text found. *)
Fixpoint fetch (epsg : pyval) (txt : string) (cats : list string)
  : list url * option string :=
  match cats with
  | [] => ([], None)
  | c :: cats' =>
      let u := {| cat := c; code := epsg; text := txt |} in
      match get_url_text u with
      | Some r => ([u], Some r)
      | None => let '(us, r) := fetch epsg txt cats' in (u :: us, r)
      end
  end.

(** [get_spatialreference(epsg, text)], with the addresses it requested. *)
Definition get_spatialreference (epsg : pyval) (txt : string)
  : list url * option string :=
  let '(us, r) := fetch epsg txt epsg_categories in
  match r with
  | Some t => (us, Some (remove_newlines t))
  | None =>
      if negb (String.eqb txt "epsg") then (us, None)
      else (us, Some ("+init=epsg:" ++ format_value epsg))
  end.

(** [getproj4(epsg)] *)
Definition getproj4 (epsg : pyval) : option string :=
  snd (get_spatialreference epsg "proj4").

End Defs.

End Remote.

(** ** reference.py: SpatialReference *)

Module Reference.

Inductive origin : Type := ul | ll.

(** What [get_vertices] returns: one ring for a scalar index pair, a list
    of rings for index arrays.  A point [[x, y]] is a pair. *)
Inductive rings : Type :=
| Ring (pts : list (R * R))
| Rings (cells : list (list (R * R))).

(** How [get_vertices] is called: with two integers or with two integer
    arrays. *)
Inductive index : Type :=
| IScalar (i j : nat)
| IArray (i j : list nat).

(** The instance attributes.  [_xul], [_yul], [_xll], [_yll] and
    [rotation] only ever receive floats ([0.] replaces [None] wherever they
    are stored), so they are reals.  [other_attrs] holds what is stored
    under any other name. *)
Record SpatialReference : Type := mk_sr {
  modelgrid : AttachedGrid;
  _lenuni : Z;
  _proj4_str : pyval;
  _epsg : pyval;
  prj : pyval;
  _wkt : pyval;
  sr_crs : crs;
  _units : option string;
  _length_multiplier : option R;
  origin_loc : origin;
  rotation : R;
  _xul : R;
  _yul : R;
  _xll : R;
  _yll : R;
  _yedge : list R;
  _xedges : option num;
  _yedges : option num;
  _xcenters : option num;
  _ycenters : option num;
  _vertices : option rings;
  _gridlines : option (list ((num * num) * (num * num)));
  other_attrs : list (string * pyval)
}.

(** Attribute stores, one per slot. *)
Definition set__lenuni (v : Z) (s : SpatialReference)
  : SpatialReference :=
  mk_sr (modelgrid s) v (_proj4_str s) (_epsg s) (prj s) (_wkt s) (sr_crs s)
    (_units s) (_length_multiplier s) (origin_loc s) (rotation s) (_xul s)
    (_yul s) (_xll s) (_yll s) (_yedge s) (_xedges s) (_yedges s) (_xcenters
    s) (_ycenters s) (_vertices s) (_gridlines s) (other_attrs s).

Definition set__proj4_str (v : pyval) (s : SpatialReference)
  : SpatialReference :=
  mk_sr (modelgrid s) (_lenuni s) v (_epsg s) (prj s) (_wkt s) (sr_crs s)
    (_units s) (_length_multiplier s) (origin_loc s) (rotation s) (_xul s)
    (_yul s) (_xll s) (_yll s) (_yedge s) (_xedges s) (_yedges s) (_xcenters
    s) (_ycenters s) (_vertices s) (_gridlines s) (other_attrs s).

Definition set__epsg (v : pyval) (s : SpatialReference)
  : SpatialReference :=
  mk_sr (modelgrid s) (_lenuni s) (_proj4_str s) v (prj s) (_wkt s) (sr_crs
    s) (_units s) (_length_multiplier s) (origin_loc s) (rotation s) (_xul
    s) (_yul s) (_xll s) (_yll s) (_yedge s) (_xedges s) (_yedges s)
    (_xcenters s) (_ycenters s) (_vertices s) (_gridlines s) (other_attrs s).

Definition set_prj (v : pyval) (s : SpatialReference)
  : SpatialReference :=
  mk_sr (modelgrid s) (_lenuni s) (_proj4_str s) (_epsg s) v (_wkt s)
    (sr_crs s) (_units s) (_length_multiplier s) (origin_loc s) (rotation s)
    (_xul s) (_yul s) (_xll s) (_yll s) (_yedge s) (_xedges s) (_yedges s)
    (_xcenters s) (_ycenters s) (_vertices s) (_gridlines s) (other_attrs s).

Definition set__wkt (v : pyval) (s : SpatialReference)
  : SpatialReference :=
  mk_sr (modelgrid s) (_lenuni s) (_proj4_str s) (_epsg s) (prj s) v (sr_crs
    s) (_units s) (_length_multiplier s) (origin_loc s) (rotation s) (_xul
    s) (_yul s) (_xll s) (_yll s) (_yedge s) (_xedges s) (_yedges s)
    (_xcenters s) (_ycenters s) (_vertices s) (_gridlines s) (other_attrs s).

Definition set_sr_crs (v : crs) (s : SpatialReference)
  : SpatialReference :=
  mk_sr (modelgrid s) (_lenuni s) (_proj4_str s) (_epsg s) (prj s) (_wkt s)
    v (_units s) (_length_multiplier s) (origin_loc s) (rotation s) (_xul s)
    (_yul s) (_xll s) (_yll s) (_yedge s) (_xedges s) (_yedges s) (_xcenters
    s) (_ycenters s) (_vertices s) (_gridlines s) (other_attrs s).

Definition set__units (v : option string) (s : SpatialReference)
  : SpatialReference :=
  mk_sr (modelgrid s) (_lenuni s) (_proj4_str s) (_epsg s) (prj s) (_wkt s)
    (sr_crs s) v (_length_multiplier s) (origin_loc s) (rotation s) (_xul s)
    (_yul s) (_xll s) (_yll s) (_yedge s) (_xedges s) (_yedges s) (_xcenters
    s) (_ycenters s) (_vertices s) (_gridlines s) (other_attrs s).

Definition set__length_multiplier (v : option R) (s : SpatialReference)
  : SpatialReference :=
  mk_sr (modelgrid s) (_lenuni s) (_proj4_str s) (_epsg s) (prj s) (_wkt s)
    (sr_crs s) (_units s) v (origin_loc s) (rotation s) (_xul s) (_yul s)
    (_xll s) (_yll s) (_yedge s) (_xedges s) (_yedges s) (_xcenters s)
    (_ycenters s) (_vertices s) (_gridlines s) (other_attrs s).

Definition set_origin_loc (v : origin) (s : SpatialReference)
  : SpatialReference :=
  mk_sr (modelgrid s) (_lenuni s) (_proj4_str s) (_epsg s) (prj s) (_wkt s)
    (sr_crs s) (_units s) (_length_multiplier s) v (rotation s) (_xul s)
    (_yul s) (_xll s) (_yll s) (_yedge s) (_xedges s) (_yedges s) (_xcenters
    s) (_ycenters s) (_vertices s) (_gridlines s) (other_attrs s).

Definition set_rotation (v : R) (s : SpatialReference)
  : SpatialReference :=
  mk_sr (modelgrid s) (_lenuni s) (_proj4_str s) (_epsg s) (prj s) (_wkt s)
    (sr_crs s) (_units s) (_length_multiplier s) (origin_loc s) v (_xul s)
    (_yul s) (_xll s) (_yll s) (_yedge s) (_xedges s) (_yedges s) (_xcenters
    s) (_ycenters s) (_vertices s) (_gridlines s) (other_attrs s).

Definition set__xul (v : R) (s : SpatialReference)
  : SpatialReference :=
  mk_sr (modelgrid s) (_lenuni s) (_proj4_str s) (_epsg s) (prj s) (_wkt s)
    (sr_crs s) (_units s) (_length_multiplier s) (origin_loc s) (rotation s)
    v (_yul s) (_xll s) (_yll s) (_yedge s) (_xedges s) (_yedges s)
    (_xcenters s) (_ycenters s) (_vertices s) (_gridlines s) (other_attrs s).

Definition set__yul (v : R) (s : SpatialReference)
  : SpatialReference :=
  mk_sr (modelgrid s) (_lenuni s) (_proj4_str s) (_epsg s) (prj s) (_wkt s)
    (sr_crs s) (_units s) (_length_multiplier s) (origin_loc s) (rotation s)
    (_xul s) v (_xll s) (_yll s) (_yedge s) (_xedges s) (_yedges s)
    (_xcenters s) (_ycenters s) (_vertices s) (_gridlines s) (other_attrs s).

Definition set__xll (v : R) (s : SpatialReference)
  : SpatialReference :=
  mk_sr (modelgrid s) (_lenuni s) (_proj4_str s) (_epsg s) (prj s) (_wkt s)
    (sr_crs s) (_units s) (_length_multiplier s) (origin_loc s) (rotation s)
    (_xul s) (_yul s) v (_yll s) (_yedge s) (_xedges s) (_yedges s)
    (_xcenters s) (_ycenters s) (_vertices s) (_gridlines s) (other_attrs s).

Definition set__yll (v : R) (s : SpatialReference)
  : SpatialReference :=
  mk_sr (modelgrid s) (_lenuni s) (_proj4_str s) (_epsg s) (prj s) (_wkt s)
    (sr_crs s) (_units s) (_length_multiplier s) (origin_loc s) (rotation s)
    (_xul s) (_yul s) (_xll s) v (_yedge s) (_xedges s) (_yedges s)
    (_xcenters s) (_ycenters s) (_vertices s) (_gridlines s) (other_attrs s).

Definition set__yedge (v : list R) (s : SpatialReference)
  : SpatialReference :=
  mk_sr (modelgrid s) (_lenuni s) (_proj4_str s) (_epsg s) (prj s) (_wkt s)
    (sr_crs s) (_units s) (_length_multiplier s) (origin_loc s) (rotation s)
    (_xul s) (_yul s) (_xll s) (_yll s) v (_xedges s) (_yedges s) (_xcenters
    s) (_ycenters s) (_vertices s) (_gridlines s) (other_attrs s).

Definition set__xedges (v : option num) (s : SpatialReference)
  : SpatialReference :=
  mk_sr (modelgrid s) (_lenuni s) (_proj4_str s) (_epsg s) (prj s) (_wkt s)
    (sr_crs s) (_units s) (_length_multiplier s) (origin_loc s) (rotation s)
    (_xul s) (_yul s) (_xll s) (_yll s) (_yedge s) v (_yedges s) (_xcenters
    s) (_ycenters s) (_vertices s) (_gridlines s) (other_attrs s).

Definition set__yedges (v : option num) (s : SpatialReference)
  : SpatialReference :=
  mk_sr (modelgrid s) (_lenuni s) (_proj4_str s) (_epsg s) (prj s) (_wkt s)
    (sr_crs s) (_units s) (_length_multiplier s) (origin_loc s) (rotation s)
    (_xul s) (_yul s) (_xll s) (_yll s) (_yedge s) (_xedges s) v (_xcenters
    s) (_ycenters s) (_vertices s) (_gridlines s) (other_attrs s).

Definition set__xcenters (v : option num) (s : SpatialReference)
  : SpatialReference :=
  mk_sr (modelgrid s) (_lenuni s) (_proj4_str s) (_epsg s) (prj s) (_wkt s)
    (sr_crs s) (_units s) (_length_multiplier s) (origin_loc s) (rotation s)
    (_xul s) (_yul s) (_xll s) (_yll s) (_yedge s) (_xedges s) (_yedges s) v
    (_ycenters s) (_vertices s) (_gridlines s) (other_attrs s).

Definition set__ycenters (v : option num) (s : SpatialReference)
  : SpatialReference :=
  mk_sr (modelgrid s) (_lenuni s) (_proj4_str s) (_epsg s) (prj s) (_wkt s)
    (sr_crs s) (_units s) (_length_multiplier s) (origin_loc s) (rotation s)
    (_xul s) (_yul s) (_xll s) (_yll s) (_yedge s) (_xedges s) (_yedges s)
    (_xcenters s) v (_vertices s) (_gridlines s) (other_attrs s).

Definition set__vertices (v : option rings) (s : SpatialReference)
  : SpatialReference :=
  mk_sr (modelgrid s) (_lenuni s) (_proj4_str s) (_epsg s) (prj s) (_wkt s)
    (sr_crs s) (_units s) (_length_multiplier s) (origin_loc s) (rotation s)
    (_xul s) (_yul s) (_xll s) (_yll s) (_yedge s) (_xedges s) (_yedges s)
    (_xcenters s) (_ycenters s) v (_gridlines s) (other_attrs s).

Definition set__gridlines (v : option (list ((num * num) * (num * num)))) (s : SpatialReference)
  : SpatialReference :=
  mk_sr (modelgrid s) (_lenuni s) (_proj4_str s) (_epsg s) (prj s) (_wkt s)
    (sr_crs s) (_units s) (_length_multiplier s) (origin_loc s) (rotation s)
    (_xul s) (_yul s) (_xll s) (_yll s) (_yedge s) (_xedges s) (_yedges s)
    (_xcenters s) (_ycenters s) (_vertices s) v (other_attrs s).

Definition set_other_attrs (v : list (string * pyval)) (s : SpatialReference)
  : SpatialReference :=
  mk_sr (modelgrid s) (_lenuni s) (_proj4_str s) (_epsg s) (prj s) (_wkt s)
    (sr_crs s) (_units s) (_length_multiplier s) (origin_loc s) (rotation s)
    (_xul s) (_yul s) (_xll s) (_yll s) (_yedge s) (_xedges s) (_yedges s)
    (_xcenters s) (_ycenters s) (_vertices s) (_gridlines s) v.

Definition supported_units : list string := ["feet"; "meters"].

(** The names [__setattr__] handles itself. *)
Definition parameter_names : list string :=
  ["xul"; "yul"; "xll"; "yll"; "length_multiplier"; "rotation"; "lenuni";
   "units"; "proj4_str"; "epsg"; "prj"].

(** [lenuni_text], the inverse of [lenuni_values] *)
Definition lenuni_text (lenuni : Z) : result string :=
  match lenuni with
  | 0%Z => Ok "undefined"
  | 1%Z => Ok "feet"
  | 2%Z => Ok "meters"
  | 3%Z => Ok "centimeters"
  | _ => Raise (KeyError "lenuni")
  end.

(** A [None] used as a number *)
Definition as_float (o : option R) : result R :=
  match o with
  | Some r => Ok r
  | None => Raise (TypeError "unsupported operand type(s): 'NoneType'")
  end.

(** [l[0]] *)
Definition first (l : list R) : result R :=
  match l with
  | v :: _ => Ok v
  | [] => Raise (IndexError "index 0 is out of bounds")
  end.

(** [np.add.reduce(l)], [l.sum()] *)
Definition add_reduce (l : list R) : R := fold_right Rplus 0%R l.

(** [np.add.accumulate(l)] *)
Fixpoint add_accumulate_from (acc : R) (l : list R) : list R :=
  match l with
  | [] => []
  | v :: l' => (acc + v)%R :: add_accumulate_from (acc + v)%R l'
  end.

Definition add_accumulate (l : list R) : list R := add_accumulate_from 0%R l.

Section Defs.
Context `{Environment}.

(** [float(value)] *)
Definition py_float (value : pyval) : result R :=
  match value with
  | PyFloatV r => Ok r
  | PyIntV z => Ok (IZR z)
  | PyStrV s =>
      match float_of_string s with
      | Some r => Ok r
      | None => Raise (ValueError "could not convert string to float")
      end
  | PyNone => Raise (TypeError "float() argument must be a string or a number")
  end.

(** [int(value)]; a float is truncated towards zero. *)
Definition py_int (value : pyval) : result Z :=
  match value with
  | PyIntV z => Ok z
  | PyFloatV r =>
      Ok (if Rle_dec 0 r then Int_part r else (- Int_part (- r))%Z)
  | PyStrV s =>
      match int_of_string s with
      | Some z => Ok z
      | None => Raise (ValueError "invalid literal for int()")
      end
  | PyNone => Raise (TypeError "int() argument must be a string or a number")
  end.

(** [crs(prj, esri_wkt, epsg)] *)
Definition crs_init (prj : pyval) (esri_wkt : option string) (epsg : pyval)
  : result crs :=
  wktstr ← (if negb (is_none prj) then
              s ← read_prj prj; Ok (Some s)
            else if bool_decide (esri_wkt <> None) then Ok esri_wkt
            else if negb (is_none epsg) then getprj_text epsg
            else Ok None);
  match wktstr with
  | Some s => _ ← parse_wkt s; Ok {| wktstr := Some s |}
  | None => Ok {| wktstr := None |}
  end.

(** *** Getters *)

Definition epsg (self : SpatialReference) : pyval := _epsg self.

Definition lenuni (self : SpatialReference) : Z := _lenuni self.

(** The [proj4_str] property: the value returned and the instance after
    the read.  When the string names an EPSG code the getter stores the
    parsed code in [_epsg] (a store to a private name: no reset). *)
Definition proj4_str (self : SpatialReference)
  : result (pyval * SpatialReference) :=
  match _proj4_str self with
  | PyNone =>
      if negb (is_none (epsg self))
      then Ok (PyStrV ("+init=epsg:" ++ format_value (epsg self)), self)
      else Ok (PyNone, self)
  | PyStrV s =>
      if Str.contains "epsg" (Str.lower s) then
        let p := if negb (Str.contains "init" (Str.lower s))
                 then "+init=" ++ s else s in
        let tmp := filter (fun i => Str.contains "epsg" (Str.lower i) = true)
                          (Str.split s) in
        match tmp with
        | t :: _ =>
            match Str.split_on ":" t with
            | _ :: c :: _ =>
                match int_of_string c with
                | Some z => Ok (PyStrV p, set__epsg (PyIntV z) self)
                | None => Raise (ValueError "invalid literal for int()")
                end
            | _ => Raise (IndexError "list index out of range")
            end
        | [] => Raise (IndexError "list index out of range")
        end
      else Ok (PyStrV s, self)
  | _ => Raise (AttributeError "lower")
  end.

(** The getters below return values; what their reads of [proj4_str]
    store is followed separately: [after_g self] is the instance after
    the getter [g] has run, whether it returned or raised.  The store
    does not change any value read later (it is made only when
    [_proj4_str] is a string, and then no getter reads [_epsg]), so the
    values are computed on the instance before the read. *)
Definition after_proj4_str (self : SpatialReference) : SpatialReference :=
  match proj4_str self with
  | Ok (_, self) => self
  | Raise _ => self
  end.

(** [_parse_units_from_proj4()] reads [proj4_str] where it tests for
    EPSG and, when that gave a string, once more in either branch. *)
Definition after__parse_units_from_proj4 (self : SpatialReference)
  : SpatialReference :=
  match proj4_str self with
  | Ok (PyStrV _, self) => after_proj4_str self
  | Ok (_, self) => self
  | Raise _ => self
  end.

Definition _parse_units_from_proj4 (self : SpatialReference) : option string :=
  try_except
    ('(p, _) ← proj4_str self;
     match p with
     | PyStrV s =>
         proj_str ← (if Str.contains "EPSG" (Str.upper s)
                     then match pyproj_srs s with
                          | Some t => Ok t
                          | None => Raise (ValueError "pyproj")
                          end
                     else Ok s);
         Ok (if Str.contains "units=m" proj_str then Some "meters"
             else if Str.contains "units=ft" proj_str
                     || Str.contains "units=us-ft" proj_str
                     || Str.contains "to_meters:0.3048" proj_str
                  then Some "feet"
                  else None)
     | _ => Raise (AttributeError "upper")
     end)
    None.

Definition units (self : SpatialReference) : result string :=
  let units := match _units self with
               | Some u => Some (Str.lower u)
               | None => _parse_units_from_proj4 self
               end in
  let units := match units with
               | None => "meters"
               | Some u => u
               end in
  if Str.mem units supported_units then Ok units else Raise AssertionError.

(** The instances a getter can leave: the one it started from, or that
    one after a read of [proj4_str]. *)
Definition reads (self s : SpatialReference) : Prop :=
  s = self \/ s = after_proj4_str self.

Definition after_units (self : SpatialReference) : SpatialReference :=
  match _units self with
  | Some _ => self
  | None => after__parse_units_from_proj4 self
  end.

Definition model_length_units (self : SpatialReference) : result string :=
  lenuni_text (lenuni self).

Definition length_multiplier (self : SpatialReference) : result (option R) :=
  match _length_multiplier self with
  | Some lm => Ok (Some lm)
  | None =>
      mlu ← model_length_units self;
      if String.eqb mlu "feet" then
        u ← units self;
        if String.eqb u "meters" then Ok (Some (3048 / 10000)%R)
        else u ← units self;
             if String.eqb u "feet" then Ok (Some 1%R) else Ok None
      else if String.eqb mlu "meters" then
        u ← units self;
        if String.eqb u "feet" then Ok (Some (1 / (3048 / 10000))%R)
        else u ← units self;
             if String.eqb u "meters" then Ok (Some 1%R) else Ok None
      else if String.eqb mlu "centimeters" then
        u ← units self;
        if String.eqb u "meters" then Ok (Some (1 / 100)%R)
        else u ← units self;
             if String.eqb u "feet" then Ok (Some (1 / (3048 / 100))%R)
             else Ok None
      else Ok (Some 1%R)
  end.

(** In each branch for the model units [self.units] is read once, and
    once more when the first comparison fails. *)
Definition after_length_multiplier (self : SpatialReference)
  : SpatialReference :=
  match _length_multiplier self with
  | Some _ => self
  | None =>
      match model_length_units self with
      | Raise _ => self
      | Ok mlu =>
          let twice (first : string) :=
            match units self with
            | Raise _ => after_units self
            | Ok u =>
                if String.eqb u first then after_units self
                else after_units (after_units self)
            end in
          if String.eqb mlu "feet" then twice "meters"
          else if String.eqb mlu "meters" then twice "feet"
          else if String.eqb mlu "centimeters" then twice "meters"
          else self
      end
  end.

(** [self.length_multiplier] used as a factor *)
Definition lm_value (self : SpatialReference) : result R :=
  lm ← length_multiplier self; as_float lm.

Definition theta (self : SpatialReference) : R :=
  (- rotation self * PI / 180)%R.

Definition xll (self : SpatialReference) : result R :=
  match origin_loc self with
  | ll => Ok (_xll self)
  | ul =>
      y0 ← first (_yedge self);
      lm ← lm_value self;
      Ok (_xul self - sin (theta self) * y0 * lm)%R
  end.

Definition yll (self : SpatialReference) : result R :=
  match origin_loc self with
  | ll => Ok (_yll self)
  | ul =>
      y0 ← first (_yedge self);
      lm ← lm_value self;
      Ok (_yul self - cos (theta self) * y0 * lm)%R
  end.

Definition xul (self : SpatialReference) : result R :=
  match origin_loc self with
  | ll =>
      y0 ← first (_yedge self);
      lm ← lm_value self;
      Ok (_xll self + sin (theta self) * y0 * lm)%R
  | ul => Ok (_xul self)
  end.

Definition yul (self : SpatialReference) : result R :=
  match origin_loc self with
  | ll =>
      y0 ← first (_yedge self);
      lm ← lm_value self;
      Ok (_yll self + cos (theta self) * y0 * lm)%R
  | ul => Ok (_yul self)
  end.

(** A corner that is derived reads [_yedge[0]] and then the multiplier;
    a corner that is stored reads nothing. *)
Definition after_derived_corner (self : SpatialReference)
  : SpatialReference :=
  match first (_yedge self) with
  | Ok _ => after_length_multiplier self
  | Raise _ => self
  end.

Definition after_xll (self : SpatialReference) : SpatialReference :=
  match origin_loc self with
  | ll => self
  | ul => after_derived_corner self
  end.

Definition after_yll : SpatialReference -> SpatialReference := after_xll.

Definition after_xul (self : SpatialReference) : SpatialReference :=
  match origin_loc self with
  | ll => after_derived_corner self
  | ul => self
  end.

Definition after_yul : SpatialReference -> SpatialReference := after_xul.

(** *** rotate and transform *)

(** [rotate(x, y, theta, xorigin, yorigin)], [theta] in degrees *)
Definition rotate (x y : num) (theta xorigin yorigin : R)
  : result (num * num) :=
  let theta := (theta * PI / 180)%R in
  dx ← scalar_op (fun v => v - xorigin)%R x;
  cx ← scalar_op (fun v => cos theta * v)%R dx;
  ox ← scalar_op (fun v => xorigin + v)%R cx;
  dy ← scalar_op (fun v => v - yorigin)%R y;
  sy ← scalar_op (fun v => sin theta * v)%R dy;
  xrot ← binary_op Rminus ox sy;
  dx ← scalar_op (fun v => v - xorigin)%R x;
  sx ← scalar_op (fun v => sin theta * v)%R dx;
  oy ← scalar_op (fun v => yorigin + v)%R sx;
  dy ← scalar_op (fun v => v - yorigin)%R y;
  cy ← scalar_op (fun v => cos theta * v)%R dy;
  yrot ← binary_op Rplus oy cy;
  Ok (xrot, yrot).

(** [transform(x, y, inverse)].  The in-place operators act on the
    operands left by the first four lines; what they do to the caller's
    objects is the subject of the module [Aliasing]. *)
Definition transform (self : SpatialReference) (x y : num) (inverse : bool)
  : result (num * num) :=
  let '(x, y) := if isinstance_list x then (array x, array y) else (x, y) in
  '(x, y) ← (if negb (isscalar x)
             then x' ← copy x; y' ← copy y; Ok (x', y')
             else Ok (x, y));
  if negb inverse then
    lm ← lm_value self;
    x ← scalar_op (fun v => v * lm)%R x;
    lm ← lm_value self;
    y ← scalar_op (fun v => v * lm)%R y;
    xo ← xll self;
    x ← scalar_op (fun v => v + xo)%R x;
    yo ← yll self;
    y ← scalar_op (fun v => v + yo)%R y;
    xo ← xll self;
    yo ← yll self;
    rotate x y (rotation self) xo yo
  else
    xo ← xll self;
    yo ← yll self;
    '(x, y) ← rotate x y (- rotation self) xo yo;
    xo ← xll self;
    x ← scalar_op (fun v => v - xo)%R x;
    yo ← yll self;
    y ← scalar_op (fun v => v - yo)%R y;
    lm ← lm_value self;
    x ← divide_op lm x;
    lm ← lm_value self;
    y ← divide_op lm y;
    Ok (x, y).

(** The instance after a call of [transform] that returned: the reads
    of the multiplier and of the lower-left corner, in their order. *)
Definition after_transform (self : SpatialReference) (inverse : bool)
  : SpatialReference :=
  if negb inverse then
    let self := after_length_multiplier self in
    let self := after_length_multiplier self in
    let self := after_xll self in
    let self := after_yll self in
    let self := after_xll self in
    after_yll self
  else
    let self := after_xll self in
    let self := after_yll self in
    let self := after_xll self in
    let self := after_yll self in
    let self := after_length_multiplier self in
    after_length_multiplier self.

(** *** Attribute assignment and the caches *)

Definition _reset (self : SpatialReference) : SpatialReference :=
  let self := set__xedges None self in
  let self := set__yedges None self in
  let self := set__ycenters None self in
  let self := set__xcenters None self in
  let self := set__vertices None self in
  let self := set__gridlines None self in
  self.

Definition of_option (o : option string) : pyval :=
  match o with
  | Some s => PyStrV s
  | None => PyNone
  end.

(** [__setattr__(key, value)].  The stores made through [super()] and the
    nested assignments to private names (which take the last branch and do
    not reset) are written as stores to the slots.  The result is the
    instance after an assignment that returns; what an assignment that
    raises has already stored is not kept.  In the branch of [proj4_str]
    the units are parsed through the getter of [proj4_str], whose store
    in [_epsg] the last line of the branch overwrites. *)
Definition __setattr__ (self : SpatialReference) (key : string)
    (value : pyval) : result SpatialReference :=
  '(self, reset) ←
    (if String.eqb key "xul" then
       v ← py_float value;
       Ok (set_origin_loc ul (set__xul v self), true)
     else if String.eqb key "yul" then
       v ← py_float value;
       Ok (set_origin_loc ul (set__yul v self), true)
     else if String.eqb key "xll" then
       v ← py_float value;
       Ok (set_origin_loc ll (set__xll v self), true)
     else if String.eqb key "yll" then
       v ← py_float value;
       Ok (set_origin_loc ll (set__yll v self), true)
     else if String.eqb key "length_multiplier" then
       v ← py_float value;
       Ok (set__length_multiplier (Some v) self, true)
     else if String.eqb key "rotation" then
       v ← py_float value;
       Ok (set_rotation v self, true)
     else if String.eqb key "lenuni" then
       v ← py_int value;
       Ok (set__lenuni v self, true)
     else if String.eqb key "units" then
       match value with
       | PyStrV s =>
           let value := Str.lower s in
           if Str.mem value supported_units
           then Ok (set__units (Some value) self, true)
           else Raise AssertionError
       | _ => Raise (AttributeError "lower")
       end
     else if String.eqb key "proj4_str" then
       let self := set__proj4_str value self in
       let units := _parse_units_from_proj4 self in
       let self := after__parse_units_from_proj4 self in
       let self := match units with
                   | Some u => set__units (Some u) self
                   | None => self
                   end in
       Ok (set__epsg PyNone self, true)
     else if String.eqb key "epsg" then
       let self := set__epsg value self in
       let self := set__units None self in
       let self := set__proj4_str (of_option (Remote.getproj4 (_epsg self)))
                     self in
       c ← crs_init PyNone None value;
       Ok (set_sr_crs c self, true)
     else if String.eqb key "prj" then
       let self := set_prj value self in
       c ← crs_init value None (epsg self);
       Ok (set_sr_crs c self, true)
     else
       Ok (set_other_attrs ((key, value) :: other_attrs self) self, false));
  Ok (if reset : bool then _reset self else self).

(** [reset] with keyword arguments, in their order *)
Fixpoint reset (self : SpatialReference) (kwargs : list (string * pyval))
  : result SpatialReference :=
  match kwargs with
  | [] => Ok self
  | (key, value) :: kwargs' =>
      self ← __setattr__ self key value;
      reset self kwargs'
  end.

Definition both_xul_xll : string :=
  "Both xul and xll entered. Please enter either xul, yul or xll, yll.".

Definition both_yul_yll : string :=
  "Both yul and yll entered. Please enter either xul, yul or xll, yll.".

(** [set_spatialreference(delc, xul, yul, xll, yll, rotation)] *)
Definition set_spatialreference (self : SpatialReference) (delc : list R)
    (xul yul xll yll : option R) (rotation : R) : result SpatialReference :=
  if bool_decide (xul <> None) && bool_decide (xll <> None) then
    Raise (ValueError both_xul_xll)
  else if bool_decide (yul <> None) && bool_decide (yll <> None) then
    Raise (ValueError both_yul_yll)
  else
    let '(self, xul, yul) :=
      if bool_decide (xul = None) && bool_decide (yul = None)
         && bool_decide (xll = None) && bool_decide (yll = None)
      then (set_origin_loc ul self, Some 0%R, Some (add_reduce delc))
      else if bool_decide (xll <> None)
           then (set_origin_loc ll self, xul, yul)
           else (set_origin_loc ul self, xul, yul) in
    self ← __setattr__ self "rotation" (PyFloatV rotation);
    let self := set__xll (default 0%R xll) self in
    let self := set__yll (default 0%R yll) self in
    let self := set__xul (default 0%R xul) self in
    let self := set__yul (default 0%R yul) self in
    let length_y := add_reduce delc in
    Ok (set__yedge
          (length_y :: map (fun a => length_y - a)%R (add_accumulate delc))
          self).

(** [set_yedge(yedge)] *)
Definition set_yedge (self : SpatialReference) (yedge : list R)
  : SpatialReference :=
  set__yedge yedge self.

(** An instance before its first store: [rotation] and [origin_loc] are
    class attributes, the other slots do not exist yet. *)
Definition class_defaults (modelgrid : AttachedGrid) : SpatialReference :=
  {| modelgrid := modelgrid; _lenuni := 2; _proj4_str := PyNone;
     _epsg := PyNone; prj := PyNone; _wkt := PyNone;
     sr_crs := {| wktstr := None |}; _units := None;
     _length_multiplier := None; origin_loc := ul; rotation := 0;
     _xul := 0; _yul := 0; _xll := 0; _yll := 0; _yedge := [];
     _xedges := None; _yedges := None; _xcenters := None;
     _ycenters := None; _vertices := None; _gridlines := None;
     other_attrs := [] |}.

(** [SpatialReference(delr, delc, grid, lenuni, xul, yul, xll, yll,
    rotation, proj4_str, epsg, prj, units, length_multiplier)] *)
Definition __init__ (delr delc : list R) (grid : option AttachedGrid)
    (lenuni : Z) (xul yul xll yll : option R) (rotation : R)
    (proj4_str epsg prj : pyval) (units : option string)
    (length_multiplier : option R) : result SpatialReference :=
  let modelgrid := match grid with
                   | Some g => g
                   | None => default_grid delc delr
                   end in
  let self := class_defaults modelgrid in
  let self := set__lenuni lenuni self in
  let self := set__proj4_str proj4_str self in
  let self := set__epsg epsg self in
  let self := if negb (is_none epsg)
              then set__proj4_str (of_option (Remote.getproj4 (_epsg self)))
                     self
              else self in
  self ← __setattr__ self "prj" prj;
  let self := set__wkt PyNone self in
  c ← crs_init prj None epsg;
  let self := set_sr_crs c self in
  let self := set__units units self in
  let self := set__length_multiplier length_multiplier self in
  let self := _reset self in
  set_spatialreference self delc xul yul xll yll rotation.


(** *** Derived arrays, computed on first use *)

Definition _set_xycenters (self : SpatialReference) : result SpatialReference :=
  '(x, y) ← transform self (g_xcenters (modelgrid self))
                           (g_ycenters (modelgrid self)) false;
  let self := after_transform self false in
  Ok (set__ycenters (Some y) (set__xcenters (Some x) self)).

Definition _set_xyedges (self : SpatialReference) : result SpatialReference :=
  '(x, y) ← transform self (g_xedges (modelgrid self))
                           (g_yedges (modelgrid self)) false;
  let self := after_transform self false in
  Ok (set__yedges (Some y) (set__xedges (Some x) self)).

(** A getter of a cached array: the value read and the instance after the
    read.  [None] is what the slot holds if the setter left it empty. *)
Definition cached {A : Type} (slot : SpatialReference -> option A)
    (fill : SpatialReference -> result SpatialReference)
    (self : SpatialReference) : result (option A * SpatialReference) :=
  match slot self with
  | None => self ← fill self; Ok (slot self, self)
  | Some v => Ok (Some v, self)
  end.

Definition ycenters := cached _ycenters _set_xycenters.
Definition xcenters := cached _xcenters _set_xycenters.
Definition yedges := cached _yedges _set_xyedges.
Definition xedges := cached _xedges _set_xyedges.

(** [grid[i, j]] on what the edge getters return *)
Definition getitem2 (grid : option num) (i j : nat) : result R :=
  match grid with
  | Some (NdArray a) => index2 a i j
  | Some (PyList _) =>
      Raise (TypeError "list indices must be integers or slices, not tuple")
  | Some (Float _) => Raise (TypeError "'float' object is not subscriptable")
  | None => Raise (TypeError "'NoneType' object is not subscriptable")
  end.

(** [grid[i, j]] for index arrays of one length: entry [k] of the result
    is [grid[i[k], j[k]]]. *)
Fixpoint getitem2_arrays (grid : option num) (i j : list nat)
  : result (list R) :=
  match i, j with
  | [], [] => Ok []
  | a :: i', b :: j' =>
      v ← getitem2 grid a b;
      vs ← getitem2_arrays grid i' j';
      Ok (v :: vs)
  | _, _ => Raise (IndexError "shape mismatch: indexing arrays")
  end.

(** [np.array(pts).transpose([2, 0, 1])] followed by [tolist()] on every
    entry: ring [k] takes entry [k] of the five pairs of arrays. *)
Definition transpose_201 (pts : list (list R * list R)) (n : nat)
  : list (list (R * R)) :=
  map (fun k => map (fun p => (nth k (fst p) 0%R, nth k (snd p) 0%R)) pts)
      (seq 0 n).

(** [get_vertices(i, j)] *)
Definition get_vertices (self : SpatialReference) (ij : index)
  : result (rings * SpatialReference) :=
  '(xgrid, self) ← xedges self;
  '(ygrid, self) ← yedges self;
  match ij with
  | IScalar i j =>
      x0 ← getitem2 xgrid i j; y0 ← getitem2 ygrid i j;
      x1 ← getitem2 xgrid (i + 1) j; y1 ← getitem2 ygrid (i + 1) j;
      x2 ← getitem2 xgrid (i + 1) (j + 1);
      y2 ← getitem2 ygrid (i + 1) (j + 1);
      x3 ← getitem2 xgrid i (j + 1); y3 ← getitem2 ygrid i (j + 1);
      x4 ← getitem2 xgrid i j; y4 ← getitem2 ygrid i j;
      Ok (Ring [(x0, y0); (x1, y1); (x2, y2); (x3, y3); (x4, y4)], self)
  | IArray i j =>
      let i1 := map (fun a => a + 1)%nat i in
      let j1 := map (fun b => b + 1)%nat j in
      x0 ← getitem2_arrays xgrid i j; y0 ← getitem2_arrays ygrid i j;
      x1 ← getitem2_arrays xgrid i1 j; y1 ← getitem2_arrays ygrid i1 j;
      x2 ← getitem2_arrays xgrid i1 j1; y2 ← getitem2_arrays ygrid i1 j1;
      x3 ← getitem2_arrays xgrid i j1; y3 ← getitem2_arrays ygrid i j1;
      x4 ← getitem2_arrays xgrid i j; y4 ← getitem2_arrays ygrid i j;
      let pts := [(x0, y0); (x1, y1); (x2, y2); (x3, y3); (x4, y4)] in
      Ok (Rings (transpose_201 pts (length x0)), self)
  end.

(** [np.meshgrid(range(ncol), range(nrow))] with both results ravelled:
    the column and the row index of every cell in row-major order. *)
Definition meshgrid_ravel (ncol nrow : nat) : list nat * list nat :=
  (flat_map (fun _ => seq 0 ncol) (seq 0 nrow),
   flat_map (fun i => repeat i ncol) (seq 0 nrow)).

Definition _set_vertices (self : SpatialReference) : result SpatialReference :=
  let '(jj, ii) := meshgrid_ravel (g_ncol (modelgrid self))
                                  (g_nrow (modelgrid self)) in
  '(v, self) ← get_vertices self (IArray ii jj);
  Ok (set__vertices (Some v) self).

Definition vertices := cached _vertices _set_vertices.

(** The edge caches are in step with the instance: both empty, or both
    holding the transform of the edges of the attached grid. *)
Definition edges_current (self : SpatialReference) : Prop :=
  match _xedges self, _yedges self with
  | None, None => True
  | Some x, Some y =>
      transform self (g_xedges (modelgrid self)) (g_yedges (modelgrid self))
                false = Ok (x, y)
  | _, _ => False
  end.

(** An array of [nr] rows and [nc] columns *)
Definition has_shape (nr nc : nat) (x : num) : Prop :=
  exists a : ndarray,
    x = NdArray a /\ shape a = [nr; nc] /\ length (data a) = (nr * nc)%nat.

(** A ring of five points that ends where it starts *)
Definition closed_ring (ring : list (R * R)) : Prop :=
  length ring = 5%nat /\ ring !! 0%nat = ring !! 4%nat.

(** [get_grid_lines()]: both ends of every line of the grid, transformed *)
Fixpoint transform_lines (self : SpatialReference)
    (lines : list ((R * R) * (R * R)))
  : result (list ((num * num) * (num * num))) :=
  match lines with
  | [] => Ok []
  | ln :: lines' =>
      p0 ← transform self (Float (fst (fst ln))) (Float (snd (fst ln))) false;
      p1 ← transform self (Float (fst (snd ln))) (Float (snd (snd ln))) false;
      rest ← transform_lines self lines';
      Ok ((p0, p1) :: rest)
  end.

Definition get_grid_lines (self : SpatialReference)
  : result (list ((num * num) * (num * num))) :=
  transform_lines self (g_grid_lines (modelgrid self)).

(** The instance after [get_grid_lines()] has returned: two calls of
    [transform] for every line. *)
Definition after_get_grid_lines (self : SpatialReference)
  : SpatialReference :=
  fold_left (fun self _ => after_transform (after_transform self false) false)
            (g_grid_lines (modelgrid self)) self.

Definition gridlines :=
  cached _gridlines
    (fun self =>
       l ← get_grid_lines self;
       let self := after_get_grid_lines self in
       Ok (set__gridlines (Some l) self)).

End Defs.

End Reference.

(** ** modelgrid.py *)

Module ModelGrid.

Inductive GridType : Type := structured | layered_vertex | unlayered_vertex.

#[export] Instance GridType_eq_dec : EqDecision GridType.
Proof. solve_decision. Defined.

(** What the attribute [grid_type] can hold.  The constructors store the
    enumeration member they are given (the class docstring asks for one);
    the methods below call the attribute, which only a callable object
    supports. *)
Inductive grid_type_attr : Type :=
| Member (g : GridType)
| Callable (returns : GridType).

(** [self.grid_type()] *)
Definition call_grid_type (a : grid_type_attr) : result GridType :=
  match a with
  | Member _ => Raise (TypeError "'GridType' object is not callable")
  | Callable g => Ok g
  end.

Definition not_yet_implemented : exn :=
  NotImplementedError "this feature is not yet implemented".

(** [MFGridException(error)] *)
Definition MFGridException_init (error : string) : exn :=
  MFGridException ("MFGridException: " ++ error).

Definition dquote : string := String "034"%char EmptyString.

(** *** StructuredModelGrid *)

Module Structured.

Record StructuredModelGrid : Type := mk_structured {
  grid_type : grid_type_attr;
  _sr : option Reference.SpatialReference;
  model_name : string;
  delc : list R;
  delr : list R;
  top : num;
  botm : list num;
  idomain : num;
  nlay : nat;
  nrow : nat;
  ncol : nat
}.

(** [StructuredModelGrid(delc, delr, top, botm, idomain, sr)] *)
Definition __init__ (delc delr : list R) (top : num) (botm : list num)
    (idomain : num) (sr : option Reference.SpatialReference)
  : StructuredModelGrid :=
  {| grid_type := Member structured;
     _sr := sr;
     model_name := EmptyString;
     delc := delc;
     delr := delr;
     top := top;
     botm := botm;
     idomain := idomain;
     nlay := length botm;
     nrow := length delr;
     ncol := length delc |}.

Definition num_cells_per_layer (self : StructuredModelGrid)
    (active_only : bool) : result nat :=
  if active_only then Raise not_yet_implemented
  else Ok (nrow self * ncol self)%nat.

Definition num_cells (self : StructuredModelGrid) (active_only : bool)
  : result nat :=
  if active_only then Raise not_yet_implemented
  else Ok (nrow self * ncol self * nlay self)%nat.

End Structured.

(** *** VertexModelGrid *)

Module Vertex.

Record VertexModelGrid : Type := mk_vertex {
  grid_type : grid_type_attr;
  _sr : option Reference.SpatialReference;
  model_name : string;
  top : num;
  botm : list num;
  idomain : num;
  _vertices : list (R * R);
  cell2d : list (list nat);
  nlay : option nat;
  ncpl : option (list Z)
}.

(** [VertexModelGrid(top, botm, idomain, vertices, cell2d, nlay, ncpl,
    sr)] *)
Definition __init__ (top : num) (botm : list num) (idomain : num)
    (vertices : list (R * R)) (cell2d : list (list nat))
    (nlay : option nat) (ncpl : option (list Z))
    (sr : option Reference.SpatialReference) : VertexModelGrid :=
  let grid_type := match nlay with
                   | None => unlayered_vertex
                   | Some _ => layered_vertex
                   end in
  {| grid_type := Member grid_type;
     _sr := sr;
     model_name := EmptyString;
     top := top;
     botm := botm;
     idomain := idomain;
     _vertices := vertices;
     cell2d := cell2d;
     nlay := nlay;
     ncpl := ncpl |}.

Definition except_str_per_layer (self : VertexModelGrid) : string :=
  "ERROR: Model " ++ dquote ++ model_name self ++ dquote
  ++ " is unstructured and does not have a consistant number of cells per layer.".

(** [num_cells_per_layer(active_only)]; a method that reaches its end
    returns [None].  The message is also printed. *)
Definition num_cells_per_layer (self : VertexModelGrid) (active_only : bool)
  : result (option Z) :=
  g ← call_grid_type (grid_type self);
  if bool_decide (g = layered_vertex) then Raise not_yet_implemented
  else
    g ← call_grid_type (grid_type self);
    if bool_decide (g = unlayered_vertex)
    then Raise (MFGridException_init (except_str_per_layer self))
    else Ok None.

(** [num_cells(active_only)] *)
Definition num_cells (self : VertexModelGrid) (active_only : bool)
  : result (option Z) :=
  if active_only then Raise not_yet_implemented
  else
    g ← call_grid_type (grid_type self);
    if bool_decide (g = layered_vertex) then
      match ncpl self with
      | Some layers => Ok (Some (fold_left Z.add layers 0%Z))
      | None => Raise (TypeError "'NoneType' object is not iterable")
      end
    else
      g ← call_grid_type (grid_type self);
      if bool_decide (g = unlayered_vertex) then Raise not_yet_implemented
      else Ok None.

End Vertex.

End ModelGrid.

(** ** reference.py: the local store of EPSG texts and [getprj] *)

Module Resolver.

(** The file [epsgref.py] is a sequence of statements: [prj = {}] written
    by [make], and one [prj[epsg] = 'text'] per call of [add].  Texts are
    taken to be free of quotes and backslashes, so that every line written
    is one assignment. *)
Inductive statement : Type :=
| Init
| Assign (epsg : Z) (prj : string).

(** The file system, the interpreter and the network as [getprj] sees
    them: the file, if it exists; the entry of [sys.modules] for
    [epsgref], if this process has imported the module, with the
    dictionary its name [prj] is bound to, if the name is bound; and the
    addresses requested so far.  [sys.path] is taken to hold the
    site-packages folder the file is kept in, and the import system to
    find the file as it is on disk (no stale directory listing or byte
    code). *)
Record world : Type := mk_world {
  epsgref : option (list statement);
  loaded : option (option (gmap Z string));
  requested : list url
}.

(** Running the body of the file: the binding of [prj] it leaves. *)
Fixpoint exec (stmts : list statement) (prj : option (gmap Z string))
  : result (option (gmap Z string)) :=
  match stmts with
  | [] => Ok prj
  | Init :: stmts' => exec stmts' (Some ∅)
  | Assign k v :: stmts' =>
      match prj with
      | Some d => exec stmts' (Some (<[k := v]> d))
      | None => Raise (NameError "name 'prj' is not defined")
      end
  end.

(** The name [prj] of a module that has been run *)
Definition attribute (ns : option (gmap Z string))
  : result (gmap Z string) :=
  match ns with
  | Some d => Ok d
  | None => Raise (ImportError "cannot import name 'prj'")
  end.

(** What [from epsgref import prj] gives where the file is run *)
Definition run (stmts : list statement) : result (gmap Z string) :=
  ns ← exec stmts None; attribute ns.

(** [from epsgref import prj]: the result and the world after it.  A
    module the process has imported is not run again: the import gives
    the dictionary of the module in [sys.modules], whatever the file
    holds by now.  Otherwise the file is run; the module stays in
    [sys.modules] when its body returns, also when that leaves no name
    [prj], and is dropped when the body raises. *)
Definition import_prj (w : world) : result (gmap Z string) * world :=
  match loaded w with
  | Some ns => (attribute ns, w)
  | None =>
      match epsgref w with
      | None => (Raise (ImportError "No module named 'epsgref'"), w)
      | Some stmts =>
          match exec stmts None with
          | Ok ns => (attribute ns,
                      {| epsgref := epsgref w; loaded := Some ns;
                         requested := requested w |})
          | Raise e => (Raise e, w)
          end
      end
  end.

(** [prj.get(epsg)] on what the import gives: the text the process finds
    for a code, if the import returns and its dictionary has one. *)
Definition lookup (epsg : Z) (w : world) : option string :=
  match fst (import_prj w) with
  | Ok prj => prj !! epsg
  | Raise _ => None
  end.

(** A new interpreter on the same files: nothing is imported yet. *)
Definition restart (w : world) : world :=
  {| epsgref := epsgref w; loaded := None; requested := requested w |}.

(** The text the file holds for a code: what a process that imports the
    file for the first time finds. *)
Definition stored (epsg : Z) (w : world) : option string :=
  match epsgref w with
  | Some stmts =>
      match run stmts with
      | Ok prj => prj !! epsg
      | Raise _ => None
      end
  | None => None
  end.


(** [epsgRef.make()] *)
Definition make (w : world) : world :=
  match epsgref w with
  | None => {| epsgref := Some [Init]; loaded := loaded w;
               requested := requested w |}
  | Some _ => w
  end.

(** [epsgRef.reset()] *)
Definition reset (w : world) : world :=
  make {| epsgref := None; loaded := loaded w; requested := requested w |}.

(** [epsgRef.add(epsg, prj)]: the file is opened for appending. *)
Definition add (epsg : Z) (prj : string) (w : world) : world :=
  {| epsgref := Some (default [] (epsgref w) ++ [Assign epsg prj])%list;
     loaded := loaded w;
     requested := requested w |}.

Section Defs.
Context `{Environment}.

(** [get_spatialreference] with its requests recorded. *)
Definition remote_lookup (epsg : Z) (text : string) (w : world)
  : option string * world :=
  let '(us, r) := Remote.get_spatialreference (PyIntV epsg) text in
  (r, {| epsgref := epsgref w; loaded := loaded w;
         requested := (requested w ++ us)%list |}).

(** [getprj(epsg, addlocalreference, text)] *)
Definition getprj (epsg : Z) (addlocalreference : bool) (text : string)
    (w : world) : option string * world :=
  let '(wktstr, w) :=
    match import_prj w with
    | (Ok prj, w) => (prj !! epsg, w)
    | (Raise _, w) => (None, make w)
    end in
  let '(wktstr, w) :=
    match wktstr with
    | None => remote_lookup epsg text w
    | Some _ => (wktstr, w)
    end in
  let w := match wktstr with
           | Some t => if addlocalreference then add epsg t w else w
           | None => w
           end in
  (wktstr, w).

End Defs.

End Resolver.

(** ** reference.py: [transform] on the caller's objects

    Python lists and arrays are objects in a store and the arguments of
    [transform] are references to them; the augmented assignments of
    [transform] write through such a reference. *)

Module Aliasing.

Inductive object : Type :=
| ListObj (l : list R)
| ArrayObj (a : ndarray).

(** An argument is a float or the address of an object in the store. *)
Inductive value : Type :=
| VFloat (r : R)
| VRef (l : nat).

(** A computation on the store that may raise; a raise keeps the stores
    made before it. *)
Definition M (A : Type) : Type := list object -> list object * result A.

Definition ret {A : Type} (a : A) : M A := fun h => (h, Ok a).

Definition raise {A : Type} (e : exn) : M A := fun h => (h, Raise e).

Definition lift {A : Type} (r : result A) : M A := fun h => (h, r).

Definition seq_ {A B : Type} (m : M A) (k : A -> M B) : M B :=
  fun h => match m h with
           | (h', Ok a) => k a h'
           | (h', Raise e) => (h', Raise e)
           end.

#[export] Instance M_ret : MRet M := @ret.
#[export] Instance M_bind : MBind M := fun A B k m => seq_ m k.

(** A new object, at the next free address. *)
Definition alloc (o : object) : M value :=
  fun h => ((h ++ [o])%list, Ok (VRef (length h))).

(** The object behind an address (every address handed out is in the
    store). *)
Definition deref (l : nat) : M object :=
  fun h => match h !! l with
           | Some o => (h, Ok o)
           | None => (h, Raise (KeyError "no object at this address"))
           end.

Definition update (l : nat) (o : object) : M unit :=
  fun h => (<[l := o]> h, Ok tt).

(** [isinstance(x, list)] *)
Definition isinstance_list (x : value) : M bool :=
  match x with
  | VFloat _ => ret false
  | VRef l =>
      o ← deref l;
      ret (match o with ListObj _ => true | ArrayObj _ => false end)
  end.

(** [np.isscalar(x)] *)
Definition isscalar (x : value) : bool :=
  match x with VFloat _ => true | VRef _ => false end.

(** [np.array(x)] *)
Definition array (x : value) : M value :=
  match x with
  | VFloat r => alloc (ArrayObj {| shape := []; data := [r] |})
  | VRef l =>
      o ← deref l;
      match o with
      | ListObj xs => alloc (ArrayObj {| shape := [length xs]; data := xs |})
      | ArrayObj a => alloc (ArrayObj a)
      end
  end.

(** [x.copy()] *)
Definition copy (x : value) : M value :=
  match x with
  | VFloat _ => raise (AttributeError "'float' object has no attribute 'copy'")
  | VRef l => o ← deref l; alloc o
  end.

(** [x op= c] for a float [c]: a float operand is rebound, an array is
    written in place, a list does not support the operator. *)
Definition inplace (f : R -> R) (x : value) : M value :=
  match x with
  | VFloat r => ret (VFloat (f r))
  | VRef l =>
      o ← deref l;
      match o with
      | ArrayObj a => _ ← update l (ArrayObj (amap f a)); ret (VRef l)
      | ListObj _ =>
          raise (TypeError "unsupported operand type(s): 'list' and 'float'")
      end
  end.

(** [x /= d] *)
Definition inplace_divide (d : R) (x : value) : M value :=
  match x with
  | VFloat r =>
      if Req_dec_T d 0 then raise ZeroDivisionError
      else ret (VFloat (r / d)%R)
  | VRef l =>
      o ← deref l;
      match o with
      | ArrayObj a =>
          if Req_dec_T d 0 then raise (FloatingPointError "divide by zero")
          else _ ← update l (ArrayObj (amap (fun v => v / d)%R a));
               ret (VRef l)
      | ListObj _ =>
          raise (TypeError "unsupported operand type(s): 'list' and 'float'")
      end
  end.

(** The contents an expression reads through a value. *)
Definition load (x : value) : M num :=
  match x with
  | VFloat r => ret (Float r)
  | VRef l =>
      o ← deref l;
      ret (match o with ListObj xs => PyList xs | ArrayObj a => NdArray a end)
  end.

(** The value of a computed operand: a computed array is a new object. *)
Definition new (n : num) : M value :=
  match n with
  | Float r => ret (VFloat r)
  | PyList xs => alloc (ListObj xs)
  | NdArray a => alloc (ArrayObj a)
  end.

Section Defs.
Context `{Environment}.

(** [rotate] builds its results with binary operators only, so it reads
    its operands and returns new objects. *)
Definition rotate (x y : value) (theta xorigin yorigin : R)
  : M (value * value) :=
  nx ← load x;
  ny ← load y;
  r ← lift (Reference.rotate nx ny theta xorigin yorigin);
  xrot ← new (fst r);
  yrot ← new (snd r);
  ret (xrot, yrot).

(** [transform(x, y, inverse)] on the store of the caller's objects.
    What the reads of the getters store in the instance itself is
    [Reference.after_transform]; it changes no value read here. *)
Definition transform (self : Reference.SpatialReference) (x y : value)
    (inverse : bool) : M (value * value) :=
  is_list ← isinstance_list x;
  xy ← (if is_list : bool
        then x' ← array x; y' ← array y; ret (x', y')
        else ret (x, y));
  xy ← (if negb (isscalar (fst xy))
        then x' ← copy (fst xy); y' ← copy (snd xy); ret (x', y')
        else ret xy);
  let '(x, y) := xy in
  if negb inverse then
    lm ← lift (Reference.lm_value self);
    x ← inplace (fun v => v * lm)%R x;
    lm ← lift (Reference.lm_value self);
    y ← inplace (fun v => v * lm)%R y;
    xo ← lift (Reference.xll self);
    x ← inplace (fun v => v + xo)%R x;
    yo ← lift (Reference.yll self);
    y ← inplace (fun v => v + yo)%R y;
    xo ← lift (Reference.xll self);
    yo ← lift (Reference.yll self);
    rotate x y (Reference.rotation self) xo yo
  else
    xo ← lift (Reference.xll self);
    yo ← lift (Reference.yll self);
    xy ← rotate x y (- Reference.rotation self) xo yo;
    let '(x, y) := xy in
    xo ← lift (Reference.xll self);
    x ← inplace (fun v => v - xo)%R x;
    yo ← lift (Reference.yll self);
    y ← inplace (fun v => v - yo)%R y;
    lm ← lift (Reference.lm_value self);
    x ← inplace_divide lm x;
    lm ← lift (Reference.lm_value self);
    y ← inplace_divide lm y;
    ret (x, y).

End Defs.

(** What a value stands for in a store: the float, or the contents of the
    object it points to. *)
Definition denote (h : list object) (x : value) : option num :=
  match x with
  | VFloat r => Some (Float r)
  | VRef l =>
      match h !! l with
      | Some (ListObj xs) => Some (PyList xs)
      | Some (ArrayObj a) => Some (NdArray a)
      | None => None
      end
  end.

(** Two values that are not the same object. *)
Definition disjoint (x y : value) : Prop :=
  match x, y with
  | VRef a, VRef b => a <> b
  | _, _ => True
  end.

(** The value an augmented assignment leaves in its variable. *)
Definition rebound (f : R -> R) (x : value) : value :=
  match x with
  | VFloat r => VFloat (f r)
  | VRef l => VRef l
  end.

(** A computation on the store does what a computation on values does:
    it raises the same exception, or returns results related by [rel] in
    the store it leaves. *)
Definition refines {A B : Type} (m : M B) (v : result A) (h : list object)
    (rel : list object -> B -> A -> Prop) : Prop :=
  match v with
  | Ok a => exists (h' : list object) (b : B), m h = (h', Ok b) /\ rel h' b a
  | Raise e => exists h' : list object, m h = (h', Raise e)
  end.

(** Both results of a pair stand for the values of a pair. *)
Definition denotes_pair (h : list object) (b : value * value)
    (a : num * num) : Prop :=
  denote h (fst b) = Some (fst a) /\ denote h (snd b) = Some (snd a).

(** A value that does not point below address [n]. *)
Definition fresh (n : nat) (x : value) : Prop :=
  match x with
  | VFloat _ => True
  | VRef l => n <= l
  end.

(** A computation that leaves the first [n] objects of the store as they
    are, and whose results satisfy [Q]. *)
Definition preserves {A : Type} (n : nat) (m : M A) (Q : A -> Prop) : Prop :=
  forall h : list object,
    n <= length h ->
    n <= length (fst (m h)) /\
    (forall l : nat, l < n -> fst (m h) !! l = h !! l) /\
    (forall a : A, snd (m h) = Ok a -> Q a).

End Aliasing.

(** ** reference.py: what the derived arrays depend on *)

Module Coherence.
Import Reference.

(** The attributes the getters and [transform] read, apart from [_epsg]:
    everything but the six cache slots, [_epsg] and the slots nothing
    reads back. *)
Definition parameters (self : SpatialReference) :=
  (modelgrid self, _lenuni self, _proj4_str self, _units self,
   _length_multiplier self, origin_loc self, rotation self,
   (_xul self, _yul self, _xll self, _yll self, _yedge self)).

Section Defs.
Context `{Environment}.

(** What reads can do to [_epsg]: leave it, or store in it the code that
    the [proj4_str] getter parses from the PROJ.4 text. *)
Definition epsg_read (self s : SpatialReference) : Prop :=
  _epsg s = _epsg self \/ _epsg s = _epsg (after_proj4_str self).

(** [s] can be [self] after reads, as far as the slots outside the
    caches go. *)
Definition read_from (self s : SpatialReference) : Prop :=
  parameters s = parameters self /\ epsg_read self s.

(** The centre caches are in step with the instance: both empty, or both
    holding the transform of the cell centres of the attached grid. *)
Definition centers_current (self : SpatialReference) : Prop :=
  match _xcenters self, _ycenters self with
  | None, None => True
  | Some x, Some y =>
      transform self (g_xcenters (modelgrid self))
                (g_ycenters (modelgrid self)) false = Ok (x, y)
  | _, _ => False
  end.

Definition current (self : SpatialReference) : Prop :=
  edges_current self /\ centers_current self.

(** The six derived attributes, and reading one of them by name: the
    value read and the instance after the read. *)
Inductive derived : Type :=
  | Xedges | Yedges | Xcenters | Ycenters | Vertices | Gridlines.

Inductive derived_value : Type :=
  | Array (v : option num)
  | RingList (v : option rings)
  | LineList (v : option (list ((num * num) * (num * num)))).

Definition read (name : derived) (self : SpatialReference)
  : result (derived_value * SpatialReference) :=
  match name with
  | Xedges => '(v, s) ← xedges self; Ok (Array v, s)
  | Yedges => '(v, s) ← yedges self; Ok (Array v, s)
  | Xcenters => '(v, s) ← xcenters self; Ok (Array v, s)
  | Ycenters => '(v, s) ← ycenters self; Ok (Array v, s)
  | Vertices => '(v, s) ← vertices self; Ok (RingList v, s)
  | Gridlines => '(v, s) ← gridlines self; Ok (LineList v, s)
  end.

End Defs.

End Coherence.

(** ** reference.py: removing a code from the local store *)

Module Store.
Import Resolver.

(** [epsgRef.remove(epsg)]: the result and the world after it.  When
    the import raises nothing is written.  [del prj[epsg]] acts on the
    dictionary of the module in [sys.modules], and the file is written
    again from that dictionary.  The entries are written in the order of
    the dictionary; their codes are distinct, so the order does not
    change what the file defines. *)
Definition remove (epsg : Z) (w : world) : result unit * world :=
  match import_prj w with
  | (Raise e, w) => (Raise e, w)
  | (Ok prj, w) =>
      let w := reset w in
      let prj := if bool_decide (is_Some (prj !! epsg)) then delete epsg prj
                 else prj in
      let w := {| epsgref := epsgref w; loaded := Some (Some prj);
                  requested := requested w |} in
      (Ok tt, foldl (fun w kv => add (fst kv) (snd kv) w) w (map_to_list prj))
  end.

(** The file starts with an assignment: it was first written by [add],
    without [make]. *)
Definition headless (w : world) : Prop :=
  exists (k : Z) (v : string) (rest : list statement),
    epsgref w = Some (Assign k v :: rest).

End Store.

(** ** modelgrid.py: dimensions and index arrays *)

Module Dimensions.
Import ModelGrid.

(** [np.arange(1, n + 1, 1, np.int)] *)
Definition arange1 (n : Z) : list Z :=
  map Z.of_nat (seq 1 (Z.to_nat n)).

(** An attribute used as a number: [None + 1] raises. *)
Definition as_int (v : option Z) : result Z :=
  match v with
  | Some z => Ok z
  | None =>
      Raise (TypeError "unsupported operand type(s) for +: 'NoneType' and 'int'")
  end.

Definition int_value (v : option Z) : pyval :=
  match v with
  | Some z => PyIntV z
  | None => PyNone
  end.

Module Structured.
Import ModelGrid.Structured.

Definition get_row_array (self : StructuredModelGrid) : list Z :=
  arange1 (Z.of_nat (nrow self)).

Definition get_column_array (self : StructuredModelGrid) : list Z :=
  arange1 (Z.of_nat (ncol self)).

Definition get_layer_array (self : StructuredModelGrid) : list Z :=
  arange1 (Z.of_nat (nlay self)).

Definition get_model_dim_arrays (self : StructuredModelGrid)
  : list (list Z) :=
  [arange1 (Z.of_nat (nlay self)); arange1 (Z.of_nat (nrow self));
   arange1 (Z.of_nat (ncol self))].

(** [get_model_dim()]; a method that reaches its end returns [None]. *)
Definition get_model_dim (self : StructuredModelGrid)
  : result (option (list nat)) :=
  g ← call_grid_type (grid_type self);
  if bool_decide (g = structured)
  then Ok (Some [nlay self; nrow self; ncol self])
  else
    g ← call_grid_type (grid_type self);
    if bool_decide (g = layered_vertex) then
      n ← num_cells_per_layer self false;
      Ok (Some [nlay self; n])
    else
      g ← call_grid_type (grid_type self);
      if bool_decide (g = unlayered_vertex) then
        n ← num_cells self false;
        Ok (Some [n])
      else Ok None.

Definition get_model_dim_names (self : StructuredModelGrid)
  : result (option (list string)) :=
  g ← call_grid_type (grid_type self);
  if bool_decide (g = structured)
  then Ok (Some ["layer"; "row"; "column"])
  else
    g ← call_grid_type (grid_type self);
    if bool_decide (g = layered_vertex)
    then Ok (Some ["layer"; "layer_cell_num"])
    else
      g ← call_grid_type (grid_type self);
      if bool_decide (g = unlayered_vertex) then Ok (Some ["node"])
      else Ok None.

Definition get_horizontal_cross_section_dim_names
    (self : StructuredModelGrid) : list string :=
  ["row"; "column"].

Definition get_horizontal_cross_section_dim_arrays
    (self : StructuredModelGrid) : list (list Z) :=
  [arange1 (Z.of_nat (nrow self)); arange1 (Z.of_nat (ncol self))].

End Structured.

Module Vertex.
Import ModelGrid.Vertex.

Definition get_model_dim_arrays (self : VertexModelGrid)
  : result (option (list (list Z))) :=
  g ← call_grid_type (grid_type self);
  if bool_decide (g = layered_vertex) then
    nl ← as_int (option_map Z.of_nat (nlay self));
    n ← num_cells_per_layer self false;
    n ← as_int n;
    Ok (Some [arange1 nl; arange1 n])
  else
    g ← call_grid_type (grid_type self);
    if bool_decide (g = unlayered_vertex) then
      n ← num_cells self false;
      n ← as_int n;
      Ok (Some [arange1 n])
    else Ok None.

(** [max(self.ncpl)] *)
Definition max_ncpl (self : VertexModelGrid) : result Z :=
  match ncpl self with
  | None => Raise (TypeError "'NoneType' object is not iterable")
  | Some [] => Raise (ValueError "max() arg is an empty sequence")
  | Some (z :: layers) => Ok (fold_left Z.max layers z)
  end.

Definition get_model_dim (self : VertexModelGrid)
  : result (option (list pyval)) :=
  g ← call_grid_type (grid_type self);
  if bool_decide (g = layered_vertex) then
    m ← max_ncpl self;
    Ok (Some [int_value (option_map Z.of_nat (nlay self)); PyIntV m])
  else
    g ← call_grid_type (grid_type self);
    if bool_decide (g = unlayered_vertex) then
      n ← num_cells self false;
      Ok (Some [int_value n])
    else Ok None.

Definition get_model_dim_names (self : VertexModelGrid)
  : result (option (list string)) :=
  g ← call_grid_type (grid_type self);
  if bool_decide (g = structured)
  then Ok (Some ["layer"; "row"; "column"])
  else
    g ← call_grid_type (grid_type self);
    if bool_decide (g = layered_vertex)
    then Ok (Some ["layer"; "layer_cell_num"])
    else
      g ← call_grid_type (grid_type self);
      if bool_decide (g = unlayered_vertex) then Ok (Some ["node"])
      else Ok None.

Definition except_str_dim_names (self : VertexModelGrid) : string :=
  "ERROR: Can not get layer dimension name for model " ++ dquote
  ++ model_name self ++ dquote
  ++ " DISU grid. DISU grids do not support layers.".

Definition except_str_dim_arrays (self : VertexModelGrid) : string :=
  "ERROR: Can not get horizontal plane arrays for model " ++ dquote
  ++ model_name self ++ dquote
  ++ " DISU grid.  DISU grids do not support individual layers.".

(** The messages of the next two methods are also printed. *)
Definition get_horizontal_cross_section_dim_names (self : VertexModelGrid)
  : result (option (list string)) :=
  g ← call_grid_type (grid_type self);
  if bool_decide (g = layered_vertex) then Ok (Some ["layer_cell_num"])
  else
    g ← call_grid_type (grid_type self);
    if bool_decide (g = unlayered_vertex)
    then Raise (MFGridException_init (except_str_dim_names self))
    else Ok None.

Definition get_horizontal_cross_section_dim_arrays (self : VertexModelGrid)
  : result (option (list (list Z))) :=
  g ← call_grid_type (grid_type self);
  if bool_decide (g = layered_vertex) then
    n ← num_cells_per_layer self false;
    n ← as_int n;
    Ok (Some [arange1 n])
  else
    g ← call_grid_type (grid_type self);
    if bool_decide (g = unlayered_vertex)
    then Raise (MFGridException_init (except_str_dim_arrays self))
    else Ok None.

End Vertex.

End Dimensions.

(** ** reference.py: TemporalReference *)

Module Temporal.

Definition itmuni_values : list (string * Z) :=
  [("undefined", 0%Z); ("seconds", 1%Z); ("minutes", 2%Z); ("hours", 3%Z);
   ("days", 4%Z); ("years", 5%Z)].

(** [{v: k for k, v in itmuni_values.items()}] *)
Definition itmuni_text : list (Z * string) :=
  map (fun kv => (snd kv, fst kv)) itmuni_values.

Record TemporalReference : Type := mk_temporal {
  itmuni : pyval;
  start_datetime : pyval
}.

(** The constructor raises a plain [Exception], which is kept apart from
    the exceptions of the built-in classes. *)
Inductive built (A : Type) : Type :=
| Built (a : A)
| Invalid (message : string).
Arguments Built {A} a.
Arguments Invalid {A} message.

Definition assoc {K V : Type} (eqb : K -> K -> bool) (k : K)
    (l : list (K * V)) : option V :=
  option_map snd (find (fun kv => eqb k (fst kv)) l).

Definition newline : string := String "010"%char EmptyString.

(** [TemporalReference(itmuni, start_datetime)] *)
Definition __init__ (itmuni start_datetime : pyval)
  : built TemporalReference :=
  match itmuni with
  | PyStrV s =>
      match assoc String.eqb s itmuni_values with
      | Some v =>
          Built {| itmuni := PyIntV v; start_datetime := start_datetime |}
      | None => Invalid ("invalid itmuni value: " ++ s ++ newline)
      end
  | _ => Built {| itmuni := itmuni; start_datetime := start_datetime |}
  end.

(** The key of a dictionary with integer keys that a value is equal to:
    an integer, or a float with an integral value. *)
Definition int_key (v : pyval) : option Z :=
  match v with
  | PyIntV z => Some z
  | PyFloatV r =>
      let z := Int_part r in
      if Req_dec_T r (IZR z) then Some z else None
  | _ => None
  end.

(** The [model_time_units] property: [itmuni_text[self.itmuni]] *)
Definition model_time_units (self : TemporalReference) : result string :=
  match int_key (itmuni self) with
  | Some z =>
      match assoc Z.eqb z itmuni_text with
      | Some name => Ok name
      | None => Raise (KeyError "itmuni")
      end
  | None => Raise (KeyError "itmuni")
  end.

End Temporal.

(** ** reference.py: the [crs] property of the class [crs] *)

Module CrsProperty.

(** What [parse_wkt] leaves on the instance, as far as the property
    reads it.  A text that is not found is [None]; [primem0] is the first
    entry of [primem]. *)
Record parsed : Type := mk_parsed {
  projcs : option string;
  geogcs : option string;
  datum : option string;
  spheriod_name : option string;
  primem0 : option string;
  semi_major_axis : option R;
  inverse_flattening : option R;
  latitude_of_origin : option R;
  standard_parallel_1 : option R;
  standard_parallel_2 : option R;
  central_meridian : option R;
  scale_factor : option R;
  false_easting : option R;
  false_northing : option R;
  projcs_unit : option string * option R;
  utm_zone : option string
}.

(** The dictionary the property returns *)
Record proj4_parameters : Type := mk_parameters {
  proj : option string;
  p_datum : string;
  ellps : string;
  a : option R;
  rf : option R;
  lat_0 : option R;
  lat_1 : option R;
  lat_2 : option R;
  lon_0 : option R;
  k_0 : option R;
  x_0 : option R;
  y_0 : option R;
  units : option string * option R;
  zone : option string
}.

(** A string literal used as a condition *)
Definition truthy (s : string) : bool := negb (Str.is_empty s).

(** [value.lower()] on an attribute that may be [None] *)
Definition lower_of (value : option string) : result string :=
  match value with
  | Some s => Ok (Str.lower s)
  | None => Raise (AttributeError "'NoneType' object has no attribute 'lower'")
  end.

(** A local name read at the [return]: [UnboundLocalError], a
    [NameError], when no branch has assigned it. *)
Definition local (name : string) (value : option string) : result string :=
  match value with
  | Some v => Ok v
  | None =>
      Raise (NameError ("local variable '" ++ name
                        ++ "' referenced before assignment"))
  end.

Definition crs (self : parsed) : result proj4_parameters :=
  let proj :=
    match projcs self with
    | Some p =>
        if Str.contains "mercator" (Str.lower p) then
          if Str.contains "transvers" (Str.lower p)
             || Str.contains "tm" (Str.lower p)
          then Some "tmerc" else Some "merc"
        else if Str.contains "utm" (Str.lower p)
                && Str.contains "zone" (Str.lower p) then Some "utm"
        else if Str.contains "stateplane" (Str.lower p) then Some "lcc"
        else if truthy "lambert" && truthy "conformal"
                && Str.contains "conic" (Str.lower p) then Some "lcc"
        else if Str.contains "albers" (Str.lower p) then Some "aea"
        else None
    | None =>
        match geogcs self with
        | Some _ => Some "longlat"
        | None => None
        end
    end in
  d ← lower_of (datum self);
  let datum :=
    if Str.contains "NAD" d
       || (Str.contains "north" d && Str.contains "america" d)
    then Some ("nad" ++ (if Str.contains "83" d then "83"
                         else if Str.contains "27" d then "27"
                         else EmptyString))
    else if Str.contains "84" d then Some "wgs84"
    else None in
  name ← match spheriod_name self with
         | Some s => Ok s
         | None => Raise (TypeError "argument of type 'NoneType' is not iterable")
         end;
  let ellps :=
    if Str.contains "1866" name then Some "clrk66"
    else if Str.contains "grs" (Str.lower name) then Some "grs80"
    else if Str.contains "wgs" (Str.lower name) then Some "wgs84"
    else None in
  pm ← lower_of (primem0 self);
  datum ← local "datum" datum;
  ellps ← local "ellps" ellps;
  Ok {| proj := proj; p_datum := datum; ellps := ellps;
        a := semi_major_axis self; rf := inverse_flattening self;
        lat_0 := latitude_of_origin self; lat_1 := standard_parallel_1 self;
        lat_2 := standard_parallel_2 self; lon_0 := central_meridian self;
        k_0 := scale_factor self; x_0 := false_easting self;
        y_0 := false_northing self; units := projcs_unit self;
        zone := utm_zone self |}.

End CrsProperty.

(** ** reference.py: reference attributes in the header of a name file *)

Module Namfile.
Import Reference.

(** A dictionary with string keys, in insertion order *)
Definition dict : Type := list (string * pyval).

Definition keys (d : dict) : list string := map fst d.

(** [d[k] = v] *)
Fixpoint dict_set (k : string) (v : pyval) (d : dict) : dict :=
  match d with
  | [] => [(k, v)]
  | (k', v') :: d' =>
      if String.eqb k k' then (k', v) :: d' else (k', v') :: dict_set k v d'
  end.

(** [d.pop(k)] inside [try ... except: pass] *)
Definition dict_pop (k : string) (d : dict) : dict :=
  List.filter (fun kv => negb (String.eqb k (fst kv))) d.

Definition defaults : dict :=
  [("xul", PyNone); ("yul", PyNone); ("rotation", PyFloatV 0%R);
   ("proj4_str", PyNone); ("units", PyNone); ("lenuni", PyIntV 2%Z);
   ("length_multiplier", PyNone); ("source", PyStrV "defaults")].

(** The parameters of [SpatialReference.__init__] *)
Definition init_parameters : list string :=
  ["delr"; "delc"; "grid"; "lenuni"; "xul"; "yul"; "xll"; "yll";
   "rotation"; "proj4_str"; "epsg"; "prj"; "units"; "length_multiplier"].

(** [s.strip()] *)
Fixpoint lstrip (s : string) : string :=
  match s with
  | EmptyString => EmptyString
  | String c s' => if Str.is_space c then lstrip s' else s
  end.

Fixpoint rstrip (s : string) : string :=
  match s with
  | EmptyString => EmptyString
  | String c s' =>
      let r := rstrip s' in
      if Str.is_empty r && Str.is_space c then EmptyString else String c r
  end.

Definition strip (s : string) : string := rstrip (lstrip s).

(** [s.replace(c, empty)] for a character [c] *)
Fixpoint remove_char (c : ascii) (s : string) : string :=
  match s with
  | EmptyString => EmptyString
  | String c' s' =>
      if Ascii.eqb c' c then remove_char c s'
      else String c' (remove_char c s')
  end.

(** [sep.join(l)] *)
Fixpoint join (sep : string) (l : list string) : string :=
  match l with
  | [] => EmptyString
  | [s] => s
  | s :: l' => s ++ sep ++ join sep l'
  end.

(** [l[1]] *)
Definition second (l : list string) : result string :=
  match l with
  | _ :: s :: _ => Ok s
  | _ => Raise (IndexError "list index out of range")
  end.

(** The loop over the file: the items of the comment lines the file
    starts with. *)
Fixpoint header_items (lines : list string) : list string :=
  match lines with
  | [] => []
  | line :: lines' =>
      if negb (String.prefix "#" line) then []
      else (Str.split_on ";" (remove_char "#" (strip line))
            ++ header_items lines')%list
  end.

(** The keys a header dictionary can have: those of [defaults], with
    [start_datetime] after them once a start item was read. *)
Definition header_keys (d : dict) : Prop :=
  keys d = keys defaults \/
  keys d = (keys defaults ++ ["start_datetime"])%list.

(** The keywords of a call that the constructor has no parameter for *)
Definition unexpected (d : dict) : list string :=
  List.filter (fun k => negb (Str.mem k init_parameters)) (keys d).

Section Defs.
Context `{Environment}.

(** [open(namefile)] and its lines; and the constructor called with
    keywords that are all parameters of it. *)
Variable readlines : string -> result (list string).
Variable construct : dict -> result SpatialReference.

Definition to_float (s : string) : result R :=
  match float_of_string s with
  | Some r => Ok r
  | None => Raise (ValueError "could not convert string to float")
  end.

Definition to_int (s : string) : result Z :=
  match int_of_string s with
  | Some z => Ok z
  | None => Raise (ValueError "invalid literal for int()")
  end.

(** One pass of the loop over the items *)
Definition set_item (d : dict) (item : string) : result dict :=
  if Str.contains "xul" (Str.lower item) then
    Ok (try_except
          (t ← second (Str.split_on ":" item); r ← to_float t;
           Ok (dict_set "xul" (PyFloatV r) d))
          d)
  else if Str.contains "yul" (Str.lower item) then
    Ok (try_except
          (t ← second (Str.split_on ":" item); r ← to_float t;
           Ok (dict_set "yul" (PyFloatV r) d))
          d)
  else if Str.contains "rotation" (Str.lower item) then
    Ok (try_except
          (t ← second (Str.split_on ":" item); r ← to_float t;
           Ok (dict_set "rotation" (PyFloatV r) d))
          d)
  else if Str.contains "proj4_str" (Str.lower item) then
    let proj4_str := strip (join ":" (tl (Str.split_on ":" item))) in
    Ok (dict_set "proj4_str"
          (if String.eqb (Str.lower proj4_str) "none" then PyNone
           else PyStrV proj4_str)
          d)
  else if Str.contains "start" (Str.lower item) then
    Ok (try_except
          (t ← second (Str.split_on ":" item);
           Ok (dict_set "start_datetime" (PyStrV (strip t)) d))
          d)
  else if Str.contains "units" (Str.lower item) then
    t ← second (Str.split_on ":" item);
    Ok (dict_set "units" (PyStrV (strip t)) d)
  else if Str.contains "lenuni" (Str.lower item) then
    t ← second (Str.split_on ":" item);
    z ← to_int (strip t);
    Ok (dict_set "lenuni" (PyIntV z) d)
  else if Str.contains "length_multiplier" (Str.lower item) then
    t ← second (Str.split_on ":" item);
    r ← to_float (strip t);
    Ok (dict_set "length_multiplier" (PyFloatV r) d)
  else Ok d.

Fixpoint set_items (d : dict) (items : list string) : result dict :=
  match items with
  | [] => Ok d
  | item :: items' => d ← set_item d item; set_items d items'
  end.

(** [attribs_from_namfile_header(namefile)] *)
Definition attribs_from_namfile_header (namefile : option string)
  : result (option dict) :=
  let d := dict_set "source" (PyStrV "namfile") defaults in
  match namefile with
  | None => Ok None
  | Some path =>
      lines ← readlines path;
      d ← set_items d (header_items lines);
      Ok (Some d)
  end.

(** [from_namfile(namefile)] *)
Definition from_namfile (namefile : option string)
  : result SpatialReference :=
  attribs ← attribs_from_namfile_header namefile;
  match attribs with
  | None =>
      Raise (TypeError "argument after ** must be a mapping, not NoneType")
  | Some d =>
      let d := dict_pop "start_datetime" d in
      match unexpected d with
      | k :: _ =>
          Raise (TypeError ("__init__() got an unexpected keyword argument '"
                            ++ k ++ "'"))
      | [] => construct d
      end
  end.

End Defs.

End Namfile.

(** ** A closed environment and sample grids *)

Module Samples.

(** [meshgrid(xs, ys)] as two arrays with one row per entry of [ys] *)
Definition meshgrid (xs ys : list R) : num * num :=
  (NdArray {| shape := [length ys; length xs];
              data := flat_map (fun _ => xs) ys |},
   NdArray {| shape := [length ys; length xs];
              data := flat_map (fun y => repeat y (length xs)) ys |}).

Fixpoint mids (l : list R) : list R :=
  match l with
  | a :: (b :: _) as l' => ((a + b) / 2)%R :: mids l'
  | _ => []
  end.

(** Modelled from the spec: the structured grid of
    [structuredmodelgrid.py], which is not among the sources.  It has one
    row per entry of [delc] and one column per entry of [delr]; its edge
    and centre arrays are the local coordinates of the cell edges and cell
    centres, row 0 at the top.  The grid lines are left out. *)
Definition structured_grid (delc delr : list R) : AttachedGrid :=
  let xedge := 0%R :: Reference.add_accumulate delr in
  let length_y := Reference.add_reduce delc in
  let yedge := length_y :: map (fun a => length_y - a)%R
                              (Reference.add_accumulate delc) in
  {| g_delc := delc;
     g_delr := delr;
     g_nrow := length delc;
     g_ncol := length delr;
     g_xedges := fst (meshgrid xedge yedge);
     g_yedges := snd (meshgrid xedge yedge);
     g_xcenters := fst (meshgrid (mids xedge) (mids yedge));
     g_ycenters := snd (meshgrid (mids xedge) (mids yedge));
     g_grid_lines := [] |}.

(** No network, no projection library, no projection files, and strings
    that do not parse as numbers. *)
Definition offline : Environment :=
  {| int_of_string := fun _ => None;
     float_of_string := fun _ => None;
     format_value := fun _ => "None";
     pyproj_srs := fun _ => None;
     get_url_text := fun _ => None;
     read_prj := fun _ => Raise (FileNotFoundError "No such file or directory");
     getprj_text := fun _ => Ok None;
     parse_wkt := fun _ => Ok tt;
     default_grid := structured_grid |}.

(** A network on which the service knows one code, 26715. *)
Definition online : Environment :=
  {| int_of_string := fun _ => None;
     float_of_string := fun _ => None;
     format_value := fun _ => "None";
     pyproj_srs := fun _ => None;
     get_url_text := fun u =>
       match code u with
       | PyIntV 26715 =>
           if String.eqb (cat u) "epsg" && String.eqb (text u) "esriwkt"
           then Some "PROJCS[NAD_1927_UTM_Zone_15N]"
           else None
       | _ => None
       end;
     read_prj := fun _ => Raise (FileNotFoundError "No such file or directory");
     getprj_text := fun _ => Ok None;
     parse_wkt := fun _ => Ok tt;
     default_grid := structured_grid |}.

(** Like [offline], with an [int] that reads one numeral. *)
Definition numerate : Environment :=
  {| int_of_string := fun s => if String.eqb s "26715" then Some 26715%Z
                               else None;
     float_of_string := fun _ => None;
     format_value := fun _ => "None";
     pyproj_srs := fun _ => None;
     get_url_text := fun _ => None;
     read_prj := fun _ => Raise (FileNotFoundError "No such file or directory");
     getprj_text := fun _ => Ok None;
     parse_wkt := fun _ => Ok tt;
     default_grid := structured_grid |}.

(** A store file that [make] has just created, and one that already holds
    the text of 26715, each in a process that has not imported it. *)
Definition empty_store : Resolver.world :=
  {| Resolver.epsgref := Some [Resolver.Init]; Resolver.loaded := None;
     Resolver.requested := [] |}.

Definition filled_store : Resolver.world :=
  {| Resolver.epsgref :=
       Some [Resolver.Init; Resolver.Assign 26715 "PROJCS[cached]"];
     Resolver.loaded := None;
     Resolver.requested := [] |}.

(** A store with a list at address 0 and an array at address 1. *)
Definition two_objects : list Aliasing.object :=
  [Aliasing.ListObj [1; 2]%R;
   Aliasing.ArrayObj {| shape := [2%nat]; data := [3; 4]%R |}].

(** [SpatialReference(delr=[1, 1], delc=[1, 1], xll=0, yll=0, rotation=0)]
    with every other argument at its default, in any environment and in
    the closed one *)
Definition scenario `{Environment} : result Reference.SpatialReference :=
  Reference.__init__ [1; 1]%R [1; 1]%R None 2%Z None None
    (Some 0%R) (Some 0%R) 0%R PyNone PyNone PyNone None None.

Definition two_by_two : result Reference.SpatialReference :=
  @scenario offline.

(** [SpatialReference(delr=[1, 1], delc=[1, 1], xll=10, yll=20,
    rotation=30, length_multiplier=2)] and the instance it builds *)
Definition rotated : result Reference.SpatialReference :=
  @Reference.__init__ offline [1; 1]%R [1; 1]%R None 2%Z None None
    (Some 10%R) (Some 20%R) 30%R PyNone PyNone PyNone None (Some 2%R).

Definition rotated_sr : Reference.SpatialReference :=
  Eval lazy -[Rplus Rminus Rmult Rdiv Ropp Rinv IZR PI sin cos
              structured_grid] in
  match rotated with
  | Ok sr => sr
  | Raise _ => Reference.class_defaults (structured_grid [] [])
  end.

(** The same instance after its vertices, cell centres and grid lines
    have been read. *)
Definition populated_sr : Reference.SpatialReference :=
  Eval lazy -[Rplus Rminus Rmult Rdiv Ropp Rinv IZR PI sin cos] in
  match
    (r ← @Reference.vertices offline rotated_sr;
     r ← @Reference.xcenters offline (snd r);
     @Reference.gridlines offline (snd r))
  with
  | Ok r => snd r
  | Raise _ => rotated_sr
  end.

(** [SpatialReference(delr=[1, 1], delc=[1, 1], xll=5, yll=7)]: no
    rotation and the default units, and the instance it builds *)
Definition shifted : result Reference.SpatialReference :=
  @Reference.__init__ offline [1; 1]%R [1; 1]%R None 2%Z None None
    (Some 5%R) (Some 7%R) 0%R PyNone PyNone PyNone None None.

Definition shifted_sr : Reference.SpatialReference :=
  Eval lazy -[Rplus Rminus Rmult Rdiv Ropp Rinv IZR PI sin cos
              structured_grid] in
  match shifted with
  | Ok sr => sr
  | Raise _ => Reference.class_defaults (structured_grid [] [])
  end.

(** [SpatialReference(delr=[1, 1], delc=[1, 1], lenuni=1,
    proj4_str='+proj=utm +zone=15 +units=m')]: a model in feet placed in
    a projection in metres, at the default corner *)
Definition feet_in_metres : result Reference.SpatialReference :=
  @Reference.__init__ offline [1; 1]%R [1; 1]%R None 1%Z None None None None
    0%R (PyStrV "+proj=utm +zone=15 +units=m") PyNone PyNone None None.

Definition feet_in_metres_sr : Reference.SpatialReference :=
  Eval lazy -[Rplus Rminus Rmult Rdiv Ropp Rinv IZR PI sin cos
              structured_grid] in
  match feet_in_metres with
  | Ok sr => sr
  | Raise _ => Reference.class_defaults (structured_grid [] [])
  end.

(** An instance before its first store, for a grid with rows of height 3
    and 2, and what [set_spatialreference(delc=[3, 2], yll=20)] makes of
    it *)
Definition unplaced : Reference.SpatialReference :=
  Reference.class_defaults (structured_grid [3; 2]%R [1; 1]%R).

Definition placed_by_yll : Reference.SpatialReference :=
  Eval lazy -[Rplus Rminus Rmult Rdiv Ropp Rinv IZR PI sin cos
              structured_grid] in
  match @Reference.set_spatialreference offline unplaced [3; 2]%R
          None None None (Some 20%R) 0%R with
  | Ok sr => sr
  | Raise _ => unplaced
  end.

(** What reading [xcenters] on [rotated_sr] returns, and what reading
    [xedges] returns after that *)
Definition centres_read
  : Coherence.derived_value * Reference.SpatialReference :=
  Eval lazy -[Rplus Rminus Rmult Rdiv Ropp Rinv IZR PI sin cos] in
  match @Coherence.read offline Coherence.Xcenters rotated_sr with
  | Ok r => r
  | Raise _ => (Coherence.Array None, rotated_sr)
  end.

Definition centres_then_edges
  : Coherence.derived_value * Reference.SpatialReference :=
  Eval lazy -[Rplus Rminus Rmult Rdiv Ropp Rinv IZR PI sin cos] in
  match @Coherence.read offline Coherence.Xedges (snd centres_read) with
  | Ok r => r
  | Raise _ => (Coherence.Array None, rotated_sr)
  end.

(** [sr.rotation = 0] on the populated instance, and what reading
    [yedges] returns after it *)
Definition turned_back : Reference.SpatialReference :=
  Eval lazy -[Rplus Rminus Rmult Rdiv Ropp Rinv IZR PI sin cos] in
  match @Reference.__setattr__ offline populated_sr "rotation"
          (PyFloatV 0%R) with
  | Ok sr => sr
  | Raise _ => populated_sr
  end.

Definition turned_back_edges
  : Coherence.derived_value * Reference.SpatialReference :=
  Eval lazy -[Rplus Rminus Rmult Rdiv Ropp Rinv IZR PI sin cos] in
  match @Coherence.read offline Coherence.Yedges turned_back with
  | Ok r => r
  | Raise _ => (Coherence.Array None, turned_back)
  end.

(** [SpatialReference(delr=[1, 1], delc=[1, 1], xul=10, yul=20,
    proj4_str='+init=epsg:26715')], and what the first read of [xedges]
    returns on it *)
Definition coded_sr : Reference.SpatialReference :=
  Eval lazy -[Rplus Rminus Rmult Rdiv Ropp Rinv IZR PI sin cos
              structured_grid] in
  match @Reference.__init__ numerate [1; 1]%R [1; 1]%R None 2%Z
          (Some 10%R) (Some 20%R) None None 0%R
          (PyStrV "+init=epsg:26715") PyNone PyNone None None
  with
  | Ok sr => sr
  | Raise _ => Reference.class_defaults (structured_grid [] [])
  end.

Definition coded_read
  : Coherence.derived_value * Reference.SpatialReference :=
  Eval lazy -[Rplus Rminus Rmult Rdiv Ropp Rinv IZR PI sin cos] in
  match @Coherence.read numerate Coherence.Xedges coded_sr with
  | Ok r => r
  | Raise _ => (Coherence.Array None, coded_sr)
  end.

(** No store file yet, and the file a first [add] leaves in its place *)
Definition no_store : Resolver.world :=
  {| Resolver.epsgref := None; Resolver.loaded := None;
     Resolver.requested := [] |}.

Definition headless_store : Resolver.world :=
  Eval cbv in Resolver.add 26715 "PROJCS[cached]" no_store.

(** What [parse_wkt] finds in the text of the USGS Albers projection of
    the contiguous United States, and the parameters inferred from it *)
Definition albers : CrsProperty.parsed :=
  {| CrsProperty.projcs :=
       Some "USA_Contiguous_Albers_Equal_Area_Conic_USGS_version";
     CrsProperty.geogcs := Some "GCS_North_American_1983";
     CrsProperty.datum := Some "D_North_American_1983";
     CrsProperty.spheriod_name := Some "GRS_1980";
     CrsProperty.primem0 := Some "Greenwich";
     CrsProperty.semi_major_axis := Some 6378137%R;
     CrsProperty.inverse_flattening := Some (298257222101 / 1000000000)%R;
     CrsProperty.latitude_of_origin := Some 23%R;
     CrsProperty.standard_parallel_1 := Some (295 / 10)%R;
     CrsProperty.standard_parallel_2 := Some (455 / 10)%R;
     CrsProperty.central_meridian := Some (- 96)%R;
     CrsProperty.scale_factor := None;
     CrsProperty.false_easting := Some 0%R;
     CrsProperty.false_northing := Some 0%R;
     CrsProperty.projcs_unit := (Some "meter", Some 1%R);
     CrsProperty.utm_zone := None |}.

Definition albers_parameters : CrsProperty.proj4_parameters :=
  {| CrsProperty.proj := Some "lcc";
     CrsProperty.p_datum := "nad83";
     CrsProperty.ellps := "grs80";
     CrsProperty.a := Some 6378137%R;
     CrsProperty.rf := Some (298257222101 / 1000000000)%R;
     CrsProperty.lat_0 := Some 23%R;
     CrsProperty.lat_1 := Some (295 / 10)%R;
     CrsProperty.lat_2 := Some (455 / 10)%R;
     CrsProperty.lon_0 := Some (- 96)%R;
     CrsProperty.k_0 := None;
     CrsProperty.x_0 := Some 0%R;
     CrsProperty.y_0 := Some 0%R;
     CrsProperty.units := (Some "meter", Some 1%R);
     CrsProperty.zone := None |}.

(** [sr.xul = 3] on [rotated_sr] *)
Definition xul_moved : Reference.SpatialReference :=
  Eval lazy -[Rplus Rminus Rmult Rdiv Ropp Rinv IZR PI sin cos
              structured_grid] in
  match @Reference.__setattr__ offline rotated_sr "xul" (PyFloatV 3%R) with
  | Ok sr => sr
  | Raise _ => rotated_sr
  end.

(** The rings that reading [vertices] on [rotated_sr] returns, and the
    instance after the read *)
Definition rotated_rings : list (list (R * R)) :=
  Eval lazy -[Rplus Rminus Rmult Rdiv Ropp Rinv IZR PI sin cos] in
  match @Reference.vertices offline rotated_sr with
  | Ok (Some (Reference.Rings cells), _) => cells
  | _ => []
  end.

Definition rotated_after_vertices : Reference.SpatialReference :=
  Eval lazy -[Rplus Rminus Rmult Rdiv Ropp Rinv IZR PI sin cos] in
  match @Reference.vertices offline rotated_sr with
  | Ok r => snd r
  | Raise _ => rotated_sr
  end.

End Samples.

(** * Properties *)

(** ** What the getters store *)

Module ReadFacts.
Import Reference.

Section Facts.
Context `{Environment}.

(** A read of [proj4_str] leaves the instance as it was, or with the
    code of the text in [_epsg]. *)
Lemma after_proj4_str_cases (self : SpatialReference) :
  after_proj4_str self = self \/
  exists (str : string) (z : Z),
    _proj4_str self = PyStrV str /\
    after_proj4_str self = set__epsg (PyIntV z) self.
Proof.
  unfold after_proj4_str, proj4_str.
  destruct (_proj4_str self) as [| r | z | str] eqn:Hp;
    try (left; reflexivity).
  - destruct (negb (is_none (epsg self))); left; reflexivity.
  - destruct (Str.contains "epsg" (Str.lower str)); [| left; reflexivity].
    destruct (filter _ (Str.split str)) as [| t tmp]; [left; reflexivity |].
    destruct (Str.split_on ":" t) as [| a [| c l]]; try (left; reflexivity).
    destruct (int_of_string c) as [z |]; [| left; reflexivity].
    right. exists str, z. split; reflexivity.
Qed.

Lemma proj4_str_value_set_epsg (self : SpatialReference) (v : pyval)
    (str : string) :
  _proj4_str self = PyStrV str ->
  match proj4_str (set__epsg v self), proj4_str self with
  | Ok (p, _), Ok (q, _) => p = q
  | Raise e, Raise e' => e = e'
  | _, _ => False
  end.
Proof.
  intros Hp. unfold proj4_str.
  change (_proj4_str (set__epsg v self)) with (_proj4_str self).
  rewrite Hp.
  destruct (Str.contains "epsg" (Str.lower str)); [| reflexivity].
  destruct (filter _ (Str.split str)) as [| t tmp]; [reflexivity |].
  destruct (Str.split_on ":" t) as [| a [| c l]]; try reflexivity.
  destruct (int_of_string c) as [z |]; reflexivity.
Qed.

Lemma after_proj4_str_idempotent (self : SpatialReference) :
  after_proj4_str (after_proj4_str self) = after_proj4_str self.
Proof.
  unfold after_proj4_str at 2 3. unfold proj4_str.
  destruct (_proj4_str self) as [| r | z | str] eqn:Hp.
  - destruct (negb (is_none (epsg self)));
      unfold after_proj4_str, proj4_str; rewrite Hp;
      destruct (negb (is_none (epsg self))); reflexivity.
  - unfold after_proj4_str, proj4_str; rewrite Hp; reflexivity.
  - unfold after_proj4_str, proj4_str; rewrite Hp; reflexivity.
  - destruct (Str.contains "epsg" (Str.lower str)) eqn:He.
    + destruct (filter _ (Str.split str)) as [| t tmp] eqn:Hf.
      * unfold after_proj4_str, proj4_str. rewrite Hp, He, Hf. reflexivity.
      * destruct (Str.split_on ":" t) as [| a [| c l]] eqn:Hs;
          try (unfold after_proj4_str, proj4_str; rewrite Hp, He, Hf, Hs;
               reflexivity).
        destruct (int_of_string c) as [z |] eqn:Hi.
        -- unfold after_proj4_str, proj4_str.
           change (_proj4_str (set__epsg (PyIntV z) self))
             with (_proj4_str self).
           rewrite Hp, He, Hf, Hs, Hi. reflexivity.
        -- unfold after_proj4_str, proj4_str.
           rewrite Hp, He, Hf, Hs, Hi. reflexivity.
    + unfold after_proj4_str, proj4_str. rewrite Hp, He. reflexivity.
Qed.

Lemma parse_units_set_epsg (self : SpatialReference) (v : pyval)
    (str : string) :
  _proj4_str self = PyStrV str ->
  _parse_units_from_proj4 (set__epsg v self) = _parse_units_from_proj4 self.
Proof.
  intros Hp. pose proof (proj4_str_value_set_epsg self v str Hp) as Hv.
  unfold _parse_units_from_proj4.
  destruct (proj4_str (set__epsg v self)) as [[p s1] |],
           (proj4_str self) as [[q s2] |]; try contradiction;
    [subst q; reflexivity | reflexivity].
Qed.

Lemma units_set_epsg (self : SpatialReference) (v : pyval) (str : string) :
  _proj4_str self = PyStrV str ->
  units (set__epsg v self) = units self.
Proof.
  intros Hp. unfold units.
  change (_units (set__epsg v self)) with (_units self).
  rewrite (parse_units_set_epsg self v str Hp). reflexivity.
Qed.

Lemma length_multiplier_set_epsg (self : SpatialReference) (v : pyval)
    (str : string) :
  _proj4_str self = PyStrV str ->
  length_multiplier (set__epsg v self) = length_multiplier self.
Proof.
  intros Hp. unfold length_multiplier.
  change (_length_multiplier (set__epsg v self))
    with (_length_multiplier self).
  change (model_length_units (set__epsg v self))
    with (model_length_units self).
  rewrite (units_set_epsg self v str Hp). reflexivity.
Qed.

Lemma reads_refl (self : SpatialReference) : reads self self.
Proof. left. reflexivity. Qed.

Lemma reads_proj4_str (self : SpatialReference) :
  reads self (after_proj4_str self).
Proof. right. reflexivity. Qed.

Lemma reads_trans (self s t : SpatialReference) :
  reads self s -> reads s t -> reads self t.
Proof.
  intros [-> | ->] [-> | ->]; try (left; reflexivity);
    try (right; reflexivity).
  right. apply after_proj4_str_idempotent.
Qed.

(** No getter's value depends on what a read has stored. *)
Lemma reads_values (self s : SpatialReference) :
  reads self s ->
  s = set__epsg (_epsg s) self /\
  _parse_units_from_proj4 s = _parse_units_from_proj4 self /\
  units s = units self /\
  length_multiplier s = length_multiplier self.
Proof.
  intros [-> | ->].
  - split; [destruct self; reflexivity |]. repeat split.
  - destruct (after_proj4_str_cases self) as [-> | (str & z & Hp & ->)].
    + split; [destruct self; reflexivity |]. repeat split.
    + split; [reflexivity |].
      split; [exact (parse_units_set_epsg self _ str Hp) |].
      split; [exact (units_set_epsg self _ str Hp) |].
      exact (length_multiplier_set_epsg self _ str Hp).
Qed.

Lemma reads_eq (self s : SpatialReference) :
  reads self s -> s = set__epsg (_epsg s) self.
Proof. intros Hr. apply (reads_values self s Hr). Qed.

Lemma reads_lm_value (self s : SpatialReference) :
  reads self s -> lm_value s = lm_value self.
Proof.
  intros Hr. unfold lm_value.
  destruct (reads_values self s Hr) as (_ & _ & _ & ->). reflexivity.
Qed.

Lemma reads_corners (self s : SpatialReference) :
  reads self s ->
  xll s = xll self /\ yll s = yll self /\
  xul s = xul self /\ yul s = yul self.
Proof.
  intros Hr. pose proof (reads_lm_value self s Hr) as Hlm.
  pose proof (reads_eq self s Hr) as Hs.
  unfold xll, yll, xul, yul, theta. rewrite Hlm.
  rewrite Hs. repeat split.
Qed.

Lemma reads_transform (self s : SpatialReference) (x y : num)
    (inverse : bool) :
  reads self s -> transform s x y inverse = transform self x y inverse.
Proof.
  intros Hr. destruct (reads_corners self s Hr) as (Hx & Hy & _).
  pose proof (reads_lm_value self s Hr) as Hlm.
  pose proof (reads_eq self s Hr) as Hs.
  unfold transform. rewrite Hx, Hy, Hlm.
  assert (Hrot : rotation s = rotation self) by (rewrite Hs; reflexivity).
  rewrite Hrot. reflexivity.
Qed.

Lemma reads_after_parse_units (self : SpatialReference) :
  reads self (after__parse_units_from_proj4 self).
Proof.
  unfold after__parse_units_from_proj4.
  destruct (proj4_str self) as [[p s] |] eqn:Hp; [| apply reads_refl].
  assert (Hs : s = after_proj4_str self)
    by (unfold after_proj4_str; rewrite Hp; reflexivity).
  subst s.
  destruct p; try apply reads_proj4_str.
  right. apply after_proj4_str_idempotent.
Qed.

Lemma reads_after_units (self : SpatialReference) :
  reads self (after_units self).
Proof.
  unfold after_units.
  destruct (_units self); [apply reads_refl | apply reads_after_parse_units].
Qed.

Lemma reads_after_length_multiplier (self : SpatialReference) :
  reads self (after_length_multiplier self).
Proof.
  assert (Htwice : reads self (after_units (after_units self)))
    by (eapply reads_trans; apply reads_after_units).
  unfold after_length_multiplier.
  destruct (_length_multiplier self); [apply reads_refl |].
  destruct (model_length_units self) as [mlu |]; [| apply reads_refl].
  repeat match goal with
         | |- reads _ (if ?c then _ else _) => destruct c
         | |- reads _ (match units self with _ => _ end) =>
             destruct (units self)
         end;
    first [apply reads_refl | apply reads_after_units | exact Htwice].
Qed.

Lemma reads_after_corners (self : SpatialReference) :
  reads self (after_xll self) /\ reads self (after_yll self) /\
  reads self (after_xul self) /\ reads self (after_yul self).
Proof.
  assert (Hd : reads self (after_derived_corner self)).
  { unfold after_derived_corner.
    destruct (first (_yedge self));
      [apply reads_after_length_multiplier | apply reads_refl]. }
  unfold after_yll, after_yul, after_xll, after_xul.
  destruct (origin_loc self); repeat split;
    first [exact Hd | apply reads_refl].
Qed.

Lemma reads_after_transform (self : SpatialReference) (inverse : bool) :
  reads self (after_transform self inverse).
Proof.
  unfold after_transform.
  destruct inverse; cbn [negb]; cbv zeta;
    repeat (eapply reads_trans;
            [| first [apply reads_after_length_multiplier
                     | apply reads_after_corners]]);
    apply reads_refl.
Qed.

Lemma reads_fold {A : Type} (f : SpatialReference -> A -> SpatialReference)
    (self : SpatialReference) :
  (forall s a, reads self s -> reads self (f s a)) ->
  forall (l : list A) (s : SpatialReference),
    reads self s -> reads self (fold_left f l s).
Proof.
  intros Hf. induction l as [| a l IH]; intros s Hs.
  - exact Hs.
  - exact (IH (f s a) (Hf s a Hs)).
Qed.

Lemma reads_after_get_grid_lines (self : SpatialReference) :
  reads self (after_get_grid_lines self).
Proof.
  unfold after_get_grid_lines. apply reads_fold; [| apply reads_refl].
  intros s _ Hs.
  apply (reads_trans self s _ Hs).
  exact (reads_trans s (after_transform s false) _
           (reads_after_transform s false)
           (reads_after_transform (after_transform s false) false)).
Qed.
(** A fill stores in cache slots and possibly in [_epsg], and nowhere
    else. *)
Lemma reads_slots (self s : SpatialReference) :
  reads self s ->
  modelgrid s = modelgrid self /\
  _xedges s = _xedges self /\ _yedges s = _yedges self /\
  _xcenters s = _xcenters self /\ _ycenters s = _ycenters self /\
  _vertices s = _vertices self /\ _gridlines s = _gridlines self.
Proof.
  intros Hr. pose proof (reads_eq self s Hr) as Hs.
  rewrite Hs. repeat split.
Qed.

End Facts.

End ReadFacts.

(** ** The transform *)

Module TransformFacts.
Import Reference.

Lemma map_zip_with (g : R -> R) (f : R -> R -> R) (l1 l2 : list R) :
  map g (Np.zip_with f l1 l2) = Np.zip_with (fun a b => g (f a b)) l1 l2.
Proof.
  revert l2. induction l1 as [| a l1 IH]; intros [| b l2]; simpl;
    try reflexivity.
  f_equal. apply IH.
Qed.

Lemma zip_with_map (f : R -> R -> R) (g h : R -> R) (l1 l2 : list R) :
  Np.zip_with f (map g l1) (map h l2)
  = Np.zip_with (fun a b => f (g a) (h b)) l1 l2.
Proof.
  revert l2. induction l1 as [| a l1 IH]; intros [| b l2]; simpl;
    try reflexivity.
  f_equal. apply IH.
Qed.

Lemma zip_with_zip_with (f g h : R -> R -> R) (l1 l2 : list R) :
  Np.zip_with f (Np.zip_with g l1 l2) (Np.zip_with h l1 l2)
  = Np.zip_with (fun a b => f (g a b) (h a b)) l1 l2.
Proof.
  revert l2. induction l1 as [| a l1 IH]; intros [| b l2]; simpl;
    try reflexivity.
  f_equal. apply IH.
Qed.

Lemma zip_with_left (f : R -> R -> R) (l1 l2 : list R) :
  (forall a b, f a b = a) -> length l1 = length l2 ->
  Np.zip_with f l1 l2 = l1.
Proof.
  intros Hf. revert l2.
  induction l1 as [| a l1 IH]; intros [| b l2] Hlen; simpl in *;
    try congruence.
  rewrite Hf. f_equal. apply IH. lia.
Qed.

Lemma zip_with_right (f : R -> R -> R) (l1 l2 : list R) :
  (forall a b, f a b = b) -> length l1 = length l2 ->
  Np.zip_with f l1 l2 = l2.
Proof.
  intros Hf. revert l2.
  induction l1 as [| a l1 IH]; intros [| b l2] Hlen; simpl in *;
    try congruence.
  rewrite Hf. f_equal. apply IH. lia.
Qed.

Section Facts.
Context `{Environment}.

Lemma rotate_float (x y t xo yo : R) :
  rotate (Float x) (Float y) t xo yo =
  Ok (Float (xo + cos (t * PI / 180) * (x - xo) - sin (t * PI / 180) * (y - yo))%R,
      Float (yo + sin (t * PI / 180) * (x - xo) + cos (t * PI / 180) * (y - yo))%R).
Proof. reflexivity. Qed.

Lemma cos_sin_sq (t : R) : (cos t * cos t + sin t * sin t = 1)%R.
Proof.
  pose proof (sin2_cos2 t) as Hsc. unfold Rsqr in Hsc. lra.
Qed.

Lemma lm_value_ok (self : SpatialReference) (lm : R) :
  length_multiplier self = Ok (Some lm) -> lm_value self = Ok lm.
Proof. intros Hlm. unfold lm_value. rewrite Hlm. reflexivity. Qed.

Lemma transform_forward_float (self : SpatialReference) (x y lm xo yo : R) :
  lm_value self = Ok lm ->
  xll self = Ok xo -> yll self = Ok yo ->
  transform self (Float x) (Float y) false =
  rotate (Float (x * lm + xo)) (Float (y * lm + yo)) (rotation self) xo yo.
Proof.
  intros Hlm Hx Hy. unfold transform. simpl.
  rewrite Hlm, Hx, Hy. reflexivity.
Qed.

Lemma transform_inverse_float (self : SpatialReference) (x y lm xo yo : R) :
  lm_value self = Ok lm -> lm <> 0%R ->
  xll self = Ok xo -> yll self = Ok yo ->
  transform self (Float x) (Float y) true =
  Ok (Float ((xo + cos (- rotation self * PI / 180) * (x - xo)
                 - sin (- rotation self * PI / 180) * (y - yo) - xo) / lm)%R,
      Float ((yo + sin (- rotation self * PI / 180) * (x - xo)
                 + cos (- rotation self * PI / 180) * (y - yo) - yo) / lm)%R).
Proof.
  intros Hlm Hne Hx Hy. unfold transform. simpl.
  rewrite Hx, Hy. simpl. rewrite Hlm. simpl.
  destruct (Req_dec_T lm 0) as [E | _]; [contradiction |].
  reflexivity.
Qed.

(** C1. Round trip: on a reference whose origin is defined and whose
    length multiplier is positive, the forward transform of a point
    (x, y) followed by the inverse transform gives (x, y) back, whatever
    the rotation. *)
Theorem transform_round_trip (self : SpatialReference) (x y lm xo yo : R) :
  length_multiplier self = Ok (Some lm) -> (0 < lm)%R ->
  xll self = Ok xo -> yll self = Ok yo ->
  exists x' y' : R,
    transform self (Float x) (Float y) false = Ok (Float x', Float y') /\
    transform self (Float x') (Float y') true = Ok (Float x, Float y).
Proof.
  intros Hlm Hpos Hx Hy. apply lm_value_ok in Hlm.
  rewrite (transform_forward_float self x y lm xo yo Hlm Hx Hy), rotate_float.
  eexists. eexists. split; [reflexivity |].
  rewrite (transform_inverse_float self _ _ lm xo yo Hlm
             ltac:(lra) Hx Hy).
  replace (- rotation self * PI / 180)%R with (- (rotation self * PI / 180))%R
    by lra.
  rewrite cos_neg, sin_neg.
  set (t := (rotation self * PI / 180)%R).
  pose proof (cos_sin_sq t) as Hcs.
  apply f_equal, f_equal2; apply f_equal.
  - transitivity (x * lm * (cos t * cos t + sin t * sin t) / lm)%R;
      [field; lra | rewrite Hcs; field; lra].
  - transitivity (y * lm * (cos t * cos t + sin t * sin t) / lm)%R;
      [field; lra | rewrite Hcs; field; lra].
Qed.

(** The same round trip entry by entry, for two arrays of one shape. *)
Lemma transform_round_trip_arrays (self : SpatialReference)
    (ax ay : ndarray) (lm xo yo : R) :
  lm_value self = Ok lm -> (0 < lm)%R ->
  xll self = Ok xo -> yll self = Ok yo ->
  shape ax = shape ay -> length (data ax) = length (data ay) ->
  exists x' y' : num,
    transform self (NdArray ax) (NdArray ay) false = Ok (x', y') /\
    transform self x' y' true = Ok (NdArray ax, NdArray ay).
Proof.
  intros Hlm Hpos Hx Hy Hshape Hlen.
  destruct ax as [sx dx], ay as [sy dy]. simpl in Hshape, Hlen. subst sy.
  unfold transform. simpl. rewrite Hlm, Hx, Hy. simpl.
  unfold rotate. simpl. unfold shape_eqb. simpl.
  assert (Hdec : bool_decide (sx = sx) = true)
    by (apply bool_decide_eq_true_2; reflexivity).
  eexists. eexists. rewrite !Hdec. split; [reflexivity |].
  simpl. unfold shape_eqb. simpl. rewrite ?Hdec. simpl.
  rewrite ?Hlm. simpl.
  destruct (Req_dec_T lm 0) as [E | _]; [lra |]. simpl.
  unfold amap. simpl.
  replace (- rotation self * PI / 180)%R with (- (rotation self * PI / 180))%R
    by lra.
  rewrite cos_neg, sin_neg.
  set (t := (rotation self * PI / 180)%R).
  pose proof (cos_sin_sq t) as Hcs.
  rewrite !map_map, !zip_with_map, !map_zip_with, !zip_with_zip_with.
  rewrite zip_with_left, zip_with_right; [reflexivity | | | |];
    try exact Hlen; intros a b.
  - transitivity (b * lm * (cos t * cos t + sin t * sin t) / lm)%R;
      [field; lra | rewrite Hcs; field; lra].
  - transitivity (a * lm * (cos t * cos t + sin t * sin t) / lm)%R;
      [field; lra | rewrite Hcs; field; lra].
Qed.

(** What [set_spatialreference] leaves in [_yedge] starts with the
    north-south extent of the grid, so the getters of both corners are
    defined on every instance it has placed. *)
Lemma set_spatialreference_yedge (self self' : SpatialReference)
    (delc : list R) (xul yul xll yll : option R) (rotation : R) :
  set_spatialreference self delc xul yul xll yll rotation = Ok self' ->
  exists rest : list R, _yedge self' = add_reduce delc :: rest.
Proof.
  unfold set_spatialreference. intros Hset.
  repeat match type of Hset with
         | context [if ?b then _ else _] => destruct b; simpl in Hset
         end;
    try discriminate; injection Hset as <-; eexists; reflexivity.
Qed.

Lemma init_yedge (delr delc : list R) (grid : option AttachedGrid)
    (lenuni : Z) (xul yul xll yll : option R) (rotation : R)
    (proj4_str epsg prj : pyval) (units : option string)
    (length_multiplier : option R) (self : SpatialReference) :
  __init__ delr delc grid lenuni xul yul xll yll rotation proj4_str epsg
           prj units length_multiplier = Ok self ->
  exists rest : list R, _yedge self = add_reduce delc :: rest.
Proof.
  unfold __init__. intros Hinit.
  destruct (__setattr__ _ "prj" prj) as [s1 |]; [| discriminate].
  simpl in Hinit.
  destruct (crs_init prj None epsg) as [c |]; [| discriminate].
  simpl in Hinit.
  exact (set_spatialreference_yedge _ _ _ _ _ _ _ _ Hinit).
Qed.

Lemma corners_defined (self : SpatialReference) (lm y0 : R)
    (rest : list R) :
  lm_value self = Ok lm -> _yedge self = y0 :: rest ->
  exists xo yo : R, xll self = Ok xo /\ yll self = Ok yo.
Proof.
  intros Hlm Hyedge. unfold xll, yll.
  destruct (origin_loc self).
  - rewrite Hyedge. simpl. rewrite Hlm. simpl.
    eexists. eexists. split; reflexivity.
  - eexists. eexists. split; reflexivity.
Qed.

(** C6, as the code has it. On the 2 by 2 grid with unit cells, lower-left
    corner (0, 0), no rotation and the default units, the forward
    transform is the identity: the local point (0.5, 0.5) is the world
    point (0.5, 0.5). *)
Theorem scenario_forward_transform :
  (sr ← Samples.scenario;
   transform sr (Float (1 / 2)) (Float (1 / 2)) false)
  = Ok (Float (1 / 2), Float (1 / 2)).
Proof.
  cbn.
  replace (0 * PI / 180)%R with 0%R by lra.
  rewrite cos_0, sin_0.
  apply f_equal, f_equal2; apply f_equal; lra.
Qed.

End Facts.

(** The reference of the scenario of C6 puts (0.5, 0.5) at (0.5, 0.5), not
    at (0.5, 1.5). *)
Lemma scenario_not_one_and_a_half :
  (sr ← Samples.two_by_two;
   @transform Samples.offline sr (Float (1 / 2)) (Float (1 / 2)) false)
  <> Ok (Float (1 / 2), Float (3 / 2)).
Proof.
  cbn. replace (0 * PI / 180)%R with 0%R by lra.
  rewrite cos_0, sin_0.
  intros Heq. injection Heq as _ Heq. lra.
Qed.

Lemma rotated_built : Samples.rotated = Ok Samples.rotated_sr.
Proof. reflexivity. Qed.

Lemma transform_round_trip_witness :
  @length_multiplier Samples.offline Samples.rotated_sr = Ok (Some 2%R) /\
  (0 < 2)%R /\
  @xll Samples.offline Samples.rotated_sr = Ok 10%R /\
  @yll Samples.offline Samples.rotated_sr = Ok 20%R /\
  exists x' y' : R,
    @transform Samples.offline Samples.rotated_sr (Float 3) (Float 4) false
    = Ok (Float x', Float y') /\
    @transform Samples.offline Samples.rotated_sr (Float x') (Float y') true
    = Ok (Float 3, Float 4).
Proof.
  split; [reflexivity |]. split; [lra |].
  split; [reflexivity |]. split; [reflexivity |].
  apply (@transform_round_trip Samples.offline Samples.rotated_sr
           3 4 2 10 20); [reflexivity | lra | reflexivity | reflexivity].
Defined.

End TransformFacts.

(** ** Attribute assignment *)

Module SetattrFacts.
Import Reference.

Section Facts.
Context `{Environment}.

Lemma reset_clears (self : SpatialReference) :
  _xedges (_reset self) = None /\ _yedges (_reset self) = None /\
  _xcenters (_reset self) = None /\ _ycenters (_reset self) = None /\
  _vertices (_reset self) = None /\ _gridlines (_reset self) = None.
Proof. repeat split. Qed.

Lemma cached_empty {A : Type} (slot : SpatialReference -> option A)
    (fill : SpatialReference -> result SpatialReference)
    (self : SpatialReference) :
  slot self = None ->
  cached slot fill self = (s ← fill self; Ok (slot s, s)).
Proof. intros Hslot. unfold cached. rewrite Hslot. reflexivity. Qed.

(** An assignment to one of the handled names ends with [_reset]. *)
Lemma setattr_ends_with_reset (self self' : SpatialReference)
    (key : string) (value : pyval) :
  In key parameter_names ->
  __setattr__ self key value = Ok self' ->
  exists s : SpatialReference, self' = _reset s.
Proof.
  intros Hin Hset. unfold parameter_names in Hin. simpl in Hin.
  unfold __setattr__ in Hset.
  repeat (destruct Hin as [<- | Hin];
          [simpl in Hset;
           repeat match type of Hset with
                  | context [py_float ?v] => destruct (py_float v); simpl in Hset
                  | context [py_int ?v] => destruct (py_int v); simpl in Hset
                  | context [crs_init ?a ?b ?c] =>
                      destruct (crs_init a b c); simpl in Hset
                  | context [match value with _ => _ end] =>
                      destruct value; simpl in Hset
                  | context [if ?b then _ else _] => destruct b; simpl in Hset
                  end;
           try discriminate; injection Hset as <-; eexists; reflexivity |]).
  contradiction.
Qed.

(** Assignments of well-formed values return: a number for the corners,
    the rotation, the multiplier and [lenuni], a supported unit, anything
    for [proj4_str], and for [epsg] and [prj] a value the constructor of
    [crs] accepts. *)
Lemma setattr_returns (self : SpatialReference) (key : string)
    (value : pyval) :
  match value with
  | PyFloatV _ | PyIntV _ =>
      In key ["xul"; "yul"; "xll"; "yll"; "length_multiplier"; "rotation";
              "lenuni"]
  | PyStrV s =>
      key = "units" /\ Str.mem (Str.lower s) supported_units = true
  | PyNone => False
  end
  \/ key = "proj4_str"
  \/ (key = "epsg" /\ is_ok (crs_init PyNone None value) = true)
  \/ (key = "prj" /\ is_ok (crs_init value None (epsg self)) = true) ->
  is_ok (__setattr__ self key value) = true.
Proof.
  intros [Hnum | [-> | [[-> Hcrs] | [-> Hcrs]]]].
  - destruct value as [| r | z | s].
    + contradiction.
    + simpl in Hnum.
      repeat (destruct Hnum as [<- | Hnum]; [reflexivity |]). contradiction.
    + simpl in Hnum.
      repeat (destruct Hnum as [<- | Hnum]; [reflexivity |]). contradiction.
    + destruct Hnum as [-> Hmem]. unfold __setattr__.
      cbn -[Str.mem Str.lower]. rewrite Hmem. reflexivity.
  - unfold __setattr__. simpl.
    destruct (_parse_units_from_proj4 (set__proj4_str value self));
      reflexivity.
  - unfold __setattr__. simpl.
    destruct (crs_init PyNone None value); [reflexivity | discriminate].
  - unfold __setattr__, epsg in *. simpl.
    destruct (crs_init value None (_epsg self)); [reflexivity | discriminate].
Qed.

(** C2. After an assignment to xul, yul, xll, yll, rotation, lenuni,
    length_multiplier, units, proj4_str, epsg or prj has returned, every
    cached family (cell edges, cell centres, vertices, grid lines) is
    None, whatever the caches held before, and the next read of each of
    them computes it anew from the instance as it is then. *)
Theorem setattr_resets_caches (self self' : SpatialReference)
    (key : string) (value : pyval) :
  In key parameter_names ->
  __setattr__ self key value = Ok self' ->
  (_xedges self' = None /\ _yedges self' = None /\
   _xcenters self' = None /\ _ycenters self' = None /\
   _vertices self' = None /\ _gridlines self' = None) /\
  xedges self' = (s ← _set_xyedges self'; Ok (_xedges s, s)) /\
  yedges self' = (s ← _set_xyedges self'; Ok (_yedges s, s)) /\
  xcenters self' = (s ← _set_xycenters self'; Ok (_xcenters s, s)) /\
  ycenters self' = (s ← _set_xycenters self'; Ok (_ycenters s, s)) /\
  vertices self' = (s ← _set_vertices self'; Ok (_vertices s, s)) /\
  gridlines self' =
    (s ← (l ← get_grid_lines self';
          Ok (set__gridlines (Some l) (after_get_grid_lines self')));
     Ok (_gridlines s, s)).
Proof.
  intros Hin Hset.
  destruct (setattr_ends_with_reset self self' key value Hin Hset) as [s Hs].
  pose proof (reset_clears s) as Hnone. rewrite <- Hs in Hnone.
  destruct Hnone as (Hxe & Hye & Hxc & Hyc & Hv & Hg).
  split; [tauto |].
  unfold xedges, yedges, xcenters, ycenters, vertices, gridlines.
  rewrite !cached_empty by assumption.
  repeat split.
Qed.

(** C5. [set_spatialreference] raises when and only when an upper-left
    and a lower-left coordinate are given for one axis; the error names
    the pair that was given, xul and xll before yul and yll. *)
Theorem set_spatialreference_conflict (self : SpatialReference)
    (delc : list R) (xul yul xll yll : option R) (rotation : R) :
  let r := set_spatialreference self delc xul yul xll yll rotation in
  match xul, xll, yul, yll with
  | Some _, Some _, _, _ => r = Raise (ValueError both_xul_xll)
  | _, _, Some _, Some _ => r = Raise (ValueError both_yul_yll)
  | _, _, _, _ => is_ok r = true
  end /\
  Str.contains "Both xul and xll" both_xul_xll = true /\
  Str.contains "Both yul and yll" both_yul_yll = true.
Proof.
  split; [| split; reflexivity].
  destruct xul, xll, yul, yll; reflexivity.
Qed.

End Facts.

Lemma setattr_resets_caches_witness :
  In "rotation" parameter_names /\
  @__setattr__ Samples.offline Samples.populated_sr "rotation" (PyFloatV 45)
  = Ok (_reset (set_rotation 45 Samples.populated_sr)) /\
  _vertices Samples.populated_sr <> None /\
  _vertices (_reset (set_rotation 45 Samples.populated_sr)) = None.
Proof.
  assert (Hin : In "rotation" parameter_names) by (simpl; tauto).
  assert (Hset : @__setattr__ Samples.offline Samples.populated_sr
                   "rotation" (PyFloatV 45)
                 = Ok (_reset (set_rotation 45 Samples.populated_sr)))
    by reflexivity.
  split; [exact Hin |]. split; [exact Hset |].
  split; [discriminate |].
  apply (@setattr_resets_caches Samples.offline _ _ _ _ Hin Hset).
Defined.

End SetattrFacts.

(** ** Model grids *)

Module GridFacts.
Import ModelGrid.

Lemma sum_layers (layers : list Z) (acc : Z) :
  fold_left Z.add layers acc = (acc + fold_right Z.add 0 layers)%Z.
Proof.
  revert acc. induction layers as [| n layers IH]; intros acc; simpl.
  - lia.
  - rewrite IH. lia.
Qed.

(** What the constructor stores in the three dimensions. *)
Lemma structured_init_dimensions (delc delr : list R) (top : num)
    (botm : list num) (idomain : num)
    (sr : option Reference.SpatialReference) :
  let g := Structured.__init__ delc delr top botm idomain sr in
  Structured.nlay g = length botm /\
  Structured.nrow g = length delr /\
  Structured.ncol g = length delc.
Proof. repeat split. Qed.

(** C3, at a grid of two rows and three columns: the constructor stores
    the number of column widths as [nrow] and the number of row widths as
    [ncol], so [nrow] is not [len(delc)] and [ncol] is not [len(delr)]. *)
Theorem structured_init_swaps_rows_and_columns :
  let g := Structured.__init__ [1; 1]%R [1; 1; 1]%R (Float 0) [Float 0]
             (Float 1) None in
  Structured.nlay g = length (Structured.botm g) /\
  Structured.nrow g = 3%nat /\ length (Structured.delc g) = 2%nat /\
  Structured.ncol g = 2%nat /\ length (Structured.delr g) = 3%nat.
Proof. repeat split. Qed.

(** C7, on every unlayered vertex grid the constructor builds:
    [num_cells_per_layer] stops at [self.grid_type()], a call of an
    enumeration member, with a TypeError; the branch that raises the
    model-grid exception is not reached. *)
Theorem num_cells_per_layer_unlayered_type_error (top : num)
    (botm : list num) (idomain : num) (vertices : list (R * R))
    (cell2d : list (list nat)) (ncpl : option (list Z))
    (sr : option Reference.SpatialReference) (active_only : bool) :
  Vertex.num_cells_per_layer
    (Vertex.__init__ top botm idomain vertices cell2d None ncpl sr)
    active_only
  = Raise (TypeError "'GridType' object is not callable").
Proof. reflexivity. Qed.

(** The branch written for unlayered grids: the model-grid exception,
    with the name of the model between quotes in its message. *)
Lemma num_cells_per_layer_unlayered_branch (g : Vertex.VertexModelGrid)
    (active_only : bool) :
  Vertex.grid_type g = Callable unlayered_vertex ->
  Vertex.num_cells_per_layer g active_only
  = Raise (MFGridException
             ("MFGridException: ERROR: Model " ++ dquote
              ++ Vertex.model_name g ++ dquote
              ++ " is unstructured and does not have a consistant number of cells per layer.")).
Proof.
  intros Hg. unfold Vertex.num_cells_per_layer. rewrite Hg. reflexivity.
Qed.

(** The same failure stops [num_cells] on every vertex grid the
    constructor builds. *)
Lemma num_cells_vertex_type_error (top : num) (botm : list num)
    (idomain : num) (vertices : list (R * R)) (cell2d : list (list nat))
    (nlay : option nat) (ncpl : option (list Z))
    (sr : option Reference.SpatialReference) :
  Vertex.num_cells
    (Vertex.__init__ top botm idomain vertices cell2d nlay ncpl sr) false
  = Raise (TypeError "'GridType' object is not callable").
Proof. reflexivity. Qed.

(** An unlayered vertex grid of two cells: [num_cells] does not return 2,
    the number of entries of [cell2d]. *)
Lemma num_cells_unlayered_not_cell_count :
  Vertex.num_cells
    (Vertex.__init__ (Float 0) [Float 0] (Float 1)
       [(0, 0); (1, 0); (1, 1); (0, 1)]%R
       [[0; 1; 2; 0]; [0; 2; 3; 0]]%nat None None None) false
  <> Ok (Some 2%Z).
Proof. rewrite num_cells_vertex_type_error. discriminate. Qed.

Section Branches.

Variables (sr : option Reference.SpatialReference) (model_name : string)
          (top : num) (botm : list num) (idomain : num)
          (vertices : list (R * R)) (cell2d : list (list nat))
          (nlay : option nat).

(** C4, as the code has it.  A structured grid has nlay * nrow * ncol
    cells, the product of the numbers of layers, row widths and column
    widths it was built from.  On a vertex grid whose grid-type test
    selects the layered branch, [num_cells] is the sum of [ncpl] over the
    layers; where it selects the unlayered branch, [num_cells] raises
    NotImplementedError and no count of [cell2d] is made. *)
Theorem num_cells_by_variant :
  (forall g : Structured.StructuredModelGrid,
     Structured.num_cells g false
     = Ok (Structured.nlay g * Structured.nrow g * Structured.ncol g)%nat) /\
  (forall (delc delr : list R),
     Structured.num_cells
       (Structured.__init__ delc delr top botm idomain sr) false
     = Ok (length botm * length delc * length delr)%nat) /\
  (forall layers : list Z,
     Vertex.num_cells
       {| Vertex.grid_type := Callable layered_vertex;
          Vertex._sr := sr; Vertex.model_name := model_name;
          Vertex.top := top; Vertex.botm := botm;
          Vertex.idomain := idomain; Vertex._vertices := vertices;
          Vertex.cell2d := cell2d; Vertex.nlay := nlay;
          Vertex.ncpl := Some layers |} false
     = Ok (Some (fold_right Z.add 0%Z layers))) /\
  (forall ncpl : option (list Z),
     Vertex.num_cells
       {| Vertex.grid_type := Callable unlayered_vertex;
          Vertex._sr := sr; Vertex.model_name := model_name;
          Vertex.top := top; Vertex.botm := botm;
          Vertex.idomain := idomain; Vertex._vertices := vertices;
          Vertex.cell2d := cell2d; Vertex.nlay := nlay;
          Vertex.ncpl := ncpl |} false
     = Raise (NotImplementedError "this feature is not yet implemented")).
Proof.
  split; [| split; [| split]].
  - intros g. unfold Structured.num_cells. f_equal. lia.
  - intros delc delr. unfold Structured.num_cells. simpl. f_equal. lia.
  - intros layers. unfold Vertex.num_cells. simpl.
    rewrite sum_layers. reflexivity.
  - intros ncpl. reflexivity.
Qed.

End Branches.

End GridFacts.

(** ** The EPSG resolver *)

Module ResolverFacts.
Import Resolver.

Lemma exec_app (s1 s2 : list statement) (acc : option (gmap Z string)) :
  exec (s1 ++ s2) acc = (ns ← exec s1 acc; exec s2 ns).
Proof.
  revert acc. induction s1 as [| s s1 IH]; intros acc; simpl.
  - reflexivity.
  - destruct s as [| k v]; [apply IH |].
    destruct acc as [d |]; [apply IH | reflexivity].
Qed.

Lemma run_app_assign (stmts : list statement) (d : gmap Z string) (k : Z)
    (v : string) :
  run stmts = Ok d -> run (stmts ++ [Assign k v]) = Ok (<[k := v]> d).
Proof.
  unfold run. rewrite exec_app.
  destruct (exec stmts None) as [[d' |] |]; simpl; try discriminate.
  intros [= ->]. reflexivity.
Qed.


(** An import changes neither the file nor the requests; the dictionary
    it gives is the one of the module the process then holds. *)
Lemma import_frame (w : world) :
  epsgref (snd (import_prj w)) = epsgref w /\
  requested (snd (import_prj w)) = requested w /\
  (forall d : gmap Z string,
     fst (import_prj w) = Ok d ->
     loaded (snd (import_prj w)) = Some (Some d)) /\
  (loaded w = None -> is_ok (fst (import_prj w)) = false ->
   snd (import_prj w) = w \/ loaded (snd (import_prj w)) = Some None).
Proof.
  unfold import_prj. destruct (loaded w) as [ns |] eqn:Hl.
  - simpl. do 2 (split; [reflexivity |]). split; [| discriminate].
    intros d. destruct ns as [d' |]; simpl; [| discriminate].
    intros [= ->]. exact Hl.
  - destruct (epsgref w) as [stmts |] eqn:Hf; simpl.
    + destruct (exec stmts None) as [[d' |] | e]; simpl.
      * do 2 (split; [congruence |]).
        split; [intros d [= ->]; reflexivity | discriminate].
      * do 2 (split; [congruence |]).
        split; [discriminate | intros _ _; right; reflexivity].
      * do 2 (split; [congruence |]).
        split; [discriminate | intros _ _; left; reflexivity].
    + do 2 (split; [congruence |]).
      split; [discriminate | intros _ _; left; reflexivity].
Qed.

(** Once the process holds the module, every import gives its
    dictionary. *)
Lemma import_loaded (w : world) (d : gmap Z string) :
  loaded w = Some (Some d) -> import_prj w = (Ok d, w).
Proof. unfold import_prj. intros ->. reflexivity. Qed.

(** In a process that has not imported the module, the import runs the
    file. *)
Lemma import_fresh (w : world) :
  loaded w = None ->
  fst (import_prj w)
  = match epsgref w with
    | Some stmts => run stmts
    | None => Raise (ImportError "No module named 'epsgref'")
    end.
Proof.
  unfold import_prj, run. intros ->.
  destruct (epsgref w) as [stmts |]; [| reflexivity].
  destruct (exec stmts None) as [ns | e]; reflexivity.
Qed.

Lemma lookup_fresh (epsg : Z) (w : world) :
  loaded w = None -> lookup epsg w = stored epsg w.
Proof.
  intros Hl. unfold lookup, stored. rewrite (import_fresh w Hl).
  destruct (epsgref w); reflexivity.
Qed.

Lemma lookup_restart (epsg : Z) (w : world) :
  lookup epsg (restart w) = stored epsg w.
Proof. apply (lookup_fresh epsg (restart w)). reflexivity. Qed.


Lemma make_file (w1 w2 : world) :
  epsgref w1 = epsgref w2 -> epsgref (make w1) = epsgref (make w2).
Proof.
  unfold make. intros Hf.
  destruct (epsgref w1) eqn:H1, (epsgref w2) eqn:H2; simpl; congruence.
Qed.




Lemma lookup_hit (epsg : Z) (w : world) (t : string) :
  lookup epsg w = Some t ->
  exists prj : gmap Z string,
    fst (import_prj w) = Ok prj /\ prj !! epsg = Some t.
Proof.
  unfold lookup. destruct (fst (import_prj w)) as [prj |]; [| discriminate].
  intros Hget. exists prj. split; [reflexivity | exact Hget].
Qed.

Section Facts.
Context `{Environment}.

Lemma fetch_requests (epsg : pyval) (txt : string) (cats : list string) :
  cats <> [] -> fst (Remote.fetch epsg txt cats) <> [].
Proof.
  destruct cats as [| c cats]; [congruence |]. intros _. simpl.
  destruct (get_url_text _); [discriminate |].
  destruct (Remote.fetch epsg txt cats). discriminate.
Qed.

Lemma remote_lookup_frame (epsg : Z) (text : string) (w : world) :
  fst (remote_lookup epsg text w)
  = snd (Remote.get_spatialreference (PyIntV epsg) text) /\
  epsgref (snd (remote_lookup epsg text w)) = epsgref w /\
  loaded (snd (remote_lookup epsg text w)) = loaded w.
Proof.
  unfold remote_lookup.
  destruct (Remote.get_spatialreference (PyIntV epsg) text).
  repeat split.
Qed.

(** A remote lookup always sends at least one request. *)
Lemma remote_lookup_requests (epsg : Z) (text : string) (w : world) :
  requested (snd (remote_lookup epsg text w)) <> requested w.
Proof.
  unfold remote_lookup, Remote.get_spatialreference.
  pose proof (fetch_requests (PyIntV epsg) text Remote.epsg_categories
                ltac:(discriminate)) as Hne.
  destruct (Remote.fetch (PyIntV epsg) text Remote.epsg_categories)
    as [us r].
  simpl in Hne.
  assert (Hgrow : forall l : list url, (l ++ us)%list <> l).
  { intros l Heq. apply Hne.
    apply (f_equal (@length url)) in Heq. rewrite length_app in Heq.
    destruct us; [reflexivity | simpl in Heq; lia]. }
  destruct r as [t |]; [| destruct (negb (text =? "epsg")%string)];
    simpl; apply Hgrow.
Qed.

(** [getprj] in three steps: the import, the remote lookup on a miss,
    the write to the file. *)
Lemma getprj_steps (epsg : Z) (b : bool) (text : string) (w : world) :
  let w1 := if is_ok (fst (import_prj w))
            then snd (import_prj w) else make (snd (import_prj w)) in
  getprj epsg b text w
  = match lookup epsg w with
    | Some t => (Some t, if b then add epsg t w1 else w1)
    | None =>
        match fst (remote_lookup epsg text w1) with
        | Some t => (Some t,
                     if b then add epsg t (snd (remote_lookup epsg text w1))
                     else snd (remote_lookup epsg text w1))
        | None => (None, snd (remote_lookup epsg text w1))
        end
    end.
Proof.
  cbv zeta. unfold getprj, lookup.
  destruct (import_prj w) as [[prj | e] w']; simpl.
  - destruct (prj !! epsg) as [t |]; [reflexivity |].
    destruct (remote_lookup epsg text w') as [[t |] w2]; reflexivity.
  - destruct (remote_lookup epsg text (make w')) as [[t |] w2]; reflexivity.
Qed.


End Facts.


(** A code the file holds is answered from it where the process imports
    the file for the first time. *)
Example getprj_hit :
  let r := @getprj Samples.online 26715 true "esriwkt" Samples.filled_store in
  fst r = Some "PROJCS[cached]" /\ requested (snd r) = [].
Proof. split; reflexivity. Qed.

(** A code the file lacks is fetched and appended. *)
Example getprj_miss :
  let r := @getprj Samples.online 26715 true "esriwkt" Samples.empty_store in
  fst r = Some "PROJCS[NAD_1927_UTM_Zone_15N]" /\
  epsgref (snd r)
  = Some [Init; Assign 26715 "PROJCS[NAD_1927_UTM_Zone_15N]"] /\
  length (requested (snd r)) = 1%nat.
Proof. repeat split. Qed.

(** A second call in the same process does not see what the first call
    appended: the module is not run again, so the code is requested and
    appended once more.  A new process finds the text in the file. *)
Example getprj_twice_in_one_process :
  let r1 := @getprj Samples.online 26715 true "esriwkt" Samples.empty_store in
  let r2 := @getprj Samples.online 26715 true "esriwkt" (snd r1) in
  let r3 := @getprj Samples.online 26715 false "esriwkt"
              (restart (snd r1)) in
  stored 26715 (snd r1) = Some "PROJCS[NAD_1927_UTM_Zone_15N]" /\
  lookup 26715 (snd r1) = None /\
  length (requested (snd r2)) = 2%nat /\
  epsgref (snd r2)
  = Some [Init; Assign 26715 "PROJCS[NAD_1927_UTM_Zone_15N]";
          Assign 26715 "PROJCS[NAD_1927_UTM_Zone_15N]"] /\
  fst r3 = Some "PROJCS[NAD_1927_UTM_Zone_15N]" /\
  length (requested (snd r3)) = 1%nat.
Proof. repeat split. Qed.

End ResolverFacts.

(** ** The transform and the caller's objects *)

Module AliasingFacts.
Import Aliasing.

Lemma preserves_ret {A : Type} (n : nat) (a : A) (Q : A -> Prop) :
  Q a -> preserves n (ret a) Q.
Proof.
  intros HQ h Hn. simpl. repeat split; [exact Hn |].
  intros a' [= <-]. exact HQ.
Qed.

Lemma preserves_raise {A : Type} (n : nat) (e : exn) (Q : A -> Prop) :
  preserves n (raise e) Q.
Proof. intros h Hn. simpl. repeat split; [exact Hn | discriminate]. Qed.

Lemma preserves_lift {A : Type} (n : nat) (r : result A) :
  preserves n (lift r) (fun _ => True).
Proof. intros h Hn. simpl. repeat split. exact Hn. Qed.

Lemma preserves_weaken {A : Type} (n : nat) (m : M A) (P Q : A -> Prop) :
  preserves n m P -> (forall a, P a -> Q a) -> preserves n m Q.
Proof.
  intros Hm HPQ h Hn. destruct (Hm h Hn) as (Hlen & Hsame & HP).
  repeat split; [exact Hlen | exact Hsame |].
  intros a Ha. apply HPQ, HP, Ha.
Qed.

Lemma preserves_bind {A B : Type} (n : nat) (m : M A) (k : A -> M B)
    (P : A -> Prop) (Q : B -> Prop) :
  preserves n m P ->
  (forall a, P a -> preserves n (k a) Q) ->
  preserves n (m ≫= k) Q.
Proof.
  intros Hm Hk h Hn. unfold mbind, M_bind, seq_.
  destruct (Hm h Hn) as (Hlen & Hsame & HP).
  destruct (m h) as [h1 [a | e]]; simpl in *.
  - destruct (Hk a (HP a eq_refl) h1 Hlen) as (Hlen' & Hsame' & HQ).
    repeat split; [exact Hlen' | | exact HQ].
    intros l Hl. rewrite Hsame' by exact Hl. apply Hsame, Hl.
  - repeat split; [exact Hlen | exact Hsame | discriminate].
Qed.

Lemma preserves_alloc (n : nat) (o : object) :
  preserves n (alloc o) (fun v => isscalar v = false /\ fresh n v).
Proof.
  intros h Hn. unfold alloc. simpl. split; [| split].
  - rewrite length_app. lia.
  - intros l Hl. apply lookup_app_l. lia.
  - intros a [= <-]. split; [reflexivity | exact Hn].
Qed.

Lemma preserves_deref (n l : nat) :
  preserves n (deref l) (fun _ => True).
Proof.
  intros h Hn. unfold deref. destruct (h !! l); simpl; repeat split; exact Hn.
Qed.

Lemma preserves_update (n l : nat) (o : object) :
  n <= l -> preserves n (update l o) (fun _ => True).
Proof.
  intros Hl h Hn. unfold update. simpl. repeat split.
  - rewrite length_insert. exact Hn.
  - intros l' Hl'. apply list_lookup_insert_ne. lia.
Qed.

Lemma preserves_array (n : nat) (x : value) :
  preserves n (array x) (fun v => isscalar v = false /\ fresh n v).
Proof.
  destruct x as [r | l]; simpl; [apply preserves_alloc |].
  eapply preserves_bind; [apply preserves_deref |].
  intros [xs | a] _; apply preserves_alloc.
Qed.

Lemma preserves_copy (n : nat) (x : value) :
  preserves n (copy x) (fun v => isscalar v = false /\ fresh n v).
Proof.
  destruct x as [r | l]; simpl; [apply preserves_raise |].
  eapply preserves_bind; [apply preserves_deref |].
  intros o _. apply preserves_alloc.
Qed.

Lemma preserves_inplace (n : nat) (f : R -> R) (x : value) :
  fresh n x -> preserves n (inplace f x) (fresh n).
Proof.
  destruct x as [r | l]; simpl; intros Hx.
  - apply preserves_ret. exact I.
  - eapply preserves_bind; [apply preserves_deref |].
    intros [xs | a] _; [apply preserves_raise |].
    eapply preserves_bind; [apply preserves_update, Hx |].
    intros _ _. apply preserves_ret. exact Hx.
Qed.

Lemma preserves_inplace_divide (n : nat) (d : R) (x : value) :
  fresh n x -> preserves n (inplace_divide d x) (fresh n).
Proof.
  destruct x as [r | l]; simpl; intros Hx.
  - destruct (Req_dec_T d 0); [apply preserves_raise |].
    apply preserves_ret. exact I.
  - eapply preserves_bind; [apply preserves_deref |].
    intros [xs | a] _; [apply preserves_raise |].
    destruct (Req_dec_T d 0); [apply preserves_raise |].
    eapply preserves_bind; [apply preserves_update, Hx |].
    intros _ _. apply preserves_ret. exact Hx.
Qed.

Lemma preserves_load (n : nat) (x : value) :
  preserves n (load x) (fun _ => True).
Proof.
  destruct x as [r | l]; simpl; [apply preserves_ret; exact I |].
  eapply preserves_bind; [apply preserves_deref |].
  intros o _. apply preserves_ret. exact I.
Qed.

Lemma preserves_new (n : nat) (v : num) :
  preserves n (new v) (fresh n).
Proof.
  destruct v as [r | xs | a]; simpl;
    [apply preserves_ret; exact I | | ];
    (eapply preserves_weaken;
       [apply preserves_alloc | intros v' [_ Hv']; exact Hv']).
Qed.

(** *** The store model computes what the value model computes *)

Lemma denote_app (h t : list object) (x : value) (n : num) :
  denote h x = Some n -> denote (h ++ t) x = Some n.
Proof.
  destruct x as [r | l]; simpl; [tauto |].
  destruct (h !! l) as [o |] eqn:Hl; [| discriminate].
  rewrite (lookup_app_l_Some _ _ _ _ Hl). tauto.
Qed.

Lemma denote_bound (h : list object) (l : nat) (n : num) :
  denote h (VRef l) = Some n -> l < length h.
Proof.
  simpl. destruct (h !! l) as [o |] eqn:Hl; [| discriminate].
  intros _. apply lookup_lt_Some in Hl. exact Hl.
Qed.

Lemma denote_alloc (h : list object) (o : object) :
  denote (h ++ [o]) (VRef (length h))
  = Some (match o with ListObj xs => PyList xs | ArrayObj a => NdArray a end).
Proof.
  simpl. rewrite list_lookup_middle by reflexivity. destruct o; reflexivity.
Qed.

Lemma load_spec (h : list object) (x : value) (n : num) :
  denote h x = Some n -> load x h = (h, Ok n).
Proof.
  destruct x as [r | l]; simpl.
  - intros [= <-]. reflexivity.
  - unfold mbind, M_bind, seq_, deref.
    destruct (h !! l) as [[xs | a] |]; intros [= <-]; reflexivity.
Qed.

Lemma isinstance_list_spec (h : list object) (x : value) (n : num) :
  denote h x = Some n ->
  isinstance_list x h = (h, Ok (Np.isinstance_list n)).
Proof.
  destruct x as [r | l]; simpl.
  - intros [= <-]. reflexivity.
  - unfold mbind, M_bind, seq_, deref.
    destruct (h !! l) as [[xs | a] |]; intros [= <-]; reflexivity.
Qed.

Lemma isscalar_spec (h : list object) (x : value) (n : num) :
  denote h x = Some n -> isscalar x = Np.isscalar n.
Proof.
  destruct x as [r | l]; simpl.
  - intros [= <-]. reflexivity.
  - destruct (h !! l) as [[xs | a] |]; intros [= <-]; reflexivity.
Qed.

Lemma array_spec (h : list object) (x : value) (n : num) :
  denote h x = Some n ->
  exists o : object,
    array x h = ((h ++ [o])%list, Ok (VRef (length h))) /\
    denote (h ++ [o]) (VRef (length h)) = Some (Np.array n).
Proof.
  destruct x as [r | l]; simpl.
  - intros [= <-]. eexists. split; [reflexivity |].
    rewrite list_lookup_middle by reflexivity. reflexivity.
  - unfold mbind, M_bind, seq_, deref.
    destruct (h !! l) as [[xs | a] |]; intros [= <-];
      (eexists; split; [reflexivity |]);
      rewrite list_lookup_middle by reflexivity; reflexivity.
Qed.

Lemma copy_spec (h : list object) (x : value) (n : num) :
  denote h x = Some n ->
  match Np.copy n with
  | Ok n' =>
      exists o : object,
        copy x h = ((h ++ [o])%list, Ok (VRef (length h))) /\
        denote (h ++ [o]) (VRef (length h)) = Some n'
  | Raise e => copy x h = (h, Raise e)
  end.
Proof.
  destruct x as [r | l]; simpl.
  - intros [= <-]. reflexivity.
  - unfold mbind, M_bind, seq_, deref.
    destruct (h !! l) as [[xs | a] |]; intros [= <-]; simpl;
      (eexists; split; [reflexivity |]);
      rewrite list_lookup_middle by reflexivity; reflexivity.
Qed.

Lemma denote_insert_other (h : list object) (l : nat) (o : object)
    (y : value) :
  disjoint (VRef l) y -> denote (<[l := o]> h) y = denote h y.
Proof.
  destruct y as [r | l']; simpl; [reflexivity |].
  intros Hne. rewrite list_lookup_insert_ne by exact Hne. reflexivity.
Qed.

Lemma disjoint_rebound (f : R -> R) (x y : value) :
  disjoint x y -> disjoint (rebound f x) y.
Proof. destruct x, y; simpl; tauto. Qed.

Lemma disjoint_sym (x y : value) : disjoint x y -> disjoint y x.
Proof. destruct x, y; simpl; auto. Qed.

Lemma inplace_spec (f : R -> R) (h : list object) (x : value) (n : num) :
  denote h x = Some n ->
  match scalar_op f n with
  | Ok n' =>
      exists h' : list object,
        inplace f x h = (h', Ok (rebound f x)) /\
        denote h' (rebound f x) = Some n' /\
        forall y : value, disjoint x y -> denote h' y = denote h y
  | Raise e => inplace f x h = (h, Raise e)
  end.
Proof.
  destruct x as [r | l]; simpl.
  - intros [= <-]. simpl. exists h. repeat split.
  - unfold mbind, M_bind, seq_, deref, update.
    destruct (h !! l) as [[xs | a] |] eqn:Hl; intros [= <-]; simpl;
      [reflexivity |].
    eexists. split; [reflexivity |]. split.
    + rewrite list_lookup_insert_eq by (apply lookup_lt_Some in Hl; exact Hl).
      reflexivity.
    + intros y Hy. apply denote_insert_other, Hy.
Qed.

Lemma inplace_divide_spec (d : R) (h : list object) (x : value) (n : num) :
  denote h x = Some n ->
  match divide_op d n with
  | Ok n' =>
      exists h' : list object,
        inplace_divide d x h = (h', Ok (rebound (fun v => v / d)%R x)) /\
        denote h' (rebound (fun v => v / d)%R x) = Some n' /\
        forall y : value, disjoint x y -> denote h' y = denote h y
  | Raise e => inplace_divide d x h = (h, Raise e)
  end.
Proof.
  destruct x as [r | l]; simpl.
  - intros [= <-]. simpl. destruct (Req_dec_T d 0); [reflexivity |].
    exists h. repeat split.
  - unfold mbind, M_bind, seq_, deref, update.
    destruct (h !! l) as [[xs | a] |] eqn:Hl; intros [= <-]; simpl;
      [reflexivity |].
    destruct (Req_dec_T d 0); [reflexivity |].
    eexists. split; [reflexivity |]. split.
    + rewrite list_lookup_insert_eq by (apply lookup_lt_Some in Hl; exact Hl).
      reflexivity.
    + intros y Hy. apply denote_insert_other, Hy.
Qed.

Lemma new_spec (h : list object) (n : num) :
  exists (t : list object) (v : value),
    new n h = ((h ++ t)%list, Ok v) /\
    denote (h ++ t) v = Some n /\
    fresh (length h) v /\
    match v with VFloat _ => True | VRef l => l < length (h ++ t) end.
Proof.
  destruct n as [r | xs | a]; simpl.
  - exists [], (VFloat r). rewrite app_nil_r. repeat split.
  - exists [ListObj xs], (VRef (length h)). unfold alloc.
    split; [reflexivity |].
    split; [apply (denote_alloc h (ListObj xs)) |].
    split; [simpl; lia | rewrite length_app; simpl; lia].
  - exists [ArrayObj a], (VRef (length h)). unfold alloc.
    split; [reflexivity |].
    split; [apply (denote_alloc h (ArrayObj a)) |].
    split; [simpl; lia | rewrite length_app; simpl; lia].
Qed.

Lemma refines_bind {A B C D : Type} (m : M B) (v : result A)
    (k : B -> M D) (kv : A -> result C) (h : list object)
    (rel1 : list object -> B -> A -> Prop)
    (rel2 : list object -> D -> C -> Prop) :
  refines m v h rel1 ->
  (forall h' b a, rel1 h' b a -> refines (k b) (kv a) h' rel2) ->
  refines (m ≫= k) (v ≫= kv) h rel2.
Proof.
  unfold refines, mbind, M_bind, result_bind, seq_.
  destruct v as [a | e]; simpl.
  - intros (h' & b & Hm & Hrel) Hk. rewrite Hm. apply (Hk h' b a Hrel).
  - intros [h' Hm] _. rewrite Hm. exists h'. reflexivity.
Qed.

Lemma refines_step {A B D : Type} (m : M B) (k : B -> M D)
    (v : result A) (h h1 : list object) (b : B)
    (rel : list object -> D -> A -> Prop) :
  m h = (h1, Ok b) -> refines (k b) v h1 rel -> refines (m ≫= k) v h rel.
Proof.
  unfold refines, mbind, M_bind, seq_. intros Hm. rewrite Hm. tauto.
Qed.

Lemma refines_weaken {A B : Type} (m : M B) (v : result A)
    (h : list object) (rel1 rel2 : list object -> B -> A -> Prop) :
  refines m v h rel1 ->
  (forall h' b a, rel1 h' b a -> rel2 h' b a) ->
  refines m v h rel2.
Proof.
  unfold refines. destruct v as [a | e]; [| tauto].
  intros (h' & b & Hm & Hrel) Himp. exists h', b. split; [exact Hm |].
  apply Himp, Hrel.
Qed.

Lemma refines_ret {A B : Type} (b : B) (a : A) (h : list object)
    (rel : list object -> B -> A -> Prop) :
  rel h b a -> refines (ret b) (Ok a) h rel.
Proof. intros Hrel. exists h, b. split; [reflexivity | exact Hrel]. Qed.

Lemma refines_lift {A : Type} (r : result A) (h : list object) :
  refines (lift r) r h (fun h' b a => h' = h /\ b = a).
Proof.
  unfold refines, lift. destruct r as [a | e].
  - exists h, a. repeat split.
  - exists h. reflexivity.
Qed.

Lemma refines_inplace (f : R -> R) (h : list object) (x : value) (n : num) :
  denote h x = Some n ->
  refines (inplace f x) (scalar_op f n) h
    (fun h' b a =>
       b = rebound f x /\ denote h' b = Some a /\
       forall y : value, disjoint x y -> denote h' y = denote h y).
Proof.
  intros Hx. pose proof (inplace_spec f h x n Hx) as Hs. unfold refines.
  destruct (scalar_op f n) as [n' | e].
  - destruct Hs as (h' & Heq & Hden & Hframe).
    exists h', (rebound f x). repeat split; assumption.
  - exists h. exact Hs.
Qed.

Lemma refines_inplace_divide (d : R) (h : list object) (x : value)
    (n : num) :
  denote h x = Some n ->
  refines (inplace_divide d x) (divide_op d n) h
    (fun h' b a =>
       b = rebound (fun v => v / d)%R x /\ denote h' b = Some a /\
       forall y : value, disjoint x y -> denote h' y = denote h y).
Proof.
  intros Hx. pose proof (inplace_divide_spec d h x n Hx) as Hs.
  unfold refines.
  destruct (divide_op d n) as [n' | e].
  - destruct Hs as (h' & Heq & Hden & Hframe).
    exists h', (rebound (fun v => v / d)%R x). repeat split; assumption.
  - exists h. exact Hs.
Qed.

(** An augmented assignment to one of two variables that are not the
    same object leaves the other as it is. *)
Lemma refines_inplace_fst (f : R -> R) (h : list object) (x y : value)
    (nx ny : num) :
  denotes_pair h (x, y) (nx, ny) -> disjoint x y ->
  refines (inplace f x) (scalar_op f nx) h
    (fun h' b a => denotes_pair h' (b, y) (a, ny) /\ disjoint b y).
Proof.
  intros [Hx Hy] Hd. simpl in Hx, Hy.
  eapply refines_weaken; [apply (refines_inplace f h x nx Hx) |].
  intros h' b a (-> & Hb & Hframe). split; [split |]; simpl.
  - exact Hb.
  - rewrite (Hframe y Hd). exact Hy.
  - apply disjoint_rebound, Hd.
Qed.

Lemma refines_inplace_snd (f : R -> R) (h : list object) (x y : value)
    (nx ny : num) :
  denotes_pair h (x, y) (nx, ny) -> disjoint x y ->
  refines (inplace f y) (scalar_op f ny) h
    (fun h' b a => denotes_pair h' (x, b) (nx, a) /\ disjoint x b).
Proof.
  intros [Hx Hy] Hd. simpl in Hx, Hy. apply disjoint_sym in Hd.
  eapply refines_weaken; [apply (refines_inplace f h y ny Hy) |].
  intros h' b a (-> & Hb & Hframe). split; [split |]; simpl.
  - rewrite (Hframe x Hd). exact Hx.
  - exact Hb.
  - apply disjoint_sym, disjoint_rebound, Hd.
Qed.

Lemma refines_divide_fst (d : R) (h : list object) (x y : value)
    (nx ny : num) :
  denotes_pair h (x, y) (nx, ny) -> disjoint x y ->
  refines (inplace_divide d x) (divide_op d nx) h
    (fun h' b a => denotes_pair h' (b, y) (a, ny) /\ disjoint b y).
Proof.
  intros [Hx Hy] Hd. simpl in Hx, Hy.
  eapply refines_weaken; [apply (refines_inplace_divide d h x nx Hx) |].
  intros h' b a (-> & Hb & Hframe). split; [split |]; simpl.
  - exact Hb.
  - rewrite (Hframe y Hd). exact Hy.
  - apply disjoint_rebound, Hd.
Qed.

Lemma refines_divide_snd (d : R) (h : list object) (x y : value)
    (nx ny : num) :
  denotes_pair h (x, y) (nx, ny) -> disjoint x y ->
  refines (inplace_divide d y) (divide_op d ny) h
    (fun h' b a => denotes_pair h' (x, b) (nx, a) /\ disjoint x b).
Proof.
  intros [Hx Hy] Hd. simpl in Hx, Hy. apply disjoint_sym in Hd.
  eapply refines_weaken; [apply (refines_inplace_divide d h y ny Hy) |].
  intros h' b a (-> & Hb & Hframe). split; [split |]; simpl.
  - rewrite (Hframe x Hd). exact Hx.
  - exact Hb.
  - apply disjoint_sym, disjoint_rebound, Hd.
Qed.

Ltac read_getter :=
  eapply refines_bind; [apply refines_lift |];
  let h' := fresh "h" in
  intros h' ? ? [-> ->].

Ltac assign_fst Hp Hd :=
  eapply refines_bind; [apply (refines_inplace_fst _ _ _ _ _ _ Hp Hd) |];
  clear Hp Hd; intros ? ? ? [Hp Hd].

Ltac assign_snd Hp Hd :=
  eapply refines_bind; [apply (refines_inplace_snd _ _ _ _ _ _ Hp Hd) |];
  clear Hp Hd; intros ? ? ? [Hp Hd].

Section Facts.
Context `{Environment}.

Lemma refines_rotate (h : list object) (x y : value) (nx ny : num)
    (theta xo yo : R) :
  denote h x = Some nx -> denote h y = Some ny ->
  refines (rotate x y theta xo yo) (Reference.rotate nx ny theta xo yo) h
    (fun h' b a => denotes_pair h' b a /\ disjoint (fst b) (snd b)).
Proof.
  intros Hx Hy. unfold refines, rotate, mbind, M_bind, seq_.
  rewrite (load_spec h x nx Hx), (load_spec h y ny Hy). unfold lift.
  destruct (Reference.rotate nx ny theta xo yo) as [r | e];
    [| exists h; reflexivity].
  destruct (new_spec h (fst r)) as (t1 & v1 & E1 & D1 & F1 & B1).
  destruct (new_spec (h ++ t1) (snd r)) as (t2 & v2 & E2 & D2 & F2 & B2).
  rewrite E1, E2. simpl.
  exists ((h ++ t1) ++ t2)%list, (v1, v2).
  split; [reflexivity |]. split.
  - split; [apply denote_app, D1 | exact D2].
  - destruct v1 as [r1 | l1], v2 as [r2 | l2]; simpl in *; try exact I. lia.
Qed.

(** The part of [transform] after the copies, on two variables that are
    not the same object. *)
Lemma transform_tail_refines (self : Reference.SpatialReference)
    (h : list object) (x y : value) (nx ny : num) (inverse : bool) :
  denotes_pair h (x, y) (nx, ny) -> disjoint x y ->
  refines
    (if negb inverse then
       lm ← lift (Reference.lm_value self);
       x ← inplace (fun v => v * lm)%R x;
       lm ← lift (Reference.lm_value self);
       y ← inplace (fun v => v * lm)%R y;
       xo ← lift (Reference.xll self);
       x ← inplace (fun v => v + xo)%R x;
       yo ← lift (Reference.yll self);
       y ← inplace (fun v => v + yo)%R y;
       xo ← lift (Reference.xll self);
       yo ← lift (Reference.yll self);
       rotate x y (Reference.rotation self) xo yo
     else
       xo ← lift (Reference.xll self);
       yo ← lift (Reference.yll self);
       xy ← rotate x y (- Reference.rotation self) xo yo;
       let '(x, y) := xy in
       xo ← lift (Reference.xll self);
       x ← inplace (fun v => v - xo)%R x;
       yo ← lift (Reference.yll self);
       y ← inplace (fun v => v - yo)%R y;
       lm ← lift (Reference.lm_value self);
       x ← inplace_divide lm x;
       lm ← lift (Reference.lm_value self);
       y ← inplace_divide lm y;
       ret (x, y))
    (if negb inverse then
       lm ← Reference.lm_value self;
       x ← scalar_op (fun v => v * lm)%R nx;
       lm ← Reference.lm_value self;
       y ← scalar_op (fun v => v * lm)%R ny;
       xo ← Reference.xll self;
       x ← scalar_op (fun v => v + xo)%R x;
       yo ← Reference.yll self;
       y ← scalar_op (fun v => v + yo)%R y;
       xo ← Reference.xll self;
       yo ← Reference.yll self;
       Reference.rotate x y (Reference.rotation self) xo yo
     else
       xo ← Reference.xll self;
       yo ← Reference.yll self;
       '(x, y) ← Reference.rotate nx ny (- Reference.rotation self) xo yo;
       xo ← Reference.xll self;
       x ← scalar_op (fun v => v - xo)%R x;
       yo ← Reference.yll self;
       y ← scalar_op (fun v => v - yo)%R y;
       lm ← Reference.lm_value self;
       x ← divide_op lm x;
       lm ← Reference.lm_value self;
       y ← divide_op lm y;
       Ok (x, y))
    h denotes_pair.
Proof.
  intros Hp Hd. destruct inverse; simpl.
  - read_getter. read_getter.
    eapply refines_bind;
      [apply (refines_rotate _ _ _ _ _ _ _ _ (proj1 Hp) (proj2 Hp)) |].
    clear Hp Hd. intros h1 [x1 y1] [nx1 ny1] [Hp Hd]. simpl in Hd.
    read_getter. assign_fst Hp Hd.
    read_getter. assign_snd Hp Hd.
    read_getter.
    eapply refines_bind; [apply (refines_divide_fst _ _ _ _ _ _ Hp Hd) |].
    clear Hp Hd. intros ? ? ? [Hp Hd].
    read_getter.
    eapply refines_bind; [apply (refines_divide_snd _ _ _ _ _ _ Hp Hd) |].
    clear Hp Hd. intros ? ? ? [Hp Hd].
    apply refines_ret. exact Hp.
  - read_getter. assign_fst Hp Hd.
    read_getter. assign_snd Hp Hd.
    read_getter. assign_fst Hp Hd.
    read_getter. assign_snd Hp Hd.
    read_getter. read_getter.
    eapply refines_weaken;
      [apply (refines_rotate _ _ _ _ _ _ _ _ (proj1 Hp) (proj2 Hp)) |].
    intros hr br ar [Hb _]. exact Hb.
Qed.

Lemma refines_raise_step {A B D : Type} (m : M B) (k : B -> M D)
    (h h1 : list object) (e : exn)
    (rel : list object -> D -> A -> Prop) :
  m h = (h1, Raise e) -> refines (m ≫= k) (Raise e) h rel.
Proof.
  unfold refines, mbind, M_bind, seq_. intros Hm. rewrite Hm.
  exists h1. reflexivity.
Qed.

(** Two copies in a row are two objects. *)
Lemma copies_spec (h : list object) (x y : value) (nx ny nx' ny' : num) :
  denote h x = Some nx -> denote h y = Some ny ->
  Np.copy nx = Ok nx' -> Np.copy ny = Ok ny' ->
  exists (h' : list object) (x' y' : value),
    (x' ← copy x; y' ← copy y; ret (x', y')) h = (h', Ok (x', y')) /\
    isscalar x' = false /\
    denotes_pair h' (x', y') (nx', ny') /\ disjoint x' y'.
Proof.
  intros Hx Hy Hcx Hcy.
  pose proof (copy_spec h x nx Hx) as Sx. rewrite Hcx in Sx.
  destruct Sx as (o1 & E1 & D1).
  pose proof (copy_spec (h ++ [o1]) y ny (denote_app _ _ _ _ Hy)) as Sy.
  rewrite Hcy in Sy. destruct Sy as (o2 & E2 & D2).
  exists ((h ++ [o1]) ++ [o2])%list, (VRef (length h)),
         (VRef (length (h ++ [o1]))).
  split; [unfold mbind, M_bind, seq_; rewrite E1, E2; reflexivity |].
  split; [reflexivity |].
  split; [split; [apply denote_app, D1 | exact D2] |].
  simpl. rewrite length_app. simpl. lia.
Qed.

Lemma arrays_spec (h : list object) (x y : value) (nx ny : num) :
  denote h x = Some nx -> denote h y = Some ny ->
  exists (h' : list object) (x' y' : value),
    (x' ← array x; y' ← array y; ret (x', y')) h = (h', Ok (x', y')) /\
    isscalar x' = false /\
    denotes_pair h' (x', y') (Np.array nx, Np.array ny).
Proof.
  intros Hx Hy.
  destruct (array_spec h x nx Hx) as (o1 & E1 & D1).
  destruct (array_spec (h ++ [o1]) y ny (denote_app _ _ _ _ Hy))
    as (o2 & E2 & D2).
  exists ((h ++ [o1]) ++ [o2])%list, (VRef (length h)),
         (VRef (length (h ++ [o1]))).
  split; [unfold mbind, M_bind, seq_; rewrite E1, E2; reflexivity |].
  split; [reflexivity |].
  split; [apply denote_app, D1 | exact D2].
Qed.

(** The store model of [transform] returns what the value model returns,
    and raises what it raises. *)
Lemma transform_refines (self : Reference.SpatialReference)
    (h : list object) (x y : value) (nx ny : num) (inverse : bool) :
  denote h x = Some nx -> denote h y = Some ny ->
  refines (transform self x y inverse)
          (Reference.transform self nx ny inverse) h denotes_pair.
Proof.
  intros Hx Hy. unfold transform, Reference.transform.
  eapply refines_step; [apply (isinstance_list_spec h x nx Hx) |].
  destruct nx as [rx | lx | ax].
  - destruct x as [r | l]; simpl in Hx;
      [| destruct (h !! l) as [[? | ?] |]; discriminate].
    injection Hx as ->.
    eapply refines_step; [reflexivity |].
    eapply refines_step; [reflexivity |].
    apply (transform_tail_refines self h (VFloat rx) y (Float rx) ny inverse).
    + split; [reflexivity | exact Hy].
    + exact I.
  - destruct (arrays_spec h x y _ _ Hx Hy) as (h1 & x1 & y1 & E1 & S1 & P1).
    eapply refines_step; [exact E1 |].
    assert (Hcy : exists a, Np.array ny = NdArray a)
      by (destruct ny; eexists; reflexivity).
    destruct Hcy as [ay Hay]. rewrite Hay in P1.
    destruct (copies_spec h1 x1 y1 _ _ _ _ (proj1 P1) (proj2 P1)
                eq_refl eq_refl) as (h2 & x2 & y2 & E2 & _ & P2 & D2).
    cbn [fst snd]. rewrite S1. cbn [negb].
    eapply refines_step; [exact E2 |].
    cbn [Np.isinstance_list]. rewrite Hay.
    apply (transform_tail_refines self h2 x2 y2 _ _ inverse P2 D2).
  - eapply refines_step; [reflexivity |].
    cbn [fst snd]. rewrite (isscalar_spec h x _ Hx). cbn [Np.isscalar negb].
    destruct (Np.copy ny) as [ny' | e] eqn:Hcy.
    + destruct (copies_spec h x y _ _ _ _ Hx Hy eq_refl Hcy)
        as (h2 & x2 & y2 & E2 & _ & P2 & D2).
      eapply refines_step; [exact E2 |].
      cbn [Np.isinstance_list Np.isscalar negb Np.copy]. rewrite Hcy.
      apply (transform_tail_refines self h2 x2 y2 _ _ inverse P2 D2).
    + cbn [Np.isinstance_list Np.isscalar negb Np.copy]. rewrite Hcy.
      pose proof (copy_spec h x _ Hx) as Sx. simpl in Sx.
      destruct Sx as (o1 & E1 & D1).
      pose proof (copy_spec (h ++ [o1]) y ny (denote_app _ _ _ _ Hy)) as Sy.
      rewrite Hcy in Sy.
      eapply refines_raise_step.
      unfold mbind, M_bind, seq_. rewrite E1, Sy. reflexivity.
Qed.

Lemma preserves_rotate (n : nat) (x y : value) (theta xo yo : R) :
  preserves n (rotate x y theta xo yo)
    (fun p => fresh n (fst p) /\ fresh n (snd p)).
Proof.
  unfold rotate.
  eapply preserves_bind; [apply preserves_load |]. intros nx _.
  eapply preserves_bind; [apply preserves_load |]. intros ny _.
  eapply preserves_bind; [apply preserves_lift |]. intros r _.
  eapply preserves_bind; [apply preserves_new |]. intros xrot Hx.
  eapply preserves_bind; [apply preserves_new |]. intros yrot Hy.
  apply preserves_ret. split; assumption.
Qed.

(** Once both operands are fresh, the rest of [transform] writes above
    address [n] only. *)
Lemma preserves_transform_tail (n : nat) (self : Reference.SpatialReference)
    (x y : value) (inverse : bool) :
  fresh n x -> fresh n y ->
  preserves n
    (if negb inverse then
       lm ← lift (Reference.lm_value self);
       x ← inplace (fun v => v * lm)%R x;
       lm ← lift (Reference.lm_value self);
       y ← inplace (fun v => v * lm)%R y;
       xo ← lift (Reference.xll self);
       x ← inplace (fun v => v + xo)%R x;
       yo ← lift (Reference.yll self);
       y ← inplace (fun v => v + yo)%R y;
       xo ← lift (Reference.xll self);
       yo ← lift (Reference.yll self);
       rotate x y (Reference.rotation self) xo yo
     else
       xo ← lift (Reference.xll self);
       yo ← lift (Reference.yll self);
       xy ← rotate x y (- Reference.rotation self) xo yo;
       let '(x, y) := xy in
       xo ← lift (Reference.xll self);
       x ← inplace (fun v => v - xo)%R x;
       yo ← lift (Reference.yll self);
       y ← inplace (fun v => v - yo)%R y;
       lm ← lift (Reference.lm_value self);
       x ← inplace_divide lm x;
       lm ← lift (Reference.lm_value self);
       y ← inplace_divide lm y;
       ret (x, y))
    (fun _ => True).
Proof.
  intros Hx Hy. destruct inverse; simpl.
  - eapply preserves_bind; [apply preserves_lift |]. intros xo _.
    eapply preserves_bind; [apply preserves_lift |]. intros yo _.
    eapply preserves_bind; [apply preserves_rotate |].
    intros [x1 y1] [Hx1 Hy1]. simpl in Hx1, Hy1.
    eapply preserves_bind; [apply preserves_lift |]. intros xo' _.
    eapply preserves_bind; [apply preserves_inplace, Hx1 |]. intros x2 Hx2.
    eapply preserves_bind; [apply preserves_lift |]. intros yo' _.
    eapply preserves_bind; [apply preserves_inplace, Hy1 |]. intros y2 Hy2.
    eapply preserves_bind; [apply preserves_lift |]. intros lm _.
    eapply preserves_bind; [apply preserves_inplace_divide, Hx2 |].
    intros x3 Hx3.
    eapply preserves_bind; [apply preserves_lift |]. intros lm' _.
    eapply preserves_bind; [apply preserves_inplace_divide, Hy2 |].
    intros y3 Hy3.
    apply preserves_ret. exact I.
  - eapply preserves_bind; [apply preserves_lift |]. intros lm _.
    eapply preserves_bind; [apply preserves_inplace, Hx |]. intros x1 Hx1.
    eapply preserves_bind; [apply preserves_lift |]. intros lm' _.
    eapply preserves_bind; [apply preserves_inplace, Hy |]. intros y1 Hy1.
    eapply preserves_bind; [apply preserves_lift |]. intros xo _.
    eapply preserves_bind; [apply preserves_inplace, Hx1 |]. intros x2 Hx2.
    eapply preserves_bind; [apply preserves_lift |]. intros yo _.
    eapply preserves_bind; [apply preserves_inplace, Hy1 |]. intros y2 Hy2.
    eapply preserves_bind; [apply preserves_lift |]. intros xo' _.
    eapply preserves_bind; [apply preserves_lift |]. intros yo' _.
    eapply preserves_weaken; [apply preserves_rotate |]. intros; exact I.
Qed.

(** With a list or an array as first argument, [transform] works on
    copies: every object of the store below [n] is as before. *)
Lemma preserves_transform (n : nat) (self : Reference.SpatialReference)
    (lx : nat) (y : value) (inverse : bool) :
  preserves n (transform self (VRef lx) y inverse) (fun _ => True).
Proof.
  unfold transform.
  eapply preserves_bind with (P := fun _ => True).
  { simpl. eapply preserves_bind; [apply preserves_deref |].
    intros o _. apply preserves_ret. exact I. }
  intros is_list _.
  eapply preserves_bind with (P := fun xy => isscalar (fst xy) = false).
  { destruct is_list.
    - eapply preserves_bind; [apply preserves_array |]. intros x1 [Hx1 _].
      eapply preserves_bind; [apply preserves_array |]. intros y1 _.
      apply preserves_ret. exact Hx1.
    - apply preserves_ret. reflexivity. }
  intros [x1 y1] Hx1. simpl in Hx1.
  eapply preserves_bind
    with (P := fun xy => fresh n (fst xy) /\ fresh n (snd xy)).
  { simpl. rewrite Hx1. simpl.
    eapply preserves_bind; [apply preserves_copy |]. intros x2 [_ Hx2].
    eapply preserves_bind; [apply preserves_copy |]. intros y2 [_ Hy2].
    apply preserves_ret. split; assumption. }
  intros [x2 y2] [Hx2 Hy2].
  apply preserves_transform_tail; assumption.
Qed.

(** C10. When both arguments of [transform] are lists or arrays of the
    caller, the objects they refer to, and every other object the store
    held before the call, are the same after the call, forward and
    inverse, whether the call returns or raises. *)
Theorem transform_leaves_arguments (self : Reference.SpatialReference)
    (h : list object) (lx ly : nat) (inverse : bool) :
  lx < length h -> ly < length h ->
  let h' := fst (transform self (VRef lx) (VRef ly) inverse h) in
  h' !! lx = h !! lx /\ h' !! ly = h !! ly /\
  forall l : nat, l < length h -> h' !! l = h !! l.
Proof.
  intros Hlx Hly h'.
  destruct (preserves_transform (length h) self lx (VRef ly) inverse h
              (le_n _)) as (_ & Hsame & _).
  repeat split; [apply Hsame, Hlx | apply Hsame, Hly | exact Hsame].
Qed.

End Facts.

Lemma transform_leaves_arguments_witness :
  0 < length Samples.two_objects /\ 1 < length Samples.two_objects /\
  let h' := fst (@transform Samples.offline Samples.rotated_sr
                   (VRef 0) (VRef 1) false Samples.two_objects) in
  h' !! 0 = Samples.two_objects !! 0 /\
  h' !! 1 = Samples.two_objects !! 1 /\
  forall l : nat,
    l < length Samples.two_objects -> h' !! l = Samples.two_objects !! l.
Proof.
  assert (H0 : 0 < length Samples.two_objects) by (simpl; lia).
  assert (H1 : 1 < length Samples.two_objects) by (simpl; lia).
  split; [exact H0 |]. split; [exact H1 |].
  exact (@transform_leaves_arguments Samples.offline Samples.rotated_sr
           Samples.two_objects 0 1 false H0 H1).
Defined.

(** The call of the witness returns: its results are two new arrays, at
    the addresses after the four copies. *)
Example transform_two_objects_returns :
  snd (@transform Samples.offline Samples.rotated_sr (VRef 0) (VRef 1)
         false Samples.two_objects)
  = Ok (VRef 6, VRef 7).
Proof. reflexivity. Qed.

(** The copies are made when the first argument is not a scalar.  With a
    float as first argument and an array as second, the array of the
    caller is scaled and shifted in place. *)
Remark transform_float_and_array_writes_array :
  fst (@transform Samples.offline Samples.rotated_sr (VFloat 1) (VRef 1)
         false Samples.two_objects) !! 1
  = Some (ArrayObj {| shape := [2%nat];
                      data := [3 * 2 + 20; 4 * 2 + 20]%R |}).
Proof. reflexivity. Qed.

End AliasingFacts.

(** ** Vertices *)

Module VerticesFacts.
Import Reference.

Lemma length_zip_with (f : R -> R -> R) (l1 l2 : list R) :
  length l1 = length l2 -> length (Np.zip_with f l1 l2) = length l1.
Proof.
  revert l2. induction l1 as [| a l1 IH]; intros [| b l2] Hlen;
    simpl in *; try congruence.
  f_equal. apply IH. lia.
Qed.

Lemma index2_in_range (a : ndarray) (nr nc i j : nat) :
  shape a = [nr; nc] -> length (data a) = (nr * nc)%nat ->
  i < nr -> j < nc ->
  exists v : R, index2 a i j = Ok v.
Proof.
  intros Hshape Hlen Hi Hj. unfold index2. rewrite Hshape.
  assert (Hi' : (i <? nr)%nat = true) by (apply Nat.ltb_lt; lia).
  assert (Hj' : (j <? nc)%nat = true) by (apply Nat.ltb_lt; lia).
  rewrite Hi', Hj'. simpl.
  destruct (data a !! (i * nc + j)%nat) as [v |] eqn:Hget.
  - exists v. reflexivity.
  - apply lookup_ge_None in Hget. nia.
Qed.

Lemma getitem2_arrays_in_range (x : num) (nr nc : nat) (i j : list nat) :
  has_shape nr nc x ->
  Forall2 (fun a b => a < nr /\ b < nc) i j ->
  exists vs : list R,
    getitem2_arrays (Some x) i j = Ok vs /\ length vs = length i.
Proof.
  intros (a & -> & Hshape & Hlen) Hij.
  induction Hij as [| p q i j [Hp Hq] Hij IH]; simpl.
  - exists []. split; reflexivity.
  - destruct (index2_in_range a nr nc p q Hshape Hlen Hp Hq) as [v Hv].
    destruct IH as (vs & Hvs & Hl).
    rewrite Hv. simpl. rewrite Hvs. simpl.
    exists (v :: vs). split; [reflexivity | simpl; congruence].
Qed.

Lemma repeat_seq_in_range (i s n : nat) :
  Forall2 (fun a b => a = i /\ b < s + n) (repeat i n) (seq s n).
Proof.
  revert s. induction n as [| n IH]; intros s; simpl; constructor.
  - split; [reflexivity | lia].
  - eapply Forall2_impl; [apply (IH (S s)) |].
    intros a b [-> Hb]. split; [reflexivity | lia].
Qed.

(** The index arrays of [_set_vertices] name every cell once, inside the
    grid. *)
Lemma meshgrid_ravel_in_range (ncol nrow : nat) :
  Forall2 (fun a b => a < nrow /\ b < ncol)
          (snd (meshgrid_ravel ncol nrow)) (fst (meshgrid_ravel ncol nrow)) /\
  length (snd (meshgrid_ravel ncol nrow)) = (nrow * ncol)%nat.
Proof.
  unfold meshgrid_ravel. simpl.
  assert (Hgen : forall rows : list nat,
            Forall (fun i => i < nrow) rows ->
            Forall2 (fun a b => a < nrow /\ b < ncol)
              (flat_map (fun i => repeat i ncol) rows)
              (flat_map (fun _ => seq 0 ncol) rows) /\
            length (flat_map (fun i => repeat i ncol) rows)
            = (length rows * ncol)%nat).
  { induction rows as [| i rows IH]; intros Hrows; simpl.
    - split; [constructor | reflexivity].
    - inversion Hrows as [| ? ? Hi Hrows']; subst.
      destruct (IH Hrows') as [Hf Hl]. split.
      + apply Forall2_app; [| exact Hf].
        eapply Forall2_impl; [apply (repeat_seq_in_range i 0 ncol) |].
        intros a b [-> Hb]. split; [exact Hi | lia].
      + rewrite length_app, repeat_length, Hl. reflexivity. }
  destruct (Hgen (seq 0 nrow)) as [Hf Hl].
  - apply List.Forall_forall. intros i Hi. apply in_seq in Hi. lia.
  - split; [exact Hf |]. rewrite Hl, length_seq. reflexivity.
Qed.

Lemma transpose_201_rings (x0 y0 x1 y1 x2 y2 x3 y3 : list R) (n : nat) :
  let cells := transpose_201
                 [(x0, y0); (x1, y1); (x2, y2); (x3, y3); (x0, y0)] n in
  length cells = n /\ Forall closed_ring cells.
Proof.
  unfold transpose_201. split.
  - rewrite length_map, length_seq. reflexivity.
  - apply List.Forall_forall. intros ring Hring.
    apply in_map_iff in Hring as (k & <- & _).
    split; reflexivity.
Qed.

Section Facts.
Context `{Environment}.

(** The forward transform of two arrays of one shape is two arrays of
    that shape. *)
Lemma transform_has_shape (self : SpatialReference) (x y : num)
    (nr nc : nat) (lm xo yo : R) :
  lm_value self = Ok lm -> xll self = Ok xo -> yll self = Ok yo ->
  has_shape nr nc x -> has_shape nr nc y ->
  exists x' y' : num,
    transform self x y false = Ok (x', y') /\
    has_shape nr nc x' /\ has_shape nr nc y'.
Proof.
  intros Hlm Hxo Hyo (ax & -> & Hsx & Hlx) (ay & -> & Hsy & Hly).
  unfold transform. simpl. rewrite Hlm, Hxo, Hyo. simpl.
  unfold rotate. simpl. unfold shape_eqb. simpl.
  rewrite !bool_decide_eq_true_2 by congruence. simpl.
  eexists. eexists. split; [reflexivity |].
  split; eexists; (split; [reflexivity |]); simpl;
    (split; [exact Hsx |]);
    rewrite length_zip_with; rewrite ?length_map; congruence.
Qed.

(** Reading both edge arrays gives the transform of the edges of the
    attached grid, and leaves the grid and the vertex cache alone. *)
Lemma edges_read (self : SpatialReference) (x y : num) :
  edges_current self ->
  transform self (g_xedges (modelgrid self)) (g_yedges (modelgrid self))
            false = Ok (x, y) ->
  exists s : SpatialReference,
    xedges self = Ok (Some x, s) /\ yedges s = Ok (Some y, s) /\
    modelgrid s = modelgrid self /\ _vertices s = _vertices self.
Proof.
  unfold edges_current. intros Hcur Ht.
  destruct (_xedges self) as [x0 |] eqn:Hx, (_yedges self) as [y0 |] eqn:Hy;
    try contradiction.
  - rewrite Ht in Hcur. injection Hcur as <- <-.
    exists self. unfold xedges, yedges, cached. rewrite Hx, Hy.
    repeat split.
  - destruct (ReadFacts.reads_slots self _
                (ReadFacts.reads_after_transform self false))
      as (Hg & _ & _ & _ & _ & Hv & _).
    exists (set__yedges (Some y)
              (set__xedges (Some x) (after_transform self false))).
    split; [unfold xedges, cached, _set_xyedges; rewrite Hx, Ht;
            reflexivity |].
    split; [reflexivity |]. split; [exact Hg | exact Hv].
Qed.

Lemma shifted_in_range (nrow ncol : nat) (i j : list nat) :
  Forall2 (fun a b => a < nrow /\ b < ncol) i j ->
  Forall2 (fun a b => a < S nrow /\ b < S ncol) i j /\
  Forall2 (fun a b => a < S nrow /\ b < S ncol)
          (map (fun a => a + 1) i) j /\
  Forall2 (fun a b => a < S nrow /\ b < S ncol)
          (map (fun a => a + 1) i) (map (fun b => b + 1) j) /\
  Forall2 (fun a b => a < S nrow /\ b < S ncol)
          i (map (fun b => b + 1) j).
Proof.
  intros Hij. induction Hij as [| a b i j [Ha Hb] Hij IH]; simpl.
  - repeat split; constructor.
  - destruct IH as (H1 & H2 & H3 & H4).
    repeat split; constructor; try assumption; lia.
Qed.

(** C8. On a reference that is placed (its origin and length multiplier
    are defined), attached to a structured grid of R rows and C columns
    whose edge arrays have R+1 rows and C+1 columns, and whose edge caches
    are in step, the first read of [vertices] yields R*C rings, each of
    exactly 5 points with the first point equal to the last, and a later
    read yields the same rings from the cache. *)
Theorem vertices_rings (self : SpatialReference) (lm xo yo : R) :
  let nrow := g_nrow (modelgrid self) in
  let ncol := g_ncol (modelgrid self) in
  has_shape (S nrow) (S ncol) (g_xedges (modelgrid self)) ->
  has_shape (S nrow) (S ncol) (g_yedges (modelgrid self)) ->
  lm_value self = Ok lm -> xll self = Ok xo -> yll self = Ok yo ->
  edges_current self -> _vertices self = None ->
  exists (cells : list (list (R * R))) (self' : SpatialReference),
    vertices self = Ok (Some (Rings cells), self') /\
    length cells = (nrow * ncol)%nat /\
    Forall closed_ring cells /\
    vertices self' = Ok (Some (Rings cells), self').
Proof.
  intros nrow ncol Hgx Hgy Hlm Hxo Hyo Hcur Hnone.
  destruct (transform_has_shape self _ _ _ _ lm xo yo Hlm Hxo Hyo Hgx Hgy)
    as (x & y & Ht & Hx & Hy).
  destruct (edges_read self x y Hcur Ht) as (s & Hxe & Hye & Hmg & _).
  destruct (meshgrid_ravel_in_range ncol nrow) as [Hrange Hlen].
  unfold vertices, cached. rewrite Hnone.
  unfold _set_vertices. fold nrow ncol.
  destruct (meshgrid_ravel ncol nrow) as [jj ii] eqn:Hmesh.
  simpl in Hrange, Hlen.
  destruct (shifted_in_range nrow ncol ii jj Hrange) as (H00 & H10 & H11 & H01).
  unfold get_vertices. rewrite Hxe. simpl. rewrite Hye. simpl.
  destruct (getitem2_arrays_in_range x _ _ _ _ Hx H00) as (x0 & Ex0 & Lx0).
  destruct (getitem2_arrays_in_range y _ _ _ _ Hy H00) as (y0 & Ey0 & _).
  destruct (getitem2_arrays_in_range x _ _ _ _ Hx H10) as (x1 & Ex1 & _).
  destruct (getitem2_arrays_in_range y _ _ _ _ Hy H10) as (y1 & Ey1 & _).
  destruct (getitem2_arrays_in_range x _ _ _ _ Hx H11) as (x2 & Ex2 & _).
  destruct (getitem2_arrays_in_range y _ _ _ _ Hy H11) as (y2 & Ey2 & _).
  destruct (getitem2_arrays_in_range x _ _ _ _ Hx H01) as (x3 & Ex3 & _).
  destruct (getitem2_arrays_in_range y _ _ _ _ Hy H01) as (y3 & Ey3 & _).
  rewrite Ex0. simpl. rewrite Ey0. simpl. rewrite Ex1. simpl.
  rewrite Ey1. simpl. rewrite Ex2. simpl. rewrite Ey2. simpl.
  rewrite Ex3. simpl. rewrite Ey3. simpl.
  destruct (transpose_201_rings x0 y0 x1 y1 x2 y2 x3 y3 (length x0))
    as [Hcells Hrings].
  eexists. eexists. split; [reflexivity |].
  split; [rewrite Hcells, Lx0; exact Hlen |].
  split; [exact Hrings | reflexivity].
Qed.

End Facts.

Lemma vertices_rings_witness :
  let self := Samples.rotated_sr in
  has_shape 3 3 (g_xedges (modelgrid self)) /\
  has_shape 3 3 (g_yedges (modelgrid self)) /\
  @lm_value Samples.offline self = Ok 2%R /\
  @xll Samples.offline self = Ok 10%R /\
  @yll Samples.offline self = Ok 20%R /\
  @edges_current Samples.offline self /\ _vertices self = None /\
  exists (cells : list (list (R * R))) (self' : SpatialReference),
    @vertices Samples.offline self = Ok (Some (Rings cells), self') /\
    length cells = 4%nat /\
    Forall closed_ring cells /\
    @vertices Samples.offline self' = Ok (Some (Rings cells), self').
Proof.
  assert (Hgx : has_shape 3 3 (g_xedges (modelgrid Samples.rotated_sr)))
    by (eexists; repeat split).
  assert (Hgy : has_shape 3 3 (g_yedges (modelgrid Samples.rotated_sr)))
    by (eexists; repeat split).
  repeat (split; [first [exact Hgx | exact Hgy | reflexivity | exact I] |]).
  exact (@vertices_rings Samples.offline Samples.rotated_sr 2 10 20
           Hgx Hgy eq_refl eq_refl eq_refl I eq_refl).
Defined.

End VerticesFacts.

(** ** Rotation and the transform as maps of the plane *)

Module AffineFacts.
Import Reference.

Section Facts.
Context `{Environment}.

Lemma degrees_sum (a b : R) :
  ((a + b) * PI / 180 = a * PI / 180 + b * PI / 180)%R.
Proof. lra. Qed.

Lemma unit_circle (t : R) : (cos t * cos t + sin t * sin t = 1)%R.
Proof.
  pose proof (sin2_cos2 t) as Hsc. unfold Rsqr in Hsc. lra.
Qed.

(** [rotate] about one origin composes by adding the angles: turning a
    point by [a] degrees and the result by [b] degrees is turning it by
    [a + b] degrees. *)
Theorem rotate_compose (x y a b xo yo : R) :
  (p ← rotate (Float x) (Float y) a xo yo;
   rotate (fst p) (snd p) b xo yo)
  = rotate (Float x) (Float y) (a + b) xo yo.
Proof.
  rewrite !TransformFacts.rotate_float. simpl.
  rewrite TransformFacts.rotate_float.
  rewrite degrees_sum, cos_plus, sin_plus.
  apply f_equal, f_equal2; apply f_equal; ring.
Qed.

(** [rotate] moves points rigidly: its origin stays where it is and the
    distance between the images of two points is the distance between
    the points. *)
Theorem rotate_rigid (x1 y1 x2 y2 t xo yo : R) :
  rotate (Float xo) (Float yo) t xo yo = Ok (Float xo, Float yo) /\
  exists a1 b1 a2 b2 : R,
    rotate (Float x1) (Float y1) t xo yo = Ok (Float a1, Float b1) /\
    rotate (Float x2) (Float y2) t xo yo = Ok (Float a2, Float b2) /\
    ((a1 - a2) * (a1 - a2) + (b1 - b2) * (b1 - b2)
     = (x1 - x2) * (x1 - x2) + (y1 - y2) * (y1 - y2))%R.
Proof.
  rewrite !TransformFacts.rotate_float. split.
  - apply f_equal, f_equal2; apply f_equal; ring.
  - do 4 eexists. split; [reflexivity |]. split; [reflexivity |].
    pose proof (unit_circle (t * PI / 180)) as Hc.
    set (c := cos (t * PI / 180)) in *. set (s := sin (t * PI / 180)) in *.
    transitivity (((x1 - x2) * (x1 - x2) + (y1 - y2) * (y1 - y2))
                  * (c * c + s * s))%R; [ring | rewrite Hc; ring].
Qed.

(** The forward transform puts the local origin at the lower-left
    corner, whatever the rotation and the length multiplier. *)
Theorem transform_origin (self : SpatialReference) (lm xo yo : R) :
  lm_value self = Ok lm -> xll self = Ok xo -> yll self = Ok yo ->
  transform self (Float 0) (Float 0) false = Ok (Float xo, Float yo).
Proof.
  intros Hlm Hx Hy.
  rewrite (TransformFacts.transform_forward_float self 0 0 lm xo yo Hlm Hx Hy).
  rewrite TransformFacts.rotate_float.
  apply f_equal, f_equal2; apply f_equal; ring.
Qed.

(** Without rotation and with a multiplier of 1 the forward transform is
    the translation by the lower-left corner. *)
Theorem transform_translation (self : SpatialReference) (x y xo yo : R) :
  rotation self = 0%R -> lm_value self = Ok 1%R ->
  xll self = Ok xo -> yll self = Ok yo ->
  transform self (Float x) (Float y) false
  = Ok (Float (x + xo), Float (y + yo)).
Proof.
  intros Hrot Hlm Hx Hy.
  rewrite (TransformFacts.transform_forward_float self x y 1 xo yo Hlm Hx Hy).
  rewrite TransformFacts.rotate_float, Hrot.
  replace (0 * PI / 180)%R with 0%R by lra.
  rewrite cos_0, sin_0.
  apply f_equal, f_equal2; apply f_equal; ring.
Qed.

(** The forward transform is a similarity: it multiplies every distance
    by the length multiplier (here with squares on both sides). *)
Theorem transform_scales_distances (self : SpatialReference)
    (x1 y1 x2 y2 lm xo yo : R) :
  lm_value self = Ok lm -> xll self = Ok xo -> yll self = Ok yo ->
  exists a1 b1 a2 b2 : R,
    transform self (Float x1) (Float y1) false = Ok (Float a1, Float b1) /\
    transform self (Float x2) (Float y2) false = Ok (Float a2, Float b2) /\
    ((a1 - a2) * (a1 - a2) + (b1 - b2) * (b1 - b2)
     = lm * lm * ((x1 - x2) * (x1 - x2) + (y1 - y2) * (y1 - y2)))%R.
Proof.
  intros Hlm Hx Hy.
  rewrite !(TransformFacts.transform_forward_float self _ _ lm xo yo Hlm Hx Hy).
  rewrite !TransformFacts.rotate_float.
  do 4 eexists. split; [reflexivity |]. split; [reflexivity |].
  pose proof (unit_circle (rotation self * PI / 180)) as Hc.
  set (c := cos (rotation self * PI / 180)) in *.
  set (s := sin (rotation self * PI / 180)) in *.
  transitivity (lm * lm * ((x1 - x2) * (x1 - x2) + (y1 - y2) * (y1 - y2))
                * (c * c + s * s))%R; [ring | rewrite Hc; ring].
Qed.

(** The other round trip: the inverse transform of a world point
    followed by the forward transform gives the world point back, for
    every length multiplier other than 0. *)
Theorem transform_inverse_then_forward (self : SpatialReference)
    (x y lm xo yo : R) :
  lm_value self = Ok lm -> lm <> 0%R ->
  xll self = Ok xo -> yll self = Ok yo ->
  exists x' y' : R,
    transform self (Float x) (Float y) true = Ok (Float x', Float y') /\
    transform self (Float x') (Float y') false = Ok (Float x, Float y).
Proof.
  intros Hlm Hne Hx Hy.
  rewrite (TransformFacts.transform_inverse_float self x y lm xo yo
             Hlm Hne Hx Hy).
  eexists. eexists. split; [reflexivity |].
  rewrite (TransformFacts.transform_forward_float self _ _ lm xo yo Hlm Hx Hy).
  rewrite TransformFacts.rotate_float.
  replace (- rotation self * PI / 180)%R with (- (rotation self * PI / 180))%R
    by lra.
  rewrite cos_neg, sin_neg.
  pose proof (unit_circle (rotation self * PI / 180)) as Hc.
  set (c := cos (rotation self * PI / 180)) in *.
  set (s := sin (rotation self * PI / 180)) in *.
  apply f_equal, f_equal2; apply f_equal.
  - transitivity (xo + (x - xo) * (c * c + s * s))%R;
      [field; exact Hne | rewrite Hc; ring].
  - transitivity (yo + (y - yo) * (c * c + s * s))%R;
      [field; exact Hne | rewrite Hc; ring].
Qed.

End Facts.

Lemma transform_origin_witness :
  @lm_value Samples.offline Samples.rotated_sr = Ok 2%R /\
  @xll Samples.offline Samples.rotated_sr = Ok 10%R /\
  @yll Samples.offline Samples.rotated_sr = Ok 20%R /\
  @transform Samples.offline Samples.rotated_sr (Float 0) (Float 0) false
  = Ok (Float 10, Float 20).
Proof.
  repeat (split; [reflexivity |]).
  exact (@transform_origin Samples.offline Samples.rotated_sr 2 10 20
           eq_refl eq_refl eq_refl).
Defined.

Lemma transform_scales_distances_witness :
  @lm_value Samples.offline Samples.rotated_sr = Ok 2%R /\
  @xll Samples.offline Samples.rotated_sr = Ok 10%R /\
  @yll Samples.offline Samples.rotated_sr = Ok 20%R /\
  exists a1 b1 a2 b2 : R,
    @transform Samples.offline Samples.rotated_sr (Float 1) (Float 0) false
    = Ok (Float a1, Float b1) /\
    @transform Samples.offline Samples.rotated_sr (Float 0) (Float 3) false
    = Ok (Float a2, Float b2) /\
    ((a1 - a2) * (a1 - a2) + (b1 - b2) * (b1 - b2)
     = 2 * 2 * ((1 - 0) * (1 - 0) + (0 - 3) * (0 - 3)))%R.
Proof.
  repeat (split; [reflexivity |]).
  exact (@transform_scales_distances Samples.offline Samples.rotated_sr
           1 0 0 3 2 10 20 eq_refl eq_refl eq_refl).
Defined.

Lemma transform_inverse_then_forward_witness :
  @lm_value Samples.offline Samples.rotated_sr = Ok 2%R /\
  (2 <> 0)%R /\
  @xll Samples.offline Samples.rotated_sr = Ok 10%R /\
  @yll Samples.offline Samples.rotated_sr = Ok 20%R /\
  exists x' y' : R,
    @transform Samples.offline Samples.rotated_sr (Float 3) (Float 4) true
    = Ok (Float x', Float y') /\
    @transform Samples.offline Samples.rotated_sr (Float x') (Float y') false
    = Ok (Float 3, Float 4).
Proof.
  assert (Hne : (2 <> 0)%R) by lra.
  split; [reflexivity |]. split; [exact Hne |].
  split; [reflexivity |]. split; [reflexivity |].
  exact (@transform_inverse_then_forward Samples.offline Samples.rotated_sr
           3 4 2 10 20 eq_refl Hne eq_refl eq_refl).
Defined.

Lemma transform_translation_witness :
  rotation Samples.shifted_sr = 0%R /\
  @lm_value Samples.offline Samples.shifted_sr = Ok 1%R /\
  @xll Samples.offline Samples.shifted_sr = Ok 5%R /\
  @yll Samples.offline Samples.shifted_sr = Ok 7%R /\
  @transform Samples.offline Samples.shifted_sr (Float 3) (Float 4) false
  = Ok (Float (3 + 5), Float (4 + 7)).
Proof.
  do 4 (split; [reflexivity |]).
  exact (@transform_translation Samples.offline Samples.shifted_sr 3 4 5 7
           eq_refl eq_refl eq_refl eq_refl).
Defined.

End AffineFacts.

(** ** Units and the length multiplier *)

Module UnitsFacts.
Import Reference.

Lemma mem_supported (u : string) :
  Str.mem u supported_units = true -> u = "feet" \/ u = "meters".
Proof.
  unfold Str.mem, supported_units. simpl. intros Hmem.
  apply orb_true_iff in Hmem as [Hfeet | Hmem].
  - left. apply String.eqb_eq, Hfeet.
  - apply orb_true_iff in Hmem as [Hmeters | Hnone]; [| discriminate].
    right. apply String.eqb_eq, Hmeters.
Qed.

Section Facts.
Context `{Environment}.

(** The [units] getter returns one of the two supported units. *)
Lemma units_supported (self : SpatialReference) (u : string) :
  units self = Ok u -> u = "feet" \/ u = "meters".
Proof.
  unfold units.
  set (v := match match _units self with
                  | Some u0 => Some (Str.lower u0)
                  | None => _parse_units_from_proj4 self
                  end with
            | Some u0 => u0
            | None => "meters"
            end).
  destruct (Str.mem v supported_units) eqn:Hmem; [| discriminate].
  intros [= <-]. apply mem_supported, Hmem.
Qed.

(** Whenever the [length_multiplier] getter returns, it returns a
    number, never [None]; and when no multiplier was given the number
    derived from the model units and the reference units is positive. *)
Theorem length_multiplier_defined (self : SpatialReference)
    (o : option R) :
  length_multiplier self = Ok o ->
  exists lm : R,
    o = Some lm /\ (_length_multiplier self = None -> (0 < lm)%R).
Proof.
  unfold length_multiplier.
  destruct (_length_multiplier self) as [lm |].
  - intros [= <-]. exists lm. split; [reflexivity | discriminate].
  - unfold model_length_units.
    destruct (lenuni_text (lenuni self)) as [mlu | e]; [| discriminate].
    simpl.
    destruct (units self) as [u | e] eqn:Hu.
    + destruct (units_supported self u Hu) as [-> | ->];
        destruct (mlu =? "feet")%string; simpl;
          [ | destruct (mlu =? "meters")%string; simpl;
              [| destruct (mlu =? "centimeters")%string; simpl]
            | | destruct (mlu =? "meters")%string; simpl;
              [| destruct (mlu =? "centimeters")%string; simpl] ];
        intros [= <-]; eexists; (split; [reflexivity |]); intros _; lra.
    + destruct (mlu =? "feet")%string; simpl; [discriminate |].
      destruct (mlu =? "meters")%string; simpl; [discriminate |].
      destruct (mlu =? "centimeters")%string; simpl; [discriminate |].
      intros [= <-]. eexists. split; [reflexivity |]. intros _. lra.
Qed.

End Facts.

Lemma length_multiplier_defined_witness :
  @length_multiplier Samples.offline Samples.feet_in_metres_sr
  = Ok (Some (3048 / 10000)%R) /\
  exists lm : R,
    Some (3048 / 10000)%R = Some lm /\
    (_length_multiplier Samples.feet_in_metres_sr = None -> (0 < lm)%R).
Proof.
  split; [reflexivity |].
  exact (@length_multiplier_defined Samples.offline
           Samples.feet_in_metres_sr _ eq_refl).
Defined.

End UnitsFacts.


(** ** The two corners *)

Module OriginFacts.
Import Reference.

Lemma suffix_sums (acc : R) (l : list R) :
  map (fun a => acc + add_reduce l - a)%R (add_accumulate_from acc l)
  = map (fun k => add_reduce (drop k l)) (seq 1 (length l)).
Proof.
  revert acc. induction l as [| v l IH]; intros acc; [reflexivity |].
  cbn [add_accumulate_from length seq map]. f_equal.
  - change (drop 1 (v :: l)) with (drop 0 l). rewrite drop_0.
    unfold add_reduce. cbn [fold_right]. ring.
  - rewrite <- seq_shift, map_map.
    transitivity (map (fun a => acc + v + add_reduce l - a)%R
                      (add_accumulate_from (acc + v) l)).
    + apply map_ext. intros a. unfold add_reduce. cbn [fold_right]. ring.
    + rewrite IH. apply map_ext. intros k. reflexivity.
Qed.

Section Facts.
Context `{Environment}.

(** The multiplier is read from five slots only. *)
Lemma lm_value_ext (s1 s2 : SpatialReference) :
  _length_multiplier s1 = _length_multiplier s2 ->
  _lenuni s1 = _lenuni s2 -> _units s1 = _units s2 ->
  _proj4_str s1 = _proj4_str s2 -> _epsg s1 = _epsg s2 ->
  lm_value s1 = lm_value s2.
Proof.
  intros Hlm Hlen Hunits Hproj Hepsg.
  assert (Hparse : _parse_units_from_proj4 s1 = _parse_units_from_proj4 s2).
  { unfold _parse_units_from_proj4, proj4_str, epsg.
    rewrite Hproj, Hepsg.
    destruct (_proj4_str s2) as [| r | z | str]; try reflexivity.
    - destruct (negb (is_none (_epsg s2))); reflexivity.
    - destruct (Str.contains "epsg" (Str.lower str)); [| reflexivity].
      destruct (filter _ (Str.split str)) as [| t tmp]; [reflexivity |].
      destruct (Str.split_on ":" t) as [| a [| c l]]; try reflexivity.
      destruct (int_of_string c); reflexivity. }
  unfold lm_value, length_multiplier, model_length_units, lenuni, units.
  rewrite Hlm, Hlen, Hunits, Hparse. reflexivity.
Qed.

Lemma set_spatialreference_stores (self s : SpatialReference)
    (delc : list R) (xul yul xll yll : option R) (rot : R) :
  set_spatialreference self delc xul yul xll yll rot = Ok s ->
  _yedge s = add_reduce delc
             :: map (fun a => add_reduce delc - a)%R (add_accumulate delc) /\
  rotation s = rot /\
  origin_loc s = (if bool_decide (xll <> None) then ll else ul) /\
  lm_value s = lm_value self /\
  _xll s = default 0%R xll /\ _yll s = default 0%R yll /\
  _xul s = (if bool_decide (xul = None) && bool_decide (yul = None)
               && bool_decide (xll = None) && bool_decide (yll = None)
            then 0%R else default 0%R xul) /\
  _yul s = (if bool_decide (xul = None) && bool_decide (yul = None)
               && bool_decide (xll = None) && bool_decide (yll = None)
            then add_reduce delc else default 0%R yul) /\
  _length_multiplier s = _length_multiplier self.
Proof.
  intros Hset. destruct self. unfold set_spatialreference in Hset.
  destruct xul, yul, xll, yll; simpl in Hset; try discriminate;
    injection Hset as <-;
    (do 3 (split; [reflexivity |]));
    (split; [apply lm_value_ext; reflexivity |]);
    (do 4 (split; [reflexivity |])); reflexivity.
Qed.

(** After [set_spatialreference], entry [k] of [_yedge] is the extent of
    the rows from row [k] on: the list starts with the sum of [delc],
    has one entry more than [delc], and ends with 0. *)
Theorem yedge_suffix_sums (self s : SpatialReference) (delc : list R)
    (xul yul xll yll : option R) (rot : R) :
  set_spatialreference self delc xul yul xll yll rot = Ok s ->
  _yedge s = map (fun k => add_reduce (drop k delc))
                 (seq 0 (S (length delc))) /\
  first (_yedge s) = Ok (add_reduce delc) /\
  last (_yedge s) = Some 0%R.
Proof.
  intros Hset.
  destruct (set_spatialreference_stores _ _ _ _ _ _ _ _ Hset) as (Hy & _).
  assert (Hform : _yedge s = map (fun k => add_reduce (drop k delc))
                                 (seq 0 (S (length delc)))).
  { rewrite Hy. cbn [seq map drop]. f_equal.
    unfold add_accumulate. rewrite <- (suffix_sums 0 delc).
    apply map_ext. intros a. ring. }
  split; [exact Hform |]. split; [rewrite Hy; reflexivity |].
  rewrite Hform, seq_S, map_app. cbn [map Nat.add].
  rewrite last_snoc, drop_all. reflexivity.
Qed.

(** Both corners are defined together and differ by the extent of the
    grid along its rotated column direction, whichever of them is
    stored. *)
Theorem corners_agree (self : SpatialReference) (lm y0 : R)
    (rest : list R) :
  lm_value self = Ok lm -> _yedge self = y0 :: rest ->
  exists xl yl xu yu : R,
    xll self = Ok xl /\ yll self = Ok yl /\
    xul self = Ok xu /\ yul self = Ok yu /\
    xu = (xl + sin (theta self) * y0 * lm)%R /\
    yu = (yl + cos (theta self) * y0 * lm)%R.
Proof.
  intros Hlm Hy. unfold xll, yll, xul, yul.
  destruct (origin_loc self); rewrite Hy; simpl; rewrite Hlm; simpl;
    do 4 eexists; (do 4 (split; [reflexivity |])); split; ring.
Qed.

Lemma corners_of_ul (s : SpatialReference) (lm y0 : R) (rest : list R) :
  origin_loc s = ul -> lm_value s = Ok lm -> _yedge s = y0 :: rest ->
  xll s = Ok (_xul s - sin (theta s) * y0 * lm)%R /\
  yll s = Ok (_yul s - cos (theta s) * y0 * lm)%R /\
  xul s = Ok (_xul s) /\ yul s = Ok (_yul s).
Proof.
  intros Ho Hlm Hy. unfold xll, yll, xul, yul. rewrite Ho, Hy. simpl.
  rewrite Hlm. repeat split.
Qed.

Lemma corners_of_ll (s : SpatialReference) (lm y0 : R) (rest : list R) :
  origin_loc s = ll -> lm_value s = Ok lm -> _yedge s = y0 :: rest ->
  xul s = Ok (_xll s + sin (theta s) * y0 * lm)%R /\
  yul s = Ok (_yll s + cos (theta s) * y0 * lm)%R /\
  xll s = Ok (_xll s) /\ yll s = Ok (_yll s).
Proof.
  intros Ho Hlm Hy. unfold xll, yll, xul, yul. rewrite Ho, Hy. simpl.
  rewrite Hlm. repeat split.
Qed.

Lemma assign_xul (self s : SpatialReference) (v : R) :
  __setattr__ self "xul" (PyFloatV v) = Ok s ->
  origin_loc s = ul /\ _xul s = v /\ _yul s = _yul self /\
  rotation s = rotation self /\ _yedge s = _yedge self /\
  lm_value s = lm_value self.
Proof.
  intros Hs.
  assert (Hs' : Ok (_reset (set_origin_loc ul (set__xul v self))) = Ok s)
    by exact Hs.
  injection Hs' as <-. do 5 (split; [reflexivity |]).
  apply lm_value_ext; reflexivity.
Qed.

Lemma assign_yul (self s : SpatialReference) (v : R) :
  __setattr__ self "yul" (PyFloatV v) = Ok s ->
  origin_loc s = ul /\ _xul s = _xul self /\ _yul s = v /\
  rotation s = rotation self /\ _yedge s = _yedge self /\
  lm_value s = lm_value self.
Proof.
  intros Hs.
  assert (Hs' : Ok (_reset (set_origin_loc ul (set__yul v self))) = Ok s)
    by exact Hs.
  injection Hs' as <-. do 5 (split; [reflexivity |]).
  apply lm_value_ext; reflexivity.
Qed.

Lemma assign_xll (self s : SpatialReference) (v : R) :
  __setattr__ self "xll" (PyFloatV v) = Ok s ->
  origin_loc s = ll /\ _xll s = v /\ _yll s = _yll self /\
  rotation s = rotation self /\ _yedge s = _yedge self /\
  lm_value s = lm_value self.
Proof.
  intros Hs.
  assert (Hs' : Ok (_reset (set_origin_loc ll (set__xll v self))) = Ok s)
    by exact Hs.
  injection Hs' as <-. do 5 (split; [reflexivity |]).
  apply lm_value_ext; reflexivity.
Qed.

Lemma assign_yll (self s : SpatialReference) (v : R) :
  __setattr__ self "yll" (PyFloatV v) = Ok s ->
  origin_loc s = ll /\ _xll s = _xll self /\ _yll s = v /\
  rotation s = rotation self /\ _yedge s = _yedge self /\
  lm_value s = lm_value self.
Proof.
  intros Hs.
  assert (Hs' : Ok (_reset (set_origin_loc ll (set__yll v self))) = Ok s)
    by exact Hs.
  injection Hs' as <-. do 5 (split; [reflexivity |]).
  apply lm_value_ext; reflexivity.
Qed.

Lemma assign_corner_returns (self : SpatialReference) (key : string)
    (v : R) :
  In key ["xul"; "yul"; "xll"; "yll"] ->
  exists s : SpatialReference, __setattr__ self key (PyFloatV v) = Ok s.
Proof.
  intros Hin. simpl in Hin.
  destruct Hin as [<- | [<- | [<- | [<- | []]]]]; eexists; reflexivity.
Qed.

(** A reference can be re-entered through its other corner: assigning
    the derived upper-left corner to [xul] and [yul] leaves the
    lower-left corner where it was, and assigning the derived lower-left
    corner to [xll] and [yll] leaves the upper-left corner where it
    was. *)
Theorem corner_reentry (self : SpatialReference) (lm y0 : R)
    (rest : list R) (xl yl xu yu : R) :
  lm_value self = Ok lm -> _yedge self = y0 :: rest ->
  xll self = Ok xl -> yll self = Ok yl ->
  xul self = Ok xu -> yul self = Ok yu ->
  (s ← __setattr__ self "xul" (PyFloatV xu);
   s ← __setattr__ s "yul" (PyFloatV yu);
   xl' ← xll s; yl' ← yll s; Ok (origin_loc s, xl', yl'))
  = Ok (ul, xl, yl) /\
  (s ← __setattr__ self "xll" (PyFloatV xl);
   s ← __setattr__ s "yll" (PyFloatV yl);
   xu' ← xul s; yu' ← yul s; Ok (origin_loc s, xu', yu'))
  = Ok (ll, xu, yu).
Proof.
  intros Hlm Hy Hxl Hyl Hxu Hyu.
  destruct (corners_agree self lm y0 rest Hlm Hy)
    as (xl0 & yl0 & xu0 & yu0 & Exl & Eyl & Exu & Eyu & Hx & Hyy).
  rewrite Hxl in Exl. rewrite Hyl in Eyl. rewrite Hxu in Exu.
  rewrite Hyu in Eyu.
  injection Exl as <-. injection Eyl as <-. injection Exu as <-.
  injection Eyu as <-.
  split.
  - destruct (assign_corner_returns self "xul" xu) as [s1 E1];
      [simpl; tauto |].
    rewrite E1. apply assign_xul in E1 as (_ & X1 & _ & R1 & Y1 & L1).
    destruct (assign_corner_returns s1 "yul" yu) as [s2 E2];
      [simpl; tauto |].
    change ((s ← __setattr__ s1 "yul" (PyFloatV yu);
             xl' ← xll s; yl' ← yll s; Ok (origin_loc s, xl', yl'))
            = Ok (ul, xl, yl)).
    rewrite E2. apply assign_yul in E2 as (O2 & X2 & Y2 & R2 & E2 & L2).
    rewrite L1, Hlm in L2. rewrite Y1, Hy in E2.
    destruct (corners_of_ul s2 lm y0 rest O2 L2 E2) as (Ex & Ey & _).
    change ((xl' ← xll s2; yl' ← yll s2; Ok (origin_loc s2, xl', yl'))
            = Ok (ul, xl, yl)).
    rewrite Ex, Ey, O2, X2, X1, Y2. unfold theta. rewrite R2, R1.
    fold (theta self). simpl. rewrite Hx, Hyy.
    do 2 f_equal; [f_equal |]; ring.
  - destruct (assign_corner_returns self "xll" xl) as [s1 E1];
      [simpl; tauto |].
    rewrite E1. apply assign_xll in E1 as (_ & X1 & _ & R1 & Y1 & L1).
    destruct (assign_corner_returns s1 "yll" yl) as [s2 E2];
      [simpl; tauto |].
    change ((s ← __setattr__ s1 "yll" (PyFloatV yl);
             xu' ← xul s; yu' ← yul s; Ok (origin_loc s, xu', yu'))
            = Ok (ll, xu, yu)).
    rewrite E2. apply assign_yll in E2 as (O2 & X2 & Y2 & R2 & E2 & L2).
    rewrite L1, Hlm in L2. rewrite Y1, Hy in E2.
    destruct (corners_of_ll s2 lm y0 rest O2 L2 E2) as (Ex & Ey & _).
    change ((xu' ← xul s2; yu' ← yul s2; Ok (origin_loc s2, xu', yu'))
            = Ok (ll, xu, yu)).
    rewrite Ex, Ey, O2, X2, X1, Y2. unfold theta. rewrite R2, R1.
    fold (theta self). simpl. rewrite Hx, Hyy. reflexivity.
Qed.

(** Without any corner the grid is placed by its upper-left corner at
    [(0, sum delc)], in world units.  The lower-left corner follows from
    it through the multiplier: unrotated it is [(0, sum delc * (1 - lm))],
    which is the local origin only when the multiplier is 1. *)
Theorem default_corner (self : SpatialReference) (delc : list R)
    (rot lm : R) :
  lm_value self = Ok lm ->
  exists s : SpatialReference,
    set_spatialreference self delc None None None None rot = Ok s /\
    origin_loc s = ul /\
    xul s = Ok 0%R /\ yul s = Ok (add_reduce delc) /\
    xll s = Ok (0 - sin (- rot * PI / 180) * add_reduce delc * lm)%R /\
    yll s = Ok (add_reduce delc
                - cos (- rot * PI / 180) * add_reduce delc * lm)%R /\
    (rot = 0%R ->
     xll s = Ok 0%R /\ yll s = Ok (add_reduce delc * (1 - lm))%R).
Proof.
  intros Hlm.
  assert (Hex : exists s, set_spatialreference self delc None None None
                            None rot = Ok s) by (eexists; reflexivity).
  destruct Hex as [s Hs]. exists s. split; [exact Hs |].
  destruct (set_spatialreference_stores _ _ _ _ _ _ _ _ Hs)
    as (Hy & Hr & Ho & Hl & _ & _ & Hxu & Hyu & _).
  simpl in Ho, Hxu, Hyu. rewrite Hlm in Hl.
  destruct (corners_of_ul s lm _ _ Ho Hl Hy) as (Exl & Eyl & Exu & Eyu).
  unfold theta in Exl, Eyl. rewrite Hr, Hxu in Exl. rewrite Hr, Hyu in Eyl.
  rewrite Hxu in Exu. rewrite Hyu in Eyu.
  split; [exact Ho |]. do 4 (split; [assumption |]).
  intros ->. rewrite Exl, Eyl.
  replace (- 0 * PI / 180)%R with 0%R by field.
  rewrite sin_0, cos_0. split; f_equal; ring.
Qed.

(** The lower-left form is chosen by [xll] alone.  A [yll] given without
    [xll] is stored but never read: the grid is placed by an upper-left
    corner at [(0, 0)], and the lower-left ordinate the reference reports
    does not depend on the value given. *)
Theorem lone_yll_ignored (self s : SpatialReference) (delc : list R)
    (b rot lm : R) :
  set_spatialreference self delc None None None (Some b) rot = Ok s ->
  lm_value self = Ok lm ->
  origin_loc s = ul /\ xul s = Ok 0%R /\ yul s = Ok 0%R /\
  yll s = Ok (0 - cos (- rot * PI / 180) * add_reduce delc * lm)%R.
Proof.
  intros Hs Hlm.
  destruct (set_spatialreference_stores _ _ _ _ _ _ _ _ Hs)
    as (Hy & Hr & Ho & Hl & _ & _ & Hxu & Hyu & _).
  simpl in Ho, Hxu, Hyu. rewrite Hlm in Hl.
  destruct (corners_of_ul s lm _ _ Ho Hl Hy) as (_ & Eyl & Exu & Eyu).
  unfold theta in Eyl. rewrite Hr, Hyu in Eyl.
  rewrite Hxu in Exu. rewrite Hyu in Eyu. repeat split; assumption.
Qed.

End Facts.

Lemma yedge_suffix_sums_witness :
  @set_spatialreference Samples.offline Samples.unplaced [3; 2]%R
    None None None (Some 20%R) 0%R = Ok Samples.placed_by_yll /\
  _yedge Samples.placed_by_yll
  = map (fun k => add_reduce (drop k [3; 2]%R)) (seq 0 3) /\
  first (_yedge Samples.placed_by_yll) = Ok (add_reduce [3; 2]%R) /\
  last (_yedge Samples.placed_by_yll) = Some 0%R.
Proof.
  split; [reflexivity |].
  exact (@yedge_suffix_sums Samples.offline Samples.unplaced
           Samples.placed_by_yll [3; 2]%R None None None (Some 20%R) 0%R
           eq_refl).
Defined.

Lemma corners_agree_witness :
  @lm_value Samples.offline Samples.rotated_sr = Ok 2%R /\
  _yedge Samples.rotated_sr
  = (1 + (1 + 0))%R :: [(1 + (1 + 0) - (0 + 1))%R;
                        (1 + (1 + 0) - (0 + 1 + 1))%R] /\
  exists xl yl xu yu : R,
    @xll Samples.offline Samples.rotated_sr = Ok xl /\
    @yll Samples.offline Samples.rotated_sr = Ok yl /\
    @xul Samples.offline Samples.rotated_sr = Ok xu /\
    @yul Samples.offline Samples.rotated_sr = Ok yu /\
    xu = (xl + sin (theta Samples.rotated_sr) * (1 + (1 + 0)) * 2)%R /\
    yu = (yl + cos (theta Samples.rotated_sr) * (1 + (1 + 0)) * 2)%R.
Proof.
  split; [reflexivity |]. split; [reflexivity |].
  exact (@corners_agree Samples.offline Samples.rotated_sr 2 _ _
           eq_refl eq_refl).
Defined.

Lemma corner_reentry_witness :
  @lm_value Samples.offline Samples.rotated_sr = Ok 2%R /\
  _yedge Samples.rotated_sr
  = (1 + (1 + 0))%R :: [(1 + (1 + 0) - (0 + 1))%R;
                        (1 + (1 + 0) - (0 + 1 + 1))%R] /\
  @xll Samples.offline Samples.rotated_sr = Ok 10%R /\
  @yll Samples.offline Samples.rotated_sr = Ok 20%R /\
  @xul Samples.offline Samples.rotated_sr
  = Ok (10 + sin (- (30) * PI / 180) * (1 + (1 + 0)) * 2)%R /\
  @yul Samples.offline Samples.rotated_sr
  = Ok (20 + cos (- (30) * PI / 180) * (1 + (1 + 0)) * 2)%R /\
  (s ← @__setattr__ Samples.offline Samples.rotated_sr "xul"
         (PyFloatV (10 + sin (- (30) * PI / 180) * (1 + (1 + 0)) * 2)%R);
   s ← @__setattr__ Samples.offline s "yul"
         (PyFloatV (20 + cos (- (30) * PI / 180) * (1 + (1 + 0)) * 2)%R);
   xl' ← @xll Samples.offline s; yl' ← @yll Samples.offline s;
   Ok (origin_loc s, xl', yl'))
  = Ok (ul, 10%R, 20%R) /\
  (s ← @__setattr__ Samples.offline Samples.rotated_sr "xll"
         (PyFloatV 10%R);
   s ← @__setattr__ Samples.offline s "yll" (PyFloatV 20%R);
   xu' ← @xul Samples.offline s; yu' ← @yul Samples.offline s;
   Ok (origin_loc s, xu', yu'))
  = Ok (ll, (10 + sin (- (30) * PI / 180) * (1 + (1 + 0)) * 2)%R,
        (20 + cos (- (30) * PI / 180) * (1 + (1 + 0)) * 2)%R).
Proof.
  do 6 (split; [reflexivity |]).
  exact (@corner_reentry Samples.offline Samples.rotated_sr 2 _ _ 10 20 _ _
           eq_refl eq_refl eq_refl eq_refl eq_refl eq_refl).
Defined.

Lemma default_corner_witness :
  @lm_value Samples.offline Samples.unplaced = Ok 1%R /\
  exists s : SpatialReference,
    @set_spatialreference Samples.offline Samples.unplaced [3; 2]%R
      None None None None 0%R = Ok s /\
    origin_loc s = ul /\
    @xul Samples.offline s = Ok 0%R /\
    @yul Samples.offline s = Ok (add_reduce [3; 2]%R) /\
    @xll Samples.offline s
    = Ok (0 - sin (- 0 * PI / 180) * add_reduce [3; 2] * 1)%R /\
    @yll Samples.offline s
    = Ok (add_reduce [3; 2]
          - cos (- 0 * PI / 180) * add_reduce [3; 2] * 1)%R /\
    (0%R = 0%R ->
     @xll Samples.offline s = Ok 0%R /\
     @yll Samples.offline s = Ok (add_reduce [3; 2] * (1 - 1))%R).
Proof.
  split; [reflexivity |].
  exact (@default_corner Samples.offline Samples.unplaced [3; 2]%R 0 1
           eq_refl).
Defined.

Lemma lone_yll_ignored_witness :
  @set_spatialreference Samples.offline Samples.unplaced [3; 2]%R
    None None None (Some 20%R) 0%R = Ok Samples.placed_by_yll /\
  @lm_value Samples.offline Samples.unplaced = Ok 1%R /\
  origin_loc Samples.placed_by_yll = ul /\
  @xul Samples.offline Samples.placed_by_yll = Ok 0%R /\
  @yul Samples.offline Samples.placed_by_yll = Ok 0%R /\
  @yll Samples.offline Samples.placed_by_yll
  = Ok (0 - cos (- 0 * PI / 180) * add_reduce [3; 2] * 1)%R.
Proof.
  split; [reflexivity |]. split; [reflexivity |].
  exact (@lone_yll_ignored Samples.offline Samples.unplaced
           Samples.placed_by_yll [3; 2]%R 20 0 1 eq_refl eq_refl).
Defined.

End OriginFacts.

(** ** The caches of the derived arrays *)

Module CacheFacts.
Import Reference Coherence.

Section Facts.
Context `{Environment}.

Lemma read_from_refl (self : SpatialReference) : read_from self self.
Proof. split; [reflexivity | left; reflexivity]. Qed.

Lemma reads_read_from (self t : SpatialReference) :
  reads self t -> read_from self t.
Proof.
  intros Hr. split.
  - rewrite (ReadFacts.reads_eq self t Hr). reflexivity.
  - destruct Hr as [-> | ->]; [left | right]; reflexivity.
Qed.

(** An instance that differs from [s] in cache slots only *)
Lemma read_from_same (self s s' : SpatialReference) :
  parameters s' = parameters s -> _epsg s' = _epsg s ->
  read_from self s -> read_from self s'.
Proof.
  intros Hp He [Hps Hes]. split; [congruence |].
  unfold epsg_read in *. rewrite He. exact Hes.
Qed.

Lemma read_from_getters (self s : SpatialReference) :
  read_from self s ->
  modelgrid s = modelgrid self /\ rotation s = rotation self /\
  lm_value s = lm_value self /\ xll s = xll self /\ yll s = yll self.
Proof.
  intros [Hp He].
  assert (Ht : exists t, reads self t /\ _epsg s = _epsg t).
  { destruct He as [He | He];
      [exists self; split; [apply ReadFacts.reads_refl | exact He]
      | exists (after_proj4_str self);
        split; [apply ReadFacts.reads_proj4_str | exact He]]. }
  destruct Ht as (t & Hr & Het).
  unfold parameters in Hp.
  injection Hp as Hg Hlen Hproj Hunits Hlm Ho Hrot Hxu Hyu Hxl Hyl Hye.
  pose proof (ReadFacts.reads_eq self t Hr) as Heq.
  assert (Hl : lm_value s = lm_value self).
  { rewrite <- (ReadFacts.reads_lm_value self t Hr).
    apply OriginFacts.lm_value_ext; try exact Het;
      rewrite Heq; assumption. }
  do 3 (split; [assumption |]).
  unfold xll, yll, theta.
  rewrite Ho, Hrot, Hxu, Hyu, Hxl, Hyl, Hye, Hl. split; reflexivity.
Qed.

(** [transform] gives the same on an instance and on that instance
    after reads. *)
Lemma transform_read_from (self s : SpatialReference) (x y : num)
    (inverse : bool) :
  read_from self s -> transform s x y inverse = transform self x y inverse.
Proof.
  intros Hp.
  destruct (read_from_getters self s Hp) as (_ & Hr & Hl & Hx & Hy).
  unfold transform. rewrite Hr, Hl, Hx, Hy. reflexivity.
Qed.

Lemma after_proj4_str_epsg (s1 s2 : SpatialReference) :
  _proj4_str s1 = _proj4_str s2 ->
  (_epsg (after_proj4_str s1) = _epsg s1 /\
   _epsg (after_proj4_str s2) = _epsg s2) \/
  _epsg (after_proj4_str s1) = _epsg (after_proj4_str s2).
Proof.
  intros Hp. unfold after_proj4_str, proj4_str. rewrite Hp.
  destruct (_proj4_str s2) as [| r | z | str];
    try (left; split; reflexivity).
  - left. destruct (negb (is_none (epsg s1))),
                   (negb (is_none (epsg s2))); split; reflexivity.
  - destruct (Str.contains "epsg" (Str.lower str));
      [| left; split; reflexivity].
    destruct (filter _ (Str.split str)) as [| t tmp];
      [left; split; reflexivity |].
    destruct (Str.split_on ":" t) as [| a [| c l]];
      try (left; split; reflexivity).
    destruct (int_of_string c) as [z |];
      [right; reflexivity | left; split; reflexivity].
Qed.

Lemma read_from_trans (self s u : SpatialReference) :
  read_from self s -> read_from s u -> read_from self u.
Proof.
  intros [Hps Hes] [Hpu Heu]. split; [congruence |].
  assert (Hproj : _proj4_str s = _proj4_str self).
  { unfold parameters in Hps. injection Hps. intros. assumption. }
  unfold epsg_read in *.
  destruct Heu as [Heu | Heu]; [rewrite Heu; exact Hes |].
  destruct (after_proj4_str_epsg s self Hproj) as [[Ha _] | Ha].
  - rewrite Heu, Ha. exact Hes.
  - right. congruence.
Qed.

Lemma current_ext (s1 s2 : SpatialReference) :
  read_from s1 s2 ->
  _xedges s2 = _xedges s1 -> _yedges s2 = _yedges s1 ->
  _xcenters s2 = _xcenters s1 -> _ycenters s2 = _ycenters s1 ->
  current s1 -> current s2.
Proof.
  intros Hp Hxe Hye Hxc Hyc [He Hc].
  destruct (read_from_getters s1 s2 Hp) as (Hg & _).
  unfold current, edges_current, centers_current in *.
  rewrite Hxe, Hye, Hxc, Hyc, Hg.
  rewrite !(transform_read_from s1 s2) by exact Hp.
  split; assumption.
Qed.

Lemma fill_edges (self s : SpatialReference) :
  _set_xyedges self = Ok s ->
  read_from self s /\
  _xcenters s = _xcenters self /\ _ycenters s = _ycenters self /\
  exists x y : num,
    transform self (g_xedges (modelgrid self)) (g_yedges (modelgrid self))
              false = Ok (x, y) /\
    _xedges s = Some x /\ _yedges s = Some y.
Proof.
  unfold _set_xyedges. intros Hs.
  destruct (transform self _ _ false) as [[x y] |]; [| discriminate].
  injection Hs as <-.
  pose proof (ReadFacts.reads_after_transform self false) as Hr.
  destruct (ReadFacts.reads_slots _ _ Hr) as (_ & _ & _ & Hxc & Hyc & _).
  split; [| split; [exact Hxc | split; [exact Hyc |]]].
  - apply (read_from_same self (after_transform self false));
      [reflexivity | reflexivity | exact (reads_read_from _ _ Hr)].
  - exists x, y. split; [reflexivity |]. split; reflexivity.
Qed.

Lemma fill_edges_other (self s : SpatialReference) :
  _set_xyedges self = Ok s ->
  _vertices s = _vertices self /\ _gridlines s = _gridlines self.
Proof.
  unfold _set_xyedges. intros Hs.
  destruct (transform self _ _ false) as [[x y] |]; [| discriminate].
  injection Hs as <-.
  destruct (ReadFacts.reads_slots _ _
              (ReadFacts.reads_after_transform self false))
    as (_ & _ & _ & _ & _ & Hv & Hl).
  split; [exact Hv | exact Hl].
Qed.

Lemma fill_centers (self s : SpatialReference) :
  _set_xycenters self = Ok s ->
  read_from self s /\
  _xedges s = _xedges self /\ _yedges s = _yedges self /\
  exists x y : num,
    transform self (g_xcenters (modelgrid self))
              (g_ycenters (modelgrid self)) false = Ok (x, y) /\
    _xcenters s = Some x /\ _ycenters s = Some y.
Proof.
  unfold _set_xycenters. intros Hs.
  destruct (transform self _ _ false) as [[x y] |]; [| discriminate].
  injection Hs as <-.
  pose proof (ReadFacts.reads_after_transform self false) as Hr.
  destruct (ReadFacts.reads_slots _ _ Hr) as (_ & Hxe & Hye & _).
  split; [| split; [exact Hxe | split; [exact Hye |]]].
  - apply (read_from_same self (after_transform self false));
      [reflexivity | reflexivity | exact (reads_read_from _ _ Hr)].
  - exists x, y. split; [reflexivity |]. split; reflexivity.
Qed.

Lemma fill_edges_current (self s : SpatialReference) :
  _set_xyedges self = Ok s -> centers_current self -> current s.
Proof.
  intros Hs Hc.
  destruct (fill_edges self s Hs) as (Hp & Hxc & Hyc & x & y & Ht & Hx & Hy).
  destruct (read_from_getters self s Hp) as (Hg & _).
  split.
  - unfold edges_current. rewrite Hx, Hy, Hg.
    rewrite (transform_read_from self s) by exact Hp. exact Ht.
  - unfold centers_current in *. rewrite Hxc, Hyc, Hg.
    rewrite (transform_read_from self s) by exact Hp. exact Hc.
Qed.

Lemma fill_centers_current (self s : SpatialReference) :
  _set_xycenters self = Ok s -> edges_current self -> current s.
Proof.
  intros Hs He.
  destruct (fill_centers self s Hs)
    as (Hp & Hxe & Hye & x & y & Ht & Hx & Hy).
  destruct (read_from_getters self s Hp) as (Hg & _).
  split.
  - unfold edges_current in *. rewrite Hxe, Hye, Hg.
    rewrite (transform_read_from self s) by exact Hp. exact He.
  - unfold centers_current. rewrite Hx, Hy, Hg.
    rewrite (transform_read_from self s) by exact Hp. exact Ht.
Qed.

(** What one read of a cached getter does. *)
Lemma cached_cases {A : Type} (slot : SpatialReference -> option A)
    (fill : SpatialReference -> result SpatialReference)
    (self s : SpatialReference) (v : option A) :
  cached slot fill self = Ok (v, s) ->
  v = slot s /\
  ((s = self /\ slot self <> None) \/
   (slot self = None /\ fill self = Ok s)).
Proof.
  unfold cached. intros Hc. destruct (slot self) as [w |] eqn:Hslot.
  - injection Hc as <- <-. split; [symmetry; exact Hslot |].
    left. split; [reflexivity | congruence].
  - destruct (fill self) as [s' |]; [| discriminate].
    injection Hc as <- <-. split; [reflexivity |]. right. split; reflexivity.
Qed.

Lemma cached_repeat {A : Type} (slot : SpatialReference -> option A)
    (fill : SpatialReference -> result SpatialReference)
    (self s : SpatialReference) (v : option A) :
  (forall s', fill self = Ok s' -> slot s' <> None) ->
  cached slot fill self = Ok (v, s) ->
  cached slot fill s = Ok (v, s).
Proof.
  intros Hfill Hc.
  destruct (cached_cases slot fill self s v Hc) as (-> & [[-> Hs] | [_ Hs]]).
  - unfold cached. destruct (slot self); [reflexivity | contradiction].
  - apply Hfill in Hs. unfold cached.
    destruct (slot s); [reflexivity | contradiction].
Qed.

Lemma edges_step (slot : SpatialReference -> option num)
    (self s : SpatialReference) (v : option num) :
  cached slot _set_xyedges self = Ok (v, s) ->
  read_from self s /\ (current self -> current s) /\
  _vertices s = _vertices self /\ _gridlines s = _gridlines self.
Proof.
  intros Hc.
  destruct (cached_cases _ _ _ _ _ Hc) as (_ & [[-> _] | [_ Hs]]).
  - split; [apply read_from_refl |]. split; [exact (fun h => h) |].
    split; reflexivity.
  - destruct (fill_edges self s Hs) as (Hp & _).
    split; [exact Hp |]. split.
    + intros [_ Hcur]. exact (fill_edges_current self s Hs Hcur).
    + exact (fill_edges_other self s Hs).
Qed.

Lemma xedges_step (self s : SpatialReference) (v : option num) :
  xedges self = Ok (v, s) ->
  read_from self s /\ (current self -> current s) /\
  _vertices s = _vertices self /\ _gridlines s = _gridlines self.
Proof. apply edges_step. Qed.

Lemma yedges_step (self s : SpatialReference) (v : option num) :
  yedges self = Ok (v, s) ->
  read_from self s /\ (current self -> current s) /\
  _vertices s = _vertices self /\ _gridlines s = _gridlines self.
Proof. apply edges_step. Qed.

Lemma centers_step (self s : SpatialReference) :
  _set_xycenters self = Ok s ->
  read_from self s /\ (current self -> current s).
Proof.
  intros Hs. destruct (fill_centers self s Hs) as (Hp & _).
  split; [exact Hp |].
  intros [Hcur _]. exact (fill_centers_current self s Hs Hcur).
Qed.

Lemma get_vertices_state (self s : SpatialReference) (ij : index)
    (v : rings) :
  get_vertices self ij = Ok (v, s) ->
  exists (xg yg : option num) (s1 : SpatialReference),
    xedges self = Ok (xg, s1) /\ yedges s1 = Ok (yg, s).
Proof.
  unfold get_vertices. intros Hg.
  destruct (xedges self) as [[xg s1] |] eqn:Hx; [| discriminate].
  cbn [mbind result_bind Py.bind] in Hg.
  destruct (yedges s1) as [[yg s2] |] eqn:Hy; [| discriminate].
  cbn [mbind result_bind Py.bind] in Hg.
  exists xg, yg, s1. split; [reflexivity |].
  assert (Hs : s = s2).
  { destruct ij as [i j | i j]; cbv zeta in Hg;
      repeat match type of Hg with
             | context [getitem2 ?g ?a ?b] =>
                 destruct (getitem2 g a b);
                 cbn [mbind result_bind Py.bind] in Hg; [| discriminate]
             | context [getitem2_arrays ?g ?a ?b] =>
                 destruct (getitem2_arrays g a b);
                 cbn [mbind result_bind Py.bind] in Hg; [| discriminate]
             end;
      injection Hg as _ <-; reflexivity. }
  subst s. exact Hy.
Qed.

Lemma get_vertices_step (self s : SpatialReference) (ij : index)
    (v : rings) :
  get_vertices self ij = Ok (v, s) ->
  read_from self s /\ (current self -> current s) /\
  _vertices s = _vertices self /\ _gridlines s = _gridlines self.
Proof.
  intros Hg.
  destruct (get_vertices_state self s ij v Hg) as (xg & yg & s1 & Hx & Hy).
  destruct (xedges_step _ _ _ Hx) as (Hp1 & Hc1 & Hv1 & Hl1).
  destruct (yedges_step _ _ _ Hy) as (Hp2 & Hc2 & Hv2 & Hl2).
  split; [exact (read_from_trans _ _ _ Hp1 Hp2) |].
  split; [tauto |]. split; congruence.
Qed.

Lemma read_step (name : derived) (self s : SpatialReference)
    (v : derived_value) :
  read name self = Ok (v, s) ->
  read_from self s /\ (current self -> current s).
Proof.
  destruct name; cbn [read]; intros Hr.
  - destruct (xedges self) as [[w s'] |] eqn:Hc; [| discriminate].
    injection Hr as _ <-. destruct (xedges_step _ _ _ Hc) as (? & ? & _).
    tauto.
  - destruct (yedges self) as [[w s'] |] eqn:Hc; [| discriminate].
    injection Hr as _ <-. destruct (yedges_step _ _ _ Hc) as (? & ? & _).
    tauto.
  - destruct (xcenters self) as [[w s'] |] eqn:Hc; [| discriminate].
    injection Hr as _ <-.
    destruct (cached_cases _ _ _ _ _ Hc) as (_ & [[-> _] | [_ Hs]]);
      [split; [apply read_from_refl | tauto] | exact (centers_step _ _ Hs)].
  - destruct (ycenters self) as [[w s'] |] eqn:Hc; [| discriminate].
    injection Hr as _ <-.
    destruct (cached_cases _ _ _ _ _ Hc) as (_ & [[-> _] | [_ Hs]]);
      [split; [apply read_from_refl | tauto] | exact (centers_step _ _ Hs)].
  - destruct (vertices self) as [[w s'] |] eqn:Hc; [| discriminate].
    injection Hr as _ <-.
    destruct (cached_cases _ _ _ _ _ Hc) as (_ & [[-> _] | [_ Hs]]);
      [split; [apply read_from_refl | tauto] |].
    unfold _set_vertices in Hs.
    destruct (meshgrid_ravel _ _) as [jj ii].
    destruct (get_vertices self (IArray ii jj)) as [[r s1] |] eqn:Hg;
      [| discriminate].
    injection Hs as <-.
    destruct (get_vertices_step _ _ _ _ Hg) as (Hp & Hcur & _).
    split.
    + apply (read_from_same self s1); [reflexivity | reflexivity | exact Hp].
    + intros Hself.
      apply (current_ext s1); try reflexivity;
        [apply (read_from_same s1 s1);
         [reflexivity | reflexivity | apply read_from_refl]
        | exact (Hcur Hself)].
  - destruct (gridlines self) as [[w s'] |] eqn:Hc; [| discriminate].
    injection Hr as _ <-.
    destruct (cached_cases _ _ _ _ _ Hc) as (_ & [[-> _] | [_ Hs]]);
      [split; [apply read_from_refl | tauto] |].
    destruct (get_grid_lines self) as [l |]; [| discriminate].
    injection Hs as <-.
    pose proof (ReadFacts.reads_after_get_grid_lines self) as Hr.
    destruct (ReadFacts.reads_slots _ _ Hr) as (_ & Hxe & Hye & Hxc & Hyc & _).
    assert (Hfrom : read_from self
                      (set__gridlines (Some l) (after_get_grid_lines self))).
    { apply (read_from_same self (after_get_grid_lines self));
        [reflexivity | reflexivity | exact (reads_read_from _ _ Hr)]. }
    split; [exact Hfrom |]. intros Hself.
    apply (current_ext self); [exact Hfrom | exact Hxe | exact Hye
                              | exact Hxc | exact Hyc | exact Hself].
Qed.

(** Reading a derived attribute a second time returns the value of the
    first read and leaves the instance as the first read left it: the
    array is computed once. *)
Theorem read_twice (name : derived) (self s : SpatialReference)
    (v : derived_value) :
  read name self = Ok (v, s) -> read name s = Ok (v, s).
Proof.
  destruct name; simpl; intros Hr.
  - destruct (xedges self) as [[w s'] |] eqn:Hc; [| discriminate].
    injection Hr as <- <-. unfold xedges in *.
    rewrite (cached_repeat _ _ self s' w); [reflexivity | | exact Hc].
    intros s0 Hs. destruct (fill_edges _ _ Hs) as (_ & _ & _ & x & y & _ & -> & _).
    discriminate.
  - destruct (yedges self) as [[w s'] |] eqn:Hc; [| discriminate].
    injection Hr as <- <-. unfold yedges in *.
    rewrite (cached_repeat _ _ self s' w); [reflexivity | | exact Hc].
    intros s0 Hs. destruct (fill_edges _ _ Hs) as (_ & _ & _ & x & y & _ & _ & ->).
    discriminate.
  - destruct (xcenters self) as [[w s'] |] eqn:Hc; [| discriminate].
    injection Hr as <- <-. unfold xcenters in *.
    rewrite (cached_repeat _ _ self s' w); [reflexivity | | exact Hc].
    intros s0 Hs. destruct (fill_centers _ _ Hs) as (_ & _ & _ & x & y & _ & -> & _).
    discriminate.
  - destruct (ycenters self) as [[w s'] |] eqn:Hc; [| discriminate].
    injection Hr as <- <-. unfold ycenters in *.
    rewrite (cached_repeat _ _ self s' w); [reflexivity | | exact Hc].
    intros s0 Hs. destruct (fill_centers _ _ Hs) as (_ & _ & _ & x & y & _ & _ & ->).
    discriminate.
  - destruct (vertices self) as [[w s'] |] eqn:Hc; [| discriminate].
    injection Hr as <- <-. unfold vertices in *.
    rewrite (cached_repeat _ _ self s' w); [reflexivity | | exact Hc].
    intros s0 Hs. unfold _set_vertices in Hs.
    destruct (meshgrid_ravel _ _) as [jj ii].
    destruct (get_vertices self (IArray ii jj)) as [[r s1] |];
      [| discriminate].
    injection Hs as <-. discriminate.
  - destruct (gridlines self) as [[w s'] |] eqn:Hc; [| discriminate].
    injection Hr as <- <-. unfold gridlines in *.
    rewrite (cached_repeat _ _ self s' w); [reflexivity | | exact Hc].
    intros s0 Hs.
    destruct (get_grid_lines self) as [l |]; [| discriminate].
    injection Hs as <-. discriminate.
Qed.

(** Reading a derived attribute stores in cache slots, and in [_epsg]
    when the PROJ.4 text names an EPSG code, and nowhere else; and it
    keeps the caches in step: if the edge and centre caches held the
    transform of the grid's arrays before the read (or were empty), they
    do after it. *)
Theorem read_keeps_caches_current (name : derived)
    (self s : SpatialReference) (v : derived_value) :
  edges_current self -> centers_current self ->
  read name self = Ok (v, s) ->
  parameters s = parameters self /\
  (_epsg s = _epsg self \/ _epsg s = _epsg (after_proj4_str self)) /\
  edges_current s /\ centers_current s.
Proof.
  intros He Hc Hr.
  destruct (read_step name self s v Hr) as ([Hp Hepsg] & Hcur).
  split; [exact Hp |]. split; [exact Hepsg |]. exact (Hcur (conj He Hc)).
Qed.

(** After an assignment to one of the handled names, the edges that are
    read next are the transform of the grid's edges under the new
    parameters, and the centres likewise: nothing stale is returned. *)
Theorem read_after_assignment (self s s' : SpatialReference)
    (key : string) (value : pyval) (v : derived_value) (name : derived) :
  In key parameter_names ->
  __setattr__ self key value = Ok s ->
  In name [Xedges; Yedges; Xcenters; Ycenters] ->
  read name s = Ok (v, s') ->
  exists x y : num,
    transform s (match name with
                 | Xedges | Yedges => g_xedges (modelgrid s)
                 | _ => g_xcenters (modelgrid s)
                 end)
              (match name with
               | Xedges | Yedges => g_yedges (modelgrid s)
               | _ => g_ycenters (modelgrid s)
               end) false = Ok (x, y) /\
    v = Array (Some (match name with
                     | Xedges | Xcenters => x
                     | _ => y
                     end)).
Proof.
  intros Hkey Hset Hname Hr.
  destruct (SetattrFacts.setattr_ends_with_reset self s key value Hkey Hset)
    as [s0 Hs0].
  destruct (SetattrFacts.reset_clears s0) as (Hxe & Hye & Hxc & Hyc & _).
  rewrite <- Hs0 in Hxe, Hye, Hxc, Hyc. clear Hs0 Hset s0.
  simpl in Hname.
  destruct Hname as [<- | [<- | [<- | [<- | []]]]]; simpl in Hr.
  - destruct (xedges s) as [[w s1] |] eqn:Hc; [| discriminate].
    injection Hr as <- <-.
    destruct (cached_cases _ _ _ _ _ Hc) as (-> & [[_ Hn] | [_ Hs]]);
      [contradiction |].
    destruct (fill_edges _ _ Hs) as (_ & _ & _ & x & y & Ht & -> & _).
    exists x, y. split; [exact Ht | reflexivity].
  - destruct (yedges s) as [[w s1] |] eqn:Hc; [| discriminate].
    injection Hr as <- <-.
    destruct (cached_cases _ _ _ _ _ Hc) as (-> & [[_ Hn] | [_ Hs]]);
      [contradiction |].
    destruct (fill_edges _ _ Hs) as (_ & _ & _ & x & y & Ht & _ & ->).
    exists x, y. split; [exact Ht | reflexivity].
  - destruct (xcenters s) as [[w s1] |] eqn:Hc; [| discriminate].
    injection Hr as <- <-.
    destruct (cached_cases _ _ _ _ _ Hc) as (-> & [[_ Hn] | [_ Hs]]);
      [contradiction |].
    destruct (fill_centers _ _ Hs) as (_ & _ & _ & x & y & Ht & -> & _).
    exists x, y. split; [exact Ht | reflexivity].
  - destruct (ycenters s) as [[w s1] |] eqn:Hc; [| discriminate].
    injection Hr as <- <-.
    destruct (cached_cases _ _ _ _ _ Hc) as (-> & [[_ Hn] | [_ Hs]]);
      [contradiction |].
    destruct (fill_centers _ _ Hs) as (_ & _ & _ & x & y & Ht & _ & ->).
    exists x, y. split; [exact Ht | reflexivity].
Qed.

End Facts.

Lemma read_twice_witness :
  @read Samples.offline Xcenters Samples.rotated_sr
  = Ok (fst Samples.centres_read, snd Samples.centres_read) /\
  @read Samples.offline Xcenters (snd Samples.centres_read)
  = Ok (fst Samples.centres_read, snd Samples.centres_read).
Proof.
  split; [reflexivity |].
  exact (@read_twice Samples.offline Xcenters Samples.rotated_sr
           (snd Samples.centres_read) (fst Samples.centres_read) eq_refl).
Defined.

Lemma read_keeps_caches_current_witness :
  @edges_current Samples.offline (snd Samples.centres_read) /\
  @centers_current Samples.offline (snd Samples.centres_read) /\
  @read Samples.offline Xedges (snd Samples.centres_read)
  = Ok (fst Samples.centres_then_edges, snd Samples.centres_then_edges) /\
  parameters (snd Samples.centres_then_edges)
  = parameters (snd Samples.centres_read) /\
  (_epsg (snd Samples.centres_then_edges) = _epsg (snd Samples.centres_read)
   \/ _epsg (snd Samples.centres_then_edges)
      = _epsg (@after_proj4_str Samples.offline
                 (snd Samples.centres_read))) /\
  @edges_current Samples.offline (snd Samples.centres_then_edges) /\
  @centers_current Samples.offline (snd Samples.centres_then_edges).
Proof.
  assert (He : @edges_current Samples.offline (snd Samples.centres_read))
    by exact I.
  assert (Hc : @centers_current Samples.offline (snd Samples.centres_read))
    by (unfold centers_current; cbn; reflexivity).
  split; [exact He |]. split; [exact Hc |]. split; [reflexivity |].
  exact (@read_keeps_caches_current Samples.offline Xedges
           (snd Samples.centres_read) (snd Samples.centres_then_edges)
           (fst Samples.centres_then_edges) He Hc eq_refl).
Defined.

(** On an instance whose PROJ.4 text names an EPSG code, the first read
    of the cell edges stores the code in [_epsg]. *)
Example read_stores_epsg :
  _proj4_str Samples.coded_sr = PyStrV "+init=epsg:26715" /\
  _epsg Samples.coded_sr = PyNone /\
  @read Samples.numerate Xedges Samples.coded_sr
  = Ok (fst Samples.coded_read, snd Samples.coded_read) /\
  _epsg (snd Samples.coded_read) = PyIntV 26715.
Proof. repeat split. Qed.

Lemma read_after_assignment_witness :
  In "rotation" parameter_names /\
  @__setattr__ Samples.offline Samples.populated_sr "rotation" (PyFloatV 0%R)
  = Ok Samples.turned_back /\
  In Yedges [Xedges; Yedges; Xcenters; Ycenters] /\
  @read Samples.offline Yedges Samples.turned_back
  = Ok (fst Samples.turned_back_edges, snd Samples.turned_back_edges) /\
  exists x y : num,
    @transform Samples.offline Samples.turned_back
      (g_xedges (modelgrid Samples.turned_back))
      (g_yedges (modelgrid Samples.turned_back)) false = Ok (x, y) /\
    fst Samples.turned_back_edges = Array (Some y).
Proof.
  assert (Hk : In "rotation" parameter_names)
    by (unfold parameter_names; simpl; tauto).
  assert (Hn : In Yedges [Xedges; Yedges; Xcenters; Ycenters])
    by (simpl; tauto).
  split; [exact Hk |]. split; [reflexivity |]. split; [exact Hn |].
  split; [reflexivity |].
  exact (@read_after_assignment Samples.offline Samples.populated_sr
           Samples.turned_back (snd Samples.turned_back_edges)
           "rotation" (PyFloatV 0%R) (fst Samples.turned_back_edges) Yedges
           Hk eq_refl Hn eq_refl).
Defined.

End CacheFacts.

(** ** The local store of projection texts *)

Module StoreFacts.
Import Resolver Store.

Lemma run_app_assigns (l : list (Z * string)) (stmts : list statement)
    (d : gmap Z string) :
  run stmts = Ok d ->
  run (stmts ++ map (fun kv => Assign (fst kv) (snd kv)) l)
  = Ok (foldl (fun d kv => <[fst kv := snd kv]> d) d l).
Proof.
  revert stmts d. induction l as [| [k v] l IH]; intros stmts d Hrun; simpl.
  - rewrite app_nil_r. exact Hrun.
  - rewrite (cons_middle (Assign k v)), app_assoc.
    apply IH, ResolverFacts.run_app_assign, Hrun.
Qed.

Lemma adds_frame (l : list (Z * string)) (w : world)
    (stmts : list statement) :
  epsgref w = Some stmts ->
  epsgref (foldl (fun w kv => add (fst kv) (snd kv) w) w l)
  = Some (stmts ++ map (fun kv => Assign (fst kv) (snd kv)) l)%list /\
  loaded (foldl (fun w kv => add (fst kv) (snd kv) w) w l) = loaded w /\
  requested (foldl (fun w kv => add (fst kv) (snd kv) w) w l) = requested w.
Proof.
  revert w stmts. induction l as [| [k v] l IH]; intros w stmts Hf; simpl.
  - rewrite app_nil_r. repeat split. exact Hf.
  - assert (Hf' : epsgref (add k v w) = Some (stmts ++ [Assign k v])%list)
      by (unfold add; simpl; rewrite Hf; reflexivity).
    destruct (IH (add k v w) (stmts ++ [Assign k v])%list Hf')
      as (-> & -> & ->).
    rewrite <- app_assoc. repeat split.
Qed.

Lemma inserts_lookup (l : list (Z * string)) (d : gmap Z string) (k : Z) :
  NoDup (map fst l) ->
  foldl (fun d kv => <[fst kv := snd kv]> d) d l !! k
  = match list_to_map (M := gmap Z string) l !! k with
    | Some v => Some v
    | None => d !! k
    end.
Proof.
  revert d. induction l as [| [k' v'] l IH]; intros d Hnd; simpl.
  - rewrite lookup_empty. reflexivity.
  - inversion Hnd as [| ? ? Hnotin Hnd']; subst. rewrite IH by exact Hnd'.
    destruct (decide (k' = k)) as [-> | Hne].
    + rewrite !lookup_insert_eq.
      rewrite (not_elem_of_list_to_map_1 (M := gmap Z)); [reflexivity |].
      exact Hnotin.
    + rewrite !lookup_insert_ne by exact Hne. reflexivity.
Qed.

Lemma inserts_map_to_list (m : gmap Z string) :
  foldl (fun d kv => <[fst kv := snd kv]> d) ∅ (map_to_list m) = m.
Proof.
  apply map_eq. intros k. rewrite inserts_lookup.
  - rewrite list_to_map_to_list, lookup_empty.
    destruct (m !! k); reflexivity.
  - apply NoDup_fst_map_to_list.
Qed.

Lemma import_restart (w : world) :
  fst (import_prj (restart w))
  = match epsgref w with
    | Some stmts => run stmts
    | None => Raise (ImportError "No module named 'epsgref'")
    end.
Proof. apply (ResolverFacts.import_fresh (restart w)). reflexivity. Qed.


(** Removing a code when the import returns leaves the module of the
    process and the file with the dictionary the import gave, less the
    code: the same process and a process that imports the file afresh
    find every other code of that dictionary with its text and no text
    for the removed code.  Nothing is requested. *)
Theorem remove_then_lookup (w : world) (d : gmap Z string) (k : Z) :
  fst (import_prj w) = Ok d ->
  exists w' : world,
    remove k w = (Ok tt, w') /\
    import_prj w' = (Ok (delete k d), w') /\
    fst (import_prj (restart w')) = Ok (delete k d) /\
    lookup k w' = None /\
    (forall k' : Z, k' <> k -> lookup k' w' = lookup k' w) /\
    requested w' = requested w.
Proof.
  intros Hw. unfold remove.
  destruct (ResolverFacts.import_frame w) as (_ & Hreq & _).
  unfold lookup. rewrite Hw.
  destruct (import_prj w) as [r w1]. simpl in Hw, Hreq. subst r.
  assert (Hdel : (if bool_decide (is_Some (d !! k)) then delete k d else d)
                 = delete k d).
  { destruct (bool_decide (is_Some (d !! k))) eqn:Hdec; [reflexivity |].
    apply bool_decide_eq_false in Hdec.
    symmetry. apply delete_id.
    destruct (d !! k) eqn:Hk; [| reflexivity].
    exfalso. apply Hdec. eexists. reflexivity. }
  cbv zeta. rewrite Hdel.
  set (w2 := {| epsgref := epsgref (reset w1);
                loaded := Some (Some (delete k d));
                requested := requested (reset w1) |}).
  destruct (adds_frame (map_to_list (delete k d)) w2 [Init] eq_refl)
    as (Hfile & Hload & Hreq').
  eexists. split; [reflexivity |].
  assert (Himp : import_prj
                   (foldl (fun w kv => add (fst kv) (snd kv) w) w2
                          (map_to_list (delete k d)))
                 = (Ok (delete k d),
                    foldl (fun w kv => add (fst kv) (snd kv) w) w2
                          (map_to_list (delete k d))))
    by (apply ResolverFacts.import_loaded; exact Hload).
  split; [exact Himp |]. rewrite Himp. simpl.
  split; [| split; [apply lookup_delete_eq | split]].
  - rewrite import_restart, Hfile.
    rewrite (run_app_assigns _ [Init] ∅ eq_refl).
    rewrite inserts_map_to_list. reflexivity.
  - intros k' Hne. apply lookup_delete_ne. congruence.
  - rewrite Hreq'. exact Hreq.
Qed.

Section Facts.
Context `{Environment}.

(** What [getprj] leaves: the file as the import found it, or as [make]
    wrote it when the import raised, with at most one assignment for the
    code appended; the module of the process is as the import left it. *)
Lemma getprj_frame (k : Z) (b : bool) (text : string) (w : world) :
  let r := getprj k b text w in
  let w0 := if is_ok (fst (import_prj w)) then w else make w in
  (epsgref (snd r) = epsgref w0 \/
   exists t : string, epsgref (snd r) = epsgref (add k t w0)) /\
  loaded (snd r) = loaded (snd (import_prj w)).
Proof.
  cbv zeta. rewrite ResolverFacts.getprj_steps. cbv zeta.
  destruct (ResolverFacts.import_frame w) as (Hfile & _).
  set (w1 := if is_ok (fst (import_prj w))
             then snd (import_prj w) else make (snd (import_prj w))).
  set (w0 := if is_ok (fst (import_prj w)) then w else make w).
  assert (Hf1 : epsgref w1 = epsgref w0).
  { unfold w1, w0. destruct (is_ok (fst (import_prj w))); [exact Hfile |].
    apply ResolverFacts.make_file. exact Hfile. }
  assert (Hl1 : loaded w1 = loaded (snd (import_prj w))).
  { unfold w1. destruct (is_ok (fst (import_prj w))); [reflexivity |].
    unfold make. destruct (epsgref (snd (import_prj w))); reflexivity. }
  destruct (ResolverFacts.remote_lookup_frame k text w1) as (_ & Hf2 & Hl2).
  destruct (lookup k w) as [t |].
  - destruct b; simpl.
    + split; [right; exists t; rewrite Hf1; reflexivity | exact Hl1].
    + split; [left; exact Hf1 | exact Hl1].
  - destruct (fst (remote_lookup k text w1)) as [t |].
    + destruct b; simpl.
      * split; [right; exists t; rewrite Hf2, Hf1; reflexivity |].
        congruence.
      * split; [left; congruence | congruence].
    + simpl. split; [left; congruence | congruence].
Qed.

(** A store file that starts with an assignment cannot be read: every
    lookup misses and the import raises [NameError].  [make] leaves the
    file alone, [add] and [getprj] keep it in that form, and [getprj]
    goes to the network on every call; [remove] raises.  Only [reset]
    makes the store readable again. *)
Theorem headless_store_stays_unreadable (w : world) :
  headless w -> loaded w = None ->
  import_prj w = (Raise (NameError "name 'prj' is not defined"), w) /\
  (forall k : Z, lookup k w = None) /\
  make w = w /\
  (forall (k : Z) (v : string),
     headless (add k v w) /\ loaded (add k v w) = None) /\
  (forall (k : Z) (b : bool) (text : string),
     headless (snd (getprj k b text w)) /\
     loaded (snd (getprj k b text w)) = None /\
     requested (snd (getprj k b text w)) <> requested w) /\
  (forall k : Z,
     remove k w = (Raise (NameError "name 'prj' is not defined"), w)) /\
  fst (import_prj (reset w)) = Ok ∅.
Proof.
  intros (k0 & v0 & rest & Hfile) Hload.
  assert (Himp : import_prj w
                 = (Raise (NameError "name 'prj' is not defined"), w))
    by (unfold import_prj; rewrite Hload, Hfile; reflexivity).
  assert (Hmake : make w = w) by (unfold make; rewrite Hfile; reflexivity).
  assert (Hadd : forall k v, headless (add k v w) /\ loaded (add k v w) = None).
  { intros k v. split; [| exact Hload].
    exists k0, v0, (rest ++ [Assign k v])%list.
    unfold add. simpl. rewrite Hfile. reflexivity. }
  split; [exact Himp |].
  split; [intros k; unfold lookup; rewrite Himp; reflexivity |].
  split; [exact Hmake |]. split; [exact Hadd |].
  split; [| split; [intros k; unfold remove; rewrite Himp; reflexivity |]].
  - intros k b text.
    pose proof (getprj_frame k b text w) as Hframe. cbv zeta in Hframe.
    rewrite Himp in Hframe. simpl in Hframe. rewrite Hmake in Hframe.
    destruct Hframe as (Hf & Hl).
    split; [| split; [congruence |]].
    + destruct Hf as [Hf | [t Hf]].
      * exists k0, v0, rest. congruence.
      * exists k0, v0, (rest ++ [Assign k t])%list. rewrite Hf.
        unfold add. simpl. rewrite Hfile. reflexivity.
    + rewrite ResolverFacts.getprj_steps. cbv zeta.
      unfold lookup. rewrite Himp. simpl. rewrite Hmake.
      pose proof (ResolverFacts.remote_lookup_requests k text w) as Hreq.
      destruct (remote_lookup k text w) as [[t |] w1]; simpl in *;
        [destruct b |]; exact Hreq.
  - unfold import_prj, reset, make. simpl. rewrite Hload. reflexivity.
Qed.


(** A code for which the import gives a text is written to the file
    again on every call that has [addlocalreference] set: the text is
    returned without a request, and the file grows by one assignment of
    that text to the code. *)
Theorem getprj_hit_appends (w : world) (k : Z) (text t : string) :
  lookup k w = Some t ->
  getprj k true text w = (Some t, add k t (snd (import_prj w))) /\
  epsgref (snd (getprj k true text w))
  = Some (default [] (epsgref w) ++ [Assign k t])%list /\
  requested (snd (getprj k true text w)) = requested w.
Proof.
  intros Hk. rewrite ResolverFacts.getprj_steps. cbv zeta. rewrite Hk.
  destruct (ResolverFacts.lookup_hit k w t Hk) as (d & Hd & _).
  destruct (ResolverFacts.import_frame w) as (Hfile & Hreq & _).
  rewrite Hd. simpl. rewrite Hfile, Hreq. repeat split.
Qed.

End Facts.


Lemma remove_then_lookup_witness :
  fst (import_prj Samples.filled_store)
  = Ok (<[26715%Z := "PROJCS[cached]"]> ∅) /\
  exists w' : world,
    remove 26715 Samples.filled_store = (Ok tt, w') /\
    import_prj w'
    = (Ok (delete 26715%Z (<[26715%Z := "PROJCS[cached]"]> ∅)), w') /\
    fst (import_prj (restart w'))
    = Ok (delete 26715%Z (<[26715%Z := "PROJCS[cached]"]> ∅)) /\
    lookup 26715 w' = None /\
    (forall k' : Z,
       k' <> 26715%Z -> lookup k' w' = lookup k' Samples.filled_store) /\
    requested w' = requested Samples.filled_store.
Proof.
  split; [reflexivity |].
  exact (remove_then_lookup Samples.filled_store _ 26715 eq_refl).
Defined.

Lemma headless_store_stays_unreadable_witness :
  add 26715 "PROJCS[cached]" Samples.no_store = Samples.headless_store /\
  headless Samples.headless_store /\
  loaded Samples.headless_store = None /\
  (forall k : Z, lookup k Samples.headless_store = None) /\
  (forall (k : Z) (b : bool) (text : string),
     requested (snd (@getprj Samples.online k b text Samples.headless_store))
     <> requested Samples.headless_store).
Proof.
  assert (Hh : headless Samples.headless_store)
    by (exists 26715%Z, "PROJCS[cached]", []; reflexivity).
  split; [reflexivity |]. split; [exact Hh |]. split; [reflexivity |].
  destruct (@headless_store_stays_unreadable Samples.online
              Samples.headless_store Hh eq_refl) as (_ & Hl & _ & _ & Hg & _).
  split; [exact Hl |]. intros k b text. exact (proj2 (proj2 (Hg k b text))).
Defined.


Lemma getprj_hit_appends_witness :
  lookup 26715 Samples.filled_store = Some "PROJCS[cached]" /\
  epsgref
    (snd (@getprj Samples.online 26715 true "esriwkt" Samples.filled_store))
  = Some [Init; Assign 26715 "PROJCS[cached]";
          Assign 26715 "PROJCS[cached]"] /\
  requested
    (snd (@getprj Samples.online 26715 true "esriwkt" Samples.filled_store))
  = [].
Proof.
  split; [reflexivity |].
  exact (proj2 (@getprj_hit_appends Samples.online Samples.filled_store
                  26715 "esriwkt" "PROJCS[cached]" eq_refl)).
Defined.

End StoreFacts.

(** ** Requests to the reference service *)

Module RemoteFacts.
Import Remote.

Section Facts.
Context `{Environment}.

Lemma remove_newlines_clean (s : string) :
  ~ In "010"%char (list_ascii_of_string (remove_newlines s)).
Proof.
  induction s as [| c s IH]; simpl; [tauto |].
  destruct (Ascii.eqb c "010") eqn:Hc; [exact IH |].
  simpl. intros [-> | Hin]; [| exact (IH Hin)].
  rewrite Ascii.eqb_refl in Hc. discriminate.
Qed.

Lemma get_spatialreference_cases (epsg : pyval) (txt : string) :
  get_spatialreference epsg txt
  = match get_url_text {| cat := "epsg"; code := epsg; text := txt |},
          get_url_text {| cat := "esri"; code := epsg; text := txt |} with
    | Some t, _ =>
        ([{| cat := "epsg"; code := epsg; text := txt |}],
         Some (remove_newlines t))
    | None, Some t =>
        ([{| cat := "epsg"; code := epsg; text := txt |};
          {| cat := "esri"; code := epsg; text := txt |}],
         Some (remove_newlines t))
    | None, None =>
        ([{| cat := "epsg"; code := epsg; text := txt |};
          {| cat := "esri"; code := epsg; text := txt |}],
         if String.eqb txt "epsg"
         then Some ("+init=epsg:" ++ format_value epsg)
         else None)
    end.
Proof.
  unfold get_spatialreference, epsg_categories. simpl.
  destruct (get_url_text {| cat := "epsg"; code := epsg; text := txt |});
    [reflexivity |].
  destruct (get_url_text {| cat := "esri"; code := epsg; text := txt |});
    [reflexivity |].
  simpl. destruct (String.eqb txt "epsg"); reflexivity.
Qed.

(** [get_spatialreference] asks the [epsg] category first and the
    [esri] category only when the first request gave nothing; a text it
    found is returned without its newlines.  When both requests give
    nothing the result is [None], except for the text form [epsg], where
    it is the string [+init=epsg:] followed by the code.  So [getproj4],
    which asks for the form [proj4], is [None] exactly when neither
    category has a text for the code. *)
Theorem get_spatialreference_requests (epsg : pyval) (txt : string) :
  let first := {| cat := "epsg"; code := epsg; text := txt |} in
  let second := {| cat := "esri"; code := epsg; text := txt |} in
  fst (get_spatialreference epsg txt)
  = match get_url_text first with
    | Some _ => [first]
    | None => [first; second]
    end /\
  (snd (get_spatialreference epsg txt) = None <->
   get_url_text first = None /\ get_url_text second = None /\
   txt <> "epsg") /\
  (forall t : string,
     snd (get_spatialreference epsg txt) = Some t ->
     get_url_text first <> None \/ get_url_text second <> None ->
     ~ In "010"%char (list_ascii_of_string t)) /\
  (getproj4 epsg = None <->
   get_url_text {| cat := "epsg"; code := epsg; text := "proj4" |} = None /\
   get_url_text {| cat := "esri"; code := epsg; text := "proj4" |} = None).
Proof.
  intros first second. unfold getproj4.
  rewrite (get_spatialreference_cases epsg "proj4").
  rewrite (get_spatialreference_cases epsg txt). fold first. fold second.
  split; [| split; [| split]].
  - destruct (get_url_text first); [reflexivity |].
    destruct (get_url_text second); reflexivity.
  - destruct (get_url_text first) as [t1 |];
      [simpl; split; [discriminate | intros [? _]; discriminate] |].
    destruct (get_url_text second) as [t2 |];
      [simpl; split; [discriminate | intros (_ & ? & _); discriminate] |].
    simpl. destruct (String.eqb_spec txt "epsg") as [-> | Hne].
    + split; [discriminate | intros (_ & _ & Hc); contradiction].
    + split; [intros _; repeat split; exact Hne | reflexivity].
  - intros t.
    destruct (get_url_text first) as [t1 |].
    + simpl. intros [= <-] _. apply remove_newlines_clean.
    + destruct (get_url_text second) as [t2 |].
      * simpl. intros [= <-] _. apply remove_newlines_clean.
      * intros _ [Hc | Hc]; contradiction.
  - destruct (get_url_text {| cat := "epsg"; code := epsg; text := "proj4" |});
      [simpl; split; [discriminate | intros [? _]; discriminate] |].
    destruct (get_url_text {| cat := "esri"; code := epsg; text := "proj4" |});
      simpl; split; try discriminate; try tauto.
    intros [_ ?]; discriminate.
Qed.

End Facts.

End RemoteFacts.

(** ** Dimensions of the model grids *)

Module DimensionFacts.
Import ModelGrid Dimensions.

Lemma length_arange1 (n : nat) : length (arange1 (Z.of_nat n)) = n.
Proof.
  unfold arange1. rewrite length_map, length_seq. apply Nat2Z.id.
Qed.

Lemma nth_arange1 (n k : nat) :
  (k < n)%nat -> arange1 (Z.of_nat n) !! k = Some (Z.of_nat k + 1)%Z.
Proof.
  intros Hk. unfold arange1. rewrite Nat2Z.id, list_lookup_fmap.
  rewrite lookup_seq_lt by exact Hk. simpl. f_equal. lia.
Qed.

(** The index arrays of a structured grid are made for the cells that
    [num_cells] counts: their lengths are [nlay], [nrow] and [ncol], the
    product of the lengths is the number of cells, the product for a
    horizontal cross-section is the number of cells per layer, and each
    array counts up from 1. *)
Theorem structured_arrays_cover_cells
    (self : ModelGrid.Structured.StructuredModelGrid) :
  map (@length Z) (Structured.get_model_dim_arrays self)
  = [ModelGrid.Structured.nlay self; ModelGrid.Structured.nrow self;
     ModelGrid.Structured.ncol self] /\
  ModelGrid.Structured.num_cells self false
  = Ok (length (Structured.get_row_array self)
        * length (Structured.get_column_array self)
        * length (Structured.get_layer_array self))%nat /\
  ModelGrid.Structured.num_cells_per_layer self false
  = Ok (fold_right Nat.mul 1%nat
          (map (@length Z)
               (Structured.get_horizontal_cross_section_dim_arrays self))) /\
  length (Structured.get_horizontal_cross_section_dim_arrays self)
  = length (Structured.get_horizontal_cross_section_dim_names self) /\
  Forall (fun a : list Z =>
            forall k : nat, (k < length a)%nat ->
                            a !! k = Some (Z.of_nat k + 1)%Z)
         (Structured.get_model_dim_arrays self).
Proof.
  unfold Structured.get_model_dim_arrays, Structured.get_row_array,
    Structured.get_column_array, Structured.get_layer_array,
    Structured.get_horizontal_cross_section_dim_arrays,
    Structured.get_horizontal_cross_section_dim_names,
    ModelGrid.Structured.num_cells, ModelGrid.Structured.num_cells_per_layer.
  cbn [map fold_right length]. rewrite !length_arange1.
  split; [reflexivity |]. split; [reflexivity |].
  split; [f_equal; lia |]. split; [reflexivity |].
  repeat constructor; intros k Hk; rewrite length_arange1 in Hk;
    apply nth_arange1; exact Hk.
Qed.

(** On a grid as either constructor builds it, every method that asks
    for [self.grid_type()] raises [TypeError]: the attribute holds the
    enumeration member, which cannot be called. *)
Theorem dispatch_on_built_grid_type_error :
  (forall (delc delr : list R) (top : num) (botm : list num) (idomain : num)
          (sr : option Reference.SpatialReference),
     let g := ModelGrid.Structured.__init__ delc delr top botm idomain sr in
     Structured.get_model_dim g
     = Raise (TypeError "'GridType' object is not callable") /\
     Structured.get_model_dim_names g
     = Raise (TypeError "'GridType' object is not callable")) /\
  (forall (top : num) (botm : list num) (idomain : num)
          (vertices : list (R * R)) (cell2d : list (list nat))
          (nlay : option nat) (ncpl : option (list Z))
          (sr : option Reference.SpatialReference),
     let g := ModelGrid.Vertex.__init__ top botm idomain vertices cell2d
                nlay ncpl sr in
     Vertex.get_model_dim_arrays g
     = Raise (TypeError "'GridType' object is not callable") /\
     Vertex.get_model_dim g
     = Raise (TypeError "'GridType' object is not callable") /\
     Vertex.get_model_dim_names g
     = Raise (TypeError "'GridType' object is not callable") /\
     Vertex.get_horizontal_cross_section_dim_names g
     = Raise (TypeError "'GridType' object is not callable") /\
     Vertex.get_horizontal_cross_section_dim_arrays g
     = Raise (TypeError "'GridType' object is not callable")).
Proof. split; intros; repeat split. Qed.

(** Whatever the attributes of a vertex grid hold, even a [grid_type]
    that can be called, [get_model_dim_arrays] and
    [get_horizontal_cross_section_dim_arrays] never return arrays: every
    path either raises or falls off the end of the method. *)
Theorem vertex_arrays_never_returned
    (self : ModelGrid.Vertex.VertexModelGrid) (a : list (list Z)) :
  Vertex.get_model_dim_arrays self <> Ok (Some a) /\
  Vertex.get_horizontal_cross_section_dim_arrays self <> Ok (Some a).
Proof.
  unfold Vertex.get_model_dim_arrays,
    Vertex.get_horizontal_cross_section_dim_arrays,
    ModelGrid.Vertex.num_cells_per_layer, ModelGrid.Vertex.num_cells.
  destruct (ModelGrid.Vertex.grid_type self) as [g | g]; simpl;
    [split; discriminate |].
  destruct g; simpl; split; try discriminate;
    destruct (ModelGrid.Vertex.nlay self); simpl; discriminate.
Qed.

End DimensionFacts.

(** ** Time units *)

Module TemporalFacts.
Import Temporal.

(** A unit name of the table and its number name the same unit: the
    constructor turns the name into the number, the number reads back as
    the name, and constructing from the number directly gives the same
    instance. *)
Theorem time_units_round_trip (name : string) (z : Z) (sd : pyval) :
  In (name, z) itmuni_values ->
  __init__ (PyStrV name) sd
  = Built {| itmuni := PyIntV z; start_datetime := sd |} /\
  __init__ (PyIntV z) sd
  = Built {| itmuni := PyIntV z; start_datetime := sd |} /\
  model_time_units {| itmuni := PyIntV z; start_datetime := sd |} = Ok name.
Proof.
  intros Hin. unfold itmuni_values in Hin. simpl in Hin.
  repeat (destruct Hin as [[= <- <-] | Hin]; [repeat split |]).
  contradiction.
Qed.

(** The constructor checks names but not numbers.  A name outside the
    table (the names are case-sensitive) is refused with the message
    [invalid itmuni value]; a number outside 0..5 is stored, and reading
    the units of such an instance raises [KeyError]. *)
Theorem time_units_outside_table (sd : pyval) :
  (forall name : string,
     ~ In name (map fst itmuni_values) ->
     __init__ (PyStrV name) sd
     = Invalid ("invalid itmuni value: " ++ name ++ newline)) /\
  (forall z : Z,
     (z < 0 \/ 5 < z)%Z ->
     __init__ (PyIntV z) sd
     = Built {| itmuni := PyIntV z; start_datetime := sd |} /\
     model_time_units {| itmuni := PyIntV z; start_datetime := sd |}
     = Raise (KeyError "itmuni")) /\
  ~ In "Days" (map fst itmuni_values).
Proof.
  split; [| split].
  - intros name Hnot. unfold __init__, assoc, itmuni_values in *.
    simpl in *.
    repeat match goal with
           | |- context [String.eqb name ?s] =>
               destruct (String.eqb_spec name s) as [-> | _];
               [exfalso; apply Hnot; tauto |]
           end.
    reflexivity.
  - intros z Hz. split; [reflexivity |].
    unfold model_time_units, assoc, itmuni_text, itmuni_values. simpl.
    repeat match goal with
           | |- context [Z.eqb z ?k] =>
               destruct (Z.eqb_spec z k) as [-> | _]; [lia |]
           end.
    reflexivity.
  - simpl. intros H.
    repeat (destruct H as [H | H]; [discriminate |]). contradiction.
Qed.

Lemma time_units_round_trip_witness :
  In ("days", 4%Z) itmuni_values /\
  __init__ (PyStrV "days") PyNone
  = Built {| itmuni := PyIntV 4; start_datetime := PyNone |} /\
  __init__ (PyIntV 4) PyNone
  = Built {| itmuni := PyIntV 4; start_datetime := PyNone |} /\
  model_time_units {| itmuni := PyIntV 4; start_datetime := PyNone |}
  = Ok "days".
Proof.
  assert (Hin : In ("days", 4%Z) itmuni_values)
    by (unfold itmuni_values; simpl; tauto).
  split; [exact Hin |].
  exact (time_units_round_trip "days" 4 PyNone Hin).
Defined.

End TemporalFacts.

(** ** Projection parameters inferred from the names of a WKT text *)

Module CrsFacts.
Import CrsProperty.

Lemma lower_ascii_not_upper (c : ascii) :
  Str.lower_ascii c <> "N"%char.
Proof.
  destruct c as [[] [] [] [] [] [] [] []]; vm_compute; discriminate.
Qed.

(** No lower-cased string contains [NAD]. *)
Lemma nad_not_in_lower (s : string) :
  Str.contains "NAD" (Str.lower s) = false.
Proof.
  induction s as [| c s IH]; [reflexivity |].
  change (Str.lower (String c s))
    with (String (Str.lower_ascii c) (Str.lower s)).
  cbn [Str.contains]. rewrite IH, orb_false_r.
  cbn [String.prefix].
  destruct (ascii_dec "N" (Str.lower_ascii c)) as [Heq | _];
    [| reflexivity].
  exfalso. exact (lower_ascii_not_upper c (eq_sym Heq)).
Qed.

(** The test for Lambert conformal conic looks for [conic] only, and it
    comes before the test for Albers: a projection whose name contains
    [conic] is never given the Albers code [aea], whatever else the name
    says.  Apart from Mercator and UTM names it is given [lcc]. *)
Theorem conic_is_never_albers (self : parsed) (d : proj4_parameters)
    (p : string) :
  crs self = Ok d -> projcs self = Some p ->
  Str.contains "conic" (Str.lower p) = true ->
  proj d <> Some "aea" /\
  (Str.contains "mercator" (Str.lower p) = false ->
   Str.contains "utm" (Str.lower p) && Str.contains "zone" (Str.lower p)
   = false ->
   proj d = Some "lcc").
Proof.
  unfold crs. intros Hcrs Hp Hconic. rewrite Hp, Hconic in Hcrs.
  destruct (lower_of (datum self)) as [dl |]; [| discriminate].
  cbn [mbind result_bind Py.bind] in Hcrs.
  destruct (spheriod_name self) as [nm |]; [| discriminate].
  cbn [mbind result_bind Py.bind] in Hcrs.
  destruct (lower_of (primem0 self)) as [pm |]; [| discriminate].
  cbn [mbind result_bind Py.bind] in Hcrs.
  destruct (local "datum" _) as [dv |]; [| discriminate].
  cbn [mbind result_bind Py.bind] in Hcrs.
  destruct (local "ellps" _) as [ev |]; [| discriminate].
  cbn [mbind result_bind Py.bind] in Hcrs.
  injection Hcrs as <-. cbn [proj].
  split.
  - destruct (Str.contains "mercator" (Str.lower p));
      [destruct (_ || _); discriminate |].
    destruct (_ && _); [discriminate |].
    destruct (Str.contains "stateplane" (Str.lower p)); discriminate.
  - intros -> ->.
    destruct (Str.contains "stateplane" (Str.lower p)); reflexivity.
Qed.

(** The property returns only for a datum whose name contains [north]
    and [america], or [84]; the test for [NAD] is made on the lower-cased
    name and never holds.  For any other datum, one named with NAD alone
    included, it raises. *)
Theorem datum_must_be_recognised (self : parsed) (d : proj4_parameters) :
  crs self = Ok d ->
  exists s : string,
    datum self = Some s /\
    Str.contains "NAD" (Str.lower s) = false /\
    ((Str.contains "north" (Str.lower s)
      && Str.contains "america" (Str.lower s) = true /\
      In (p_datum d) ["nad83"; "nad27"; "nad"]) \/
     (Str.contains "84" (Str.lower s) = true /\ p_datum d = "wgs84")).
Proof.
  unfold crs. intros Hcrs.
  destruct (datum self) as [s |]; [| discriminate].
  exists s. split; [reflexivity |]. split; [apply nad_not_in_lower |].
  cbn [lower_of mbind result_bind Py.bind] in Hcrs.
  rewrite nad_not_in_lower in Hcrs. cbn [orb] in Hcrs.
  destruct (spheriod_name self) as [nm |]; [| discriminate].
  cbn [mbind result_bind Py.bind] in Hcrs.
  destruct (lower_of (primem0 self)) as [pm |]; [| discriminate].
  cbn [mbind result_bind Py.bind] in Hcrs.
  destruct (Str.contains "north" (Str.lower s)
            && Str.contains "america" (Str.lower s)) eqn:Hna.
  - left. split; [reflexivity |].
    cbn [local mbind result_bind Py.bind] in Hcrs.
    destruct (local "ellps" _) as [ev |]; [| discriminate].
    cbn [mbind result_bind Py.bind] in Hcrs.
    injection Hcrs as <-. cbn [p_datum].
    destruct (Str.contains "83" (Str.lower s));
      [simpl; tauto |].
    destruct (Str.contains "27" (Str.lower s)); simpl; tauto.
  - destruct (Str.contains "84" (Str.lower s)) eqn:H84.
    + right. split; [reflexivity |].
      cbn [local mbind result_bind Py.bind] in Hcrs.
      destruct (local "ellps" _) as [ev |]; [| discriminate].
      cbn [mbind result_bind Py.bind] in Hcrs.
      injection Hcrs as <-. reflexivity.
    + cbn [local mbind result_bind Py.bind] in Hcrs. discriminate.
Qed.

Lemma conic_is_never_albers_witness :
  crs Samples.albers = Ok Samples.albers_parameters /\
  projcs Samples.albers
  = Some "USA_Contiguous_Albers_Equal_Area_Conic_USGS_version" /\
  Str.contains "conic"
    (Str.lower "USA_Contiguous_Albers_Equal_Area_Conic_USGS_version")
  = true /\
  proj Samples.albers_parameters <> Some "aea" /\
  (Str.contains "mercator"
     (Str.lower "USA_Contiguous_Albers_Equal_Area_Conic_USGS_version")
   = false ->
   Str.contains "utm"
     (Str.lower "USA_Contiguous_Albers_Equal_Area_Conic_USGS_version")
   && Str.contains "zone"
        (Str.lower "USA_Contiguous_Albers_Equal_Area_Conic_USGS_version")
   = false ->
   proj Samples.albers_parameters = Some "lcc").
Proof.
  do 3 (split; [reflexivity |]).
  exact (conic_is_never_albers Samples.albers Samples.albers_parameters
           "USA_Contiguous_Albers_Equal_Area_Conic_USGS_version"
           eq_refl eq_refl eq_refl).
Defined.

Lemma datum_must_be_recognised_witness :
  crs Samples.albers = Ok Samples.albers_parameters /\
  exists s : string,
    datum Samples.albers = Some s /\
    Str.contains "NAD" (Str.lower s) = false /\
    ((Str.contains "north" (Str.lower s)
      && Str.contains "america" (Str.lower s) = true /\
      In (p_datum Samples.albers_parameters) ["nad83"; "nad27"; "nad"]) \/
     (Str.contains "84" (Str.lower s) = true /\
      p_datum Samples.albers_parameters = "wgs84")).
Proof.
  split; [reflexivity |].
  exact (datum_must_be_recognised Samples.albers Samples.albers_parameters
           eq_refl).
Defined.

(** A datum named with NAD alone is not recognised. *)
Example nad_alone_raises :
  crs (mk_parsed (Some "NAD_1983_UTM_Zone_15N") (Some "GCS_NAD_1983")
         (Some "D_NAD_1983") (Some "GRS_1980") (Some "Greenwich")
         None None None None None None None None None (None, None) None)
  = Raise (NameError "local variable 'datum' referenced before assignment").
Proof. reflexivity. Qed.

End CrsFacts.

(** ** What is assigned is what is read *)

Module AttributeFacts.
Import Reference.

Lemma lower_supported (u : string) :
  Str.mem u supported_units = true -> Str.lower u = u.
Proof.
  intros Hmem.
  destruct (UnitsFacts.mem_supported u Hmem) as [-> | ->]; reflexivity.
Qed.

Section Facts.
Context `{Environment}.

(** An assignment to a corner, the rotation, the multiplier, the model
    units or the units is read back by the getter of that name.  Units
    are stored in lower case, and a unit that is not supported is
    refused by the assignment. *)
Theorem assign_then_read (self : SpatialReference) (v : R) (z : Z)
    (u : string) :
  (s ← __setattr__ self "xul" (PyFloatV v); xul s) = Ok v /\
  (s ← __setattr__ self "yul" (PyFloatV v); yul s) = Ok v /\
  (s ← __setattr__ self "xll" (PyFloatV v); xll s) = Ok v /\
  (s ← __setattr__ self "yll" (PyFloatV v); yll s) = Ok v /\
  (s ← __setattr__ self "rotation" (PyFloatV v); Ok (rotation s)) = Ok v /\
  (s ← __setattr__ self "length_multiplier" (PyFloatV v);
   length_multiplier s) = Ok (Some v) /\
  (s ← __setattr__ self "lenuni" (PyIntV z); Ok (lenuni s)) = Ok z /\
  (s ← __setattr__ self "units" (PyStrV u); units s)
  = (if Str.mem (Str.lower u) supported_units then Ok (Str.lower u)
     else Raise AssertionError).
Proof.
  do 7 (split; [reflexivity |]).
  unfold __setattr__.
  cbn [String.eqb Ascii.eqb Bool.eqb mbind result_bind Py.bind].
  destruct (Str.mem (Str.lower u) supported_units) eqn:Hmem;
    [| reflexivity].
  cbn [mbind result_bind Py.bind]. unfold units.
  change (_units (_reset (set__units (Some (Str.lower u)) self)))
    with (Some (Str.lower u)).
  cbv iota beta. rewrite (lower_supported _ Hmem), Hmem. reflexivity.
Qed.

(** What the constructor is given is what the new instance reads back:
    the rotation, the multiplier, and the corner that was entered, from
    which the grid is placed.  An ordinate that is left out counts as 0. *)
Theorem init_then_read (delr delc : list R) (grid : option AttachedGrid)
    (lenuni : Z) (xul yul xll yll : option R) (rot : R)
    (proj4_str epsg prj : pyval) (units : option string)
    (lm : option R) (self : SpatialReference) :
  __init__ delr delc grid lenuni xul yul xll yll rot proj4_str epsg prj
           units lm = Ok self ->
  rotation self = rot /\ _length_multiplier self = lm /\
  match xll, xul with
  | Some a, _ =>
      origin_loc self = ll /\ Reference.xll self = Ok a /\
      Reference.yll self = Ok (default 0%R yll)
  | None, Some a =>
      origin_loc self = ul /\ Reference.xul self = Ok a /\
      Reference.yul self = Ok (default 0%R yul)
  | None, None =>
      origin_loc self = ul /\ Reference.xul self = Ok 0%R /\
      Reference.yul self
      = Ok (match yul, yll with
            | None, None => add_reduce delc
            | _, _ => default 0%R yul
            end)
  end.
Proof.
  unfold __init__. intros Hinit.
  destruct (__setattr__ _ "prj" prj) as [s1 |]; [| discriminate].
  cbn [mbind result_bind Py.bind] in Hinit.
  destruct (crs_init prj None epsg) as [c |]; [| discriminate].
  cbn [mbind result_bind Py.bind] in Hinit.
  destruct (OriginFacts.set_spatialreference_stores _ _ _ _ _ _ _ _ Hinit)
    as (_ & Hr & Ho & _ & Hxl & Hyl & Hxu & Hyu & Hlm).
  split; [exact Hr |]. split; [exact Hlm |].
  unfold Reference.xll, Reference.yll, Reference.xul, Reference.yul.
  rewrite Ho.
  destruct xll as [a |]; simpl in *.
  - rewrite Hxl, Hyl. repeat split.
  - destruct xul as [a |]; simpl in *.
    + rewrite Hxu, Hyu. repeat split.
    + destruct yul, yll; simpl in *; rewrite Hxu, Hyu; repeat split.
Qed.

(** Assigning one ordinate of the other corner moves the whole origin
    there: on an instance built from its lower-left corner, assigning
    [xul] alone makes the upper-left corner [(xul, 0)], whatever the
    lower-left corner and the row heights were. *)
Theorem xul_alone_drops_yul (delr delc : list R)
    (grid : option AttachedGrid) (lenuni : Z) (a b rot v : R)
    (proj4_str epsg prj : pyval) (units : option string)
    (lm : option R) (self s : SpatialReference) :
  __init__ delr delc grid lenuni None None (Some a) (Some b) rot proj4_str
           epsg prj units lm = Ok self ->
  __setattr__ self "xul" (PyFloatV v) = Ok s ->
  origin_loc s = ul /\ Reference.xul s = Ok v /\ Reference.yul s = Ok 0%R.
Proof.
  unfold __init__. intros Hinit Hset.
  destruct (__setattr__ _ "prj" prj) as [s1 |]; [| discriminate].
  cbn [mbind result_bind Py.bind] in Hinit.
  destruct (crs_init prj None epsg) as [c |]; [| discriminate].
  cbn [mbind result_bind Py.bind] in Hinit.
  destruct (OriginFacts.set_spatialreference_stores _ _ _ _ _ _ _ _ Hinit)
    as (_ & _ & _ & _ & _ & _ & _ & Hyu & _).
  simpl in Hyu.
  destruct (OriginFacts.assign_xul self s v Hset)
    as (Ho & Hx & Hy & _).
  unfold Reference.xul, Reference.yul. rewrite Ho, Hx, Hy, Hyu.
  repeat split.
Qed.

End Facts.

Lemma init_then_read_witness :
  @__init__ Samples.offline [1; 1]%R [1; 1]%R None 2%Z None None
    (Some 10%R) (Some 20%R) 30%R PyNone PyNone PyNone None (Some 2%R)
  = Ok Samples.rotated_sr /\
  rotation Samples.rotated_sr = 30%R /\
  _length_multiplier Samples.rotated_sr = Some 2%R /\
  origin_loc Samples.rotated_sr = ll /\
  @xll Samples.offline Samples.rotated_sr = Ok 10%R /\
  @yll Samples.offline Samples.rotated_sr = Ok (default 0%R (Some 20%R)).
Proof.
  split; [reflexivity |].
  exact (@init_then_read Samples.offline [1; 1]%R [1; 1]%R None 2%Z None
           None (Some 10%R) (Some 20%R) 30%R PyNone PyNone PyNone None
           (Some 2%R) Samples.rotated_sr eq_refl).
Defined.

Lemma xul_alone_drops_yul_witness :
  @__init__ Samples.offline [1; 1]%R [1; 1]%R None 2%Z None None
    (Some 10%R) (Some 20%R) 30%R PyNone PyNone PyNone None (Some 2%R)
  = Ok Samples.rotated_sr /\
  @__setattr__ Samples.offline Samples.rotated_sr "xul" (PyFloatV 3%R)
  = Ok Samples.xul_moved /\
  origin_loc Samples.xul_moved = ul /\
  @xul Samples.offline Samples.xul_moved = Ok 3%R /\
  @yul Samples.offline Samples.xul_moved = Ok 0%R.
Proof.
  split; [reflexivity |]. split; [reflexivity |].
  exact (@xul_alone_drops_yul Samples.offline [1; 1]%R [1; 1]%R None 2%Z
           10 20 30 3 PyNone PyNone PyNone None (Some 2%R)
           Samples.rotated_sr Samples.xul_moved eq_refl eq_refl).
Defined.

End AttributeFacts.

(** ** Units read from a PROJ.4 text *)

Module ProjTextFacts.
Import Reference.

Lemma char_e (c : ascii) :
  (if ascii_dec "E" (Str.upper_ascii c) then true else false)
  = (if ascii_dec "e" (Str.lower_ascii c) then true else false).
Proof. destruct c as [[] [] [] [] [] [] [] []]; reflexivity. Qed.

Lemma char_p (c : ascii) :
  (if ascii_dec "P" (Str.upper_ascii c) then true else false)
  = (if ascii_dec "p" (Str.lower_ascii c) then true else false).
Proof. destruct c as [[] [] [] [] [] [] [] []]; reflexivity. Qed.

Lemma char_s (c : ascii) :
  (if ascii_dec "S" (Str.upper_ascii c) then true else false)
  = (if ascii_dec "s" (Str.lower_ascii c) then true else false).
Proof. destruct c as [[] [] [] [] [] [] [] []]; reflexivity. Qed.

Lemma char_g (c : ascii) :
  (if ascii_dec "G" (Str.upper_ascii c) then true else false)
  = (if ascii_dec "g" (Str.lower_ascii c) then true else false).
Proof. destruct c as [[] [] [] [] [] [] [] []]; reflexivity. Qed.

Ltac same_char lemma c :=
  let Hc := fresh "Hc" in
  pose proof (lemma c) as Hc;
  destruct (ascii_dec _ (Str.upper_ascii c)),
           (ascii_dec _ (Str.lower_ascii c));
  try discriminate Hc; try reflexivity; clear Hc.

Lemma prefix_epsg (s : string) :
  String.prefix "EPSG" (Str.map_string Str.upper_ascii s)
  = String.prefix "epsg" (Str.map_string Str.lower_ascii s).
Proof.
  destruct s as [| c1 [| c2 [| c3 [| c4 s]]]];
    cbn [Str.map_string String.prefix]; try reflexivity;
    same_char char_e c1; same_char char_p c2; same_char char_s c3;
    same_char char_g c4; destruct s; reflexivity.
Qed.

(** Looking for [EPSG] in the upper-cased text is looking for [epsg] in
    the lower-cased text. *)
Lemma contains_epsg (s : string) :
  Str.contains "EPSG" (Str.upper s) = Str.contains "epsg" (Str.lower s).
Proof.
  induction s as [| c s IH].
  - reflexivity.
  - change (Str.upper (String c s))
      with (String (Str.upper_ascii c) (Str.upper s)).
    change (Str.lower (String c s))
      with (String (Str.lower_ascii c) (Str.lower s)).
    cbn [Str.contains]. rewrite IH. f_equal.
    exact (prefix_epsg (String c s)).
Qed.

Section Facts.
Context `{Environment}.

(** When no units were given and the PROJ.4 text names no EPSG code,
    the units are read from the text: metres when it contains
    [units=m], which is looked for first; feet when it contains
    [units=ft], [units=us-ft] or [to_meters:0.3048]; and metres again
    when it says nothing.  The getter does not raise. *)
Theorem units_from_proj4_text (self : SpatialReference) (s : string) :
  _units self = None -> _proj4_str self = PyStrV s ->
  Str.contains "epsg" (Str.lower s) = false ->
  units self
  = Ok (if Str.contains "units=m" s then "meters"
        else if Str.contains "units=ft" s || Str.contains "units=us-ft" s
                || Str.contains "to_meters:0.3048" s
             then "feet"
             else "meters").
Proof.
  intros Hunits Hproj Hepsg.
  unfold units, _parse_units_from_proj4, proj4_str.
  rewrite Hunits, Hproj, Hepsg.
  cbn [mbind result_bind Py.bind]. rewrite contains_epsg, Hepsg.
  cbn [mbind result_bind Py.bind Py.try_except].
  destruct (Str.contains "units=m" s); [reflexivity |].
  destruct (Str.contains "units=ft" s || Str.contains "units=us-ft" s
            || Str.contains "to_meters:0.3048" s); reflexivity.
Qed.

End Facts.

Lemma units_from_proj4_text_witness :
  _units Samples.feet_in_metres_sr = None /\
  _proj4_str Samples.feet_in_metres_sr
  = PyStrV "+proj=utm +zone=15 +units=m" /\
  Str.contains "epsg" (Str.lower "+proj=utm +zone=15 +units=m") = false /\
  @units Samples.offline Samples.feet_in_metres_sr
  = Ok (if Str.contains "units=m" "+proj=utm +zone=15 +units=m"
        then "meters"
        else if Str.contains "units=ft" "+proj=utm +zone=15 +units=m"
                || Str.contains "units=us-ft" "+proj=utm +zone=15 +units=m"
                || Str.contains "to_meters:0.3048"
                     "+proj=utm +zone=15 +units=m"
             then "feet"
             else "meters").
Proof.
  do 3 (split; [reflexivity |]).
  exact (@units_from_proj4_text Samples.offline Samples.feet_in_metres_sr
           "+proj=utm +zone=15 +units=m" eq_refl eq_refl eq_refl).
Defined.

End ProjTextFacts.

(** ** The order of the vertex rings *)

Module VertexOrderFacts.
Import Reference.

Lemma getitem2_arrays_lookup (g : option num) (I J : list nat)
    (vs : list R) (k i j : nat) :
  getitem2_arrays g I J = Ok vs ->
  I !! k = Some i -> J !! k = Some j ->
  getitem2 g i j = Ok (nth k vs 0%R) /\ k < length vs.
Proof.
  revert J vs k.
  induction I as [| a I IH]; intros [| b J] vs k Hget Hi Hj;
    try discriminate.
  simpl in Hget.
  destruct (getitem2 g a b) as [v |] eqn:Hv; [| discriminate].
  simpl in Hget.
  destruct (getitem2_arrays g I J) as [vs' |] eqn:Hvs; [| discriminate].
  injection Hget as <-.
  destruct k as [| k]; simpl in *.
  - injection Hi as <-. injection Hj as <-. split; [exact Hv | lia].
  - destruct (IH J vs' k Hvs Hi Hj) as [Hg Hk]. split; [exact Hg | lia].
Qed.

Lemma repeat_lookup_lt {A : Type} (x : A) (n j : nat) :
  j < n -> repeat x n !! j = Some x.
Proof.
  revert j. induction n as [| n IH]; intros [| j] Hj; simpl;
    try lia; [reflexivity | apply IH; lia].
Qed.

Lemma blocks_lookup (ncol a n i j : nat) :
  i < n -> j < ncol ->
  flat_map (fun r => repeat r ncol) (seq a n) !! (i * ncol + j)%nat
  = Some (a + i)%nat /\
  flat_map (fun _ => seq 0 ncol) (seq a n) !! (i * ncol + j)%nat = Some j.
Proof.
  revert a i. induction n as [| n IH]; intros a i Hi Hj; [lia |].
  cbn [seq flat_map].
  destruct i as [| i].
  - cbn [Nat.mul Nat.add]. split.
    + rewrite lookup_app_l by (rewrite repeat_length; exact Hj).
      rewrite Nat.add_0_r. apply repeat_lookup_lt. exact Hj.
    + rewrite lookup_app_l by (rewrite length_seq; exact Hj).
      apply lookup_seq_lt. exact Hj.
  - destruct (IH (S a) i ltac:(lia) Hj) as [Hr Hc].
    replace (S i * ncol + j)%nat with (ncol + (i * ncol + j))%nat by lia.
    split.
    + rewrite lookup_app_r by (rewrite repeat_length; lia).
      rewrite repeat_length.
      replace (ncol + (i * ncol + j) - ncol)%nat with (i * ncol + j)%nat
        by lia.
      rewrite Hr. f_equal. lia.
    + rewrite lookup_app_r by (rewrite length_seq; lia).
      rewrite length_seq.
      replace (ncol + (i * ncol + j) - ncol)%nat with (i * ncol + j)%nat
        by lia.
      exact Hc.
Qed.

Section Facts.
Context `{Environment}.

(** With the edge caches in step, reading both edge arrays leaves an
    instance on which both are cached. *)
Lemma edges_cached (self s1 s2 : SpatialReference) (xg yg : option num) :
  edges_current self ->
  xedges self = Ok (xg, s1) -> yedges s1 = Ok (yg, s2) ->
  s2 = s1 /\ _xedges s1 = xg /\ _yedges s1 = yg /\
  xg <> None /\ yg <> None.
Proof.
  intros Hcur Hx Hy.
  destruct (CacheFacts.cached_cases _ _ _ _ _ Hx)
    as (-> & [[-> Hsome] | [_ Hfill]]).
  - unfold edges_current in Hcur.
    destruct (_xedges self) as [x |] eqn:Ex; [| contradiction].
    destruct (_yedges self) as [y |] eqn:Ey; [| contradiction].
    unfold yedges, cached in Hy. rewrite Ey in Hy.
    injection Hy as <- <-. repeat split; congruence.
  - destruct (CacheFacts.fill_edges _ _ Hfill)
      as (_ & _ & _ & x & y & _ & Ex & Ey).
    unfold yedges, cached in Hy. rewrite Ey in Hy.
    injection Hy as <- <-. repeat split; congruence.
Qed.

(** The array form of [get_vertices] is its scalar form, entry by
    entry. *)
Lemma get_vertices_entrywise (self s : SpatialReference)
    (I J : list nat) (cells : list (list (R * R))) (k i j : nat) :
  edges_current self ->
  get_vertices self (IArray I J) = Ok (Rings cells, s) ->
  I !! k = Some i -> J !! k = Some j ->
  exists ring : list (R * R),
    cells !! k = Some ring /\
    forall s' : SpatialReference,
      _xedges s' = _xedges s -> _yedges s' = _yedges s ->
      get_vertices s' (IScalar i j) = Ok (Ring ring, s').
Proof.
  intros Hcur Hget Hi Hj. unfold get_vertices in Hget.
  destruct (xedges self) as [[xg s1] |] eqn:Hx; [| discriminate].
  cbn [mbind result_bind Py.bind] in Hget.
  destruct (yedges s1) as [[yg s2] |] eqn:Hy; [| discriminate].
  cbn [mbind result_bind Py.bind] in Hget.
  destruct (edges_cached self s1 s2 xg yg Hcur Hx Hy)
    as (-> & Ex & Ey & Hxg & Hyg).
  assert (Hi1 : map (fun a => a + 1) I !! k = Some (i + 1))
    by (change (map (fun a => a + 1) I) with ((fun a => a + 1) <$> I);
        rewrite list_lookup_fmap, Hi; reflexivity).
  assert (Hj1 : map (fun b => b + 1) J !! k = Some (j + 1))
    by (change (map (fun b => b + 1) J) with ((fun b => b + 1) <$> J);
        rewrite list_lookup_fmap, Hj; reflexivity).
  cbv zeta in Hget.
  set (I1 := map (fun a => a + 1) I) in *.
  set (J1 := map (fun b => b + 1) J) in *.
  destruct (getitem2_arrays xg I J) as [x0 |] eqn:E0; [| discriminate].
  cbn [mbind result_bind Py.bind] in Hget.
  destruct (getitem2_arrays yg I J) as [y0 |] eqn:F0; [| discriminate].
  cbn [mbind result_bind Py.bind] in Hget.
  destruct (getitem2_arrays xg I1 J) as [x1 |] eqn:E1; [| discriminate].
  cbn [mbind result_bind Py.bind] in Hget.
  destruct (getitem2_arrays yg I1 J) as [y1 |] eqn:F1; [| discriminate].
  cbn [mbind result_bind Py.bind] in Hget.
  destruct (getitem2_arrays xg I1 J1) as [x2 |] eqn:E2; [| discriminate].
  cbn [mbind result_bind Py.bind] in Hget.
  destruct (getitem2_arrays yg I1 J1) as [y2 |] eqn:F2; [| discriminate].
  cbn [mbind result_bind Py.bind] in Hget.
  destruct (getitem2_arrays xg I J1) as [x3 |] eqn:E3; [| discriminate].
  cbn [mbind result_bind Py.bind] in Hget.
  destruct (getitem2_arrays yg I J1) as [y3 |] eqn:F3; [| discriminate].
  cbn [mbind result_bind Py.bind] in Hget.
  injection Hget as <- <-.
  destruct (getitem2_arrays_lookup _ _ _ _ k i j E0 Hi Hj) as [G0 Hk].
  destruct (getitem2_arrays_lookup _ _ _ _ k i j F0 Hi Hj) as [K0 _].
  destruct (getitem2_arrays_lookup _ _ _ _ k _ j E1 Hi1 Hj) as [G1 _].
  destruct (getitem2_arrays_lookup _ _ _ _ k _ j F1 Hi1 Hj) as [K1 _].
  destruct (getitem2_arrays_lookup _ _ _ _ k _ _ E2 Hi1 Hj1) as [G2 _].
  destruct (getitem2_arrays_lookup _ _ _ _ k _ _ F2 Hi1 Hj1) as [K2 _].
  destruct (getitem2_arrays_lookup _ _ _ _ k i _ E3 Hi Hj1) as [G3 _].
  destruct (getitem2_arrays_lookup _ _ _ _ k i _ F3 Hi Hj1) as [K3 _].
  eexists. split.
  - unfold transpose_201.
    change (map ?f (seq 0 (length x0))) with (f <$> seq 0 (length x0)).
    rewrite list_lookup_fmap, lookup_seq_lt by exact Hk. reflexivity.
  - intros s' Hxs Hys. unfold get_vertices, xedges, yedges, cached.
    rewrite Hxs, Ex. destruct xg as [xg |]; [| contradiction].
    cbn [mbind result_bind Py.bind]. rewrite Hys, Ey.
    destruct yg as [yg |]; [| contradiction].
    cbn [mbind result_bind Py.bind].
    rewrite G0. cbn [mbind result_bind Py.bind].
    rewrite K0. cbn [mbind result_bind Py.bind].
    rewrite G1. cbn [mbind result_bind Py.bind].
    rewrite K1. cbn [mbind result_bind Py.bind].
    rewrite G2. cbn [mbind result_bind Py.bind].
    rewrite K2. cbn [mbind result_bind Py.bind].
    rewrite G3. cbn [mbind result_bind Py.bind].
    rewrite K3. cbn [mbind result_bind Py.bind].
    reflexivity.
Qed.

(** The rings of [vertices] are in row-major order: ring [i * ncol + j]
    is what [get_vertices(i, j)] returns for the cell in row [i] and
    column [j]. *)
Theorem vertices_row_major (self s : SpatialReference)
    (cells : list (list (R * R))) (i j : nat) :
  edges_current self -> _vertices self = None ->
  vertices self = Ok (Some (Rings cells), s) ->
  i < g_nrow (modelgrid self) -> j < g_ncol (modelgrid self) ->
  exists ring : list (R * R),
    cells !! (i * g_ncol (modelgrid self) + j)%nat = Some ring /\
    get_vertices s (IScalar i j) = Ok (Ring ring, s).
Proof.
  intros Hcur Hnone Hv Hi Hj.
  unfold vertices, cached in Hv. rewrite Hnone in Hv.
  unfold _set_vertices in Hv.
  destruct (blocks_lookup (g_ncol (modelgrid self)) 0
              (g_nrow (modelgrid self)) i j Hi Hj) as [Hrow Hcol].
  unfold meshgrid_ravel in Hv. cbv zeta iota beta in Hv.
  destruct (get_vertices self (IArray _ _)) as [[r s1] |] eqn:Hg;
    [| discriminate].
  cbn [mbind result_bind Py.bind] in Hv.
  injection Hv as Hr <-. cbn [_vertices set__vertices] in Hr.
  subst r.
  destruct (get_vertices_entrywise self s1 _ _ cells _ i j Hcur Hg Hrow Hcol)
    as (ring & Hring & Hscalar).
  exists ring. split; [exact Hring |].
  apply Hscalar; reflexivity.
Qed.

End Facts.

Lemma vertices_row_major_witness :
  @edges_current Samples.offline Samples.rotated_sr /\
  _vertices Samples.rotated_sr = None /\
  @vertices Samples.offline Samples.rotated_sr
  = Ok (Some (Rings Samples.rotated_rings), Samples.rotated_after_vertices) /\
  1 < g_nrow (modelgrid Samples.rotated_sr) /\
  0 < g_ncol (modelgrid Samples.rotated_sr) /\
  exists ring : list (R * R),
    Samples.rotated_rings
    !! (1 * g_ncol (modelgrid Samples.rotated_sr) + 0)%nat = Some ring /\
    @get_vertices Samples.offline Samples.rotated_after_vertices
      (IScalar 1 0)
    = Ok (Ring ring, Samples.rotated_after_vertices).
Proof.
  assert (Hi : 1 < g_nrow (modelgrid Samples.rotated_sr))
    by (simpl; lia).
  assert (Hj : 0 < g_ncol (modelgrid Samples.rotated_sr))
    by (simpl; lia).
  split; [exact I |]. split; [reflexivity |]. split; [reflexivity |].
  split; [exact Hi |]. split; [exact Hj |].
  exact (@vertices_row_major Samples.offline Samples.rotated_sr
           Samples.rotated_after_vertices Samples.rotated_rings 1 0
           I eq_refl eq_refl Hi Hj).
Defined.

End VertexOrderFacts.

(** ** Building a reference from a name file *)

Module NamfileFacts.
Import Reference Namfile.

Lemma keys_dict_set_in (k : string) (v : pyval) (d : dict) :
  In k (keys d) -> keys (dict_set k v d) = keys d.
Proof.
  induction d as [| [k' v'] d IH]; simpl; [tauto |].
  intros Hin. destruct (String.eqb_spec k k') as [-> | Hne]; [reflexivity |].
  simpl. f_equal. apply IH. destruct Hin as [Heq | Hin]; [congruence | exact Hin].
Qed.

Lemma keys_dict_set_new (k : string) (v : pyval) (d : dict) :
  ~ In k (keys d) -> keys (dict_set k v d) = (keys d ++ [k])%list.
Proof.
  induction d as [| [k' v'] d IH]; simpl; [reflexivity |].
  intros Hnot. destruct (String.eqb_spec k k') as [-> | Hne]; [tauto |].
  simpl. f_equal. apply IH. tauto.
Qed.

Lemma keys_dict_pop (k : string) (d : dict) :
  keys (dict_pop k d)
  = List.filter (fun k' => negb (String.eqb k k')) (keys d).
Proof.
  induction d as [| [k' v'] d IH]; simpl; [reflexivity |].
  destruct (String.eqb k k'); simpl; [exact IH | f_equal; exact IH].
Qed.

Lemma header_keys_set (k : string) (v : pyval) (d : dict) :
  header_keys d -> In k (keys defaults) -> header_keys (dict_set k v d).
Proof.
  intros Hd Hk. unfold header_keys in *.
  rewrite keys_dict_set_in; [exact Hd |].
  destruct Hd as [-> | ->]; [exact Hk | apply in_or_app; left; exact Hk].
Qed.

Lemma header_keys_start (v : pyval) (d : dict) :
  header_keys d -> header_keys (dict_set "start_datetime" v d).
Proof.
  intros [Hd | Hd]; right.
  - rewrite keys_dict_set_new, Hd; [reflexivity |].
    rewrite Hd. simpl. intros Hin.
    repeat (destruct Hin as [Hin | Hin]; [discriminate |]). exact Hin.
  - rewrite keys_dict_set_in; [exact Hd |].
    rewrite Hd. apply in_or_app. right. simpl. tauto.
Qed.

Section Facts.
Context `{Environment}.
Variable readlines : string -> result (list string).
Variable construct : dict -> result SpatialReference.

Lemma set_item_keys (d d' : dict) (item : string) :
  header_keys d -> set_item d item = Ok d' -> header_keys d'.
Proof.
  intros Hd. unfold set_item.
  assert (Hin : forall k, In k ["xul"; "yul"; "rotation"; "proj4_str";
                                "units"; "lenuni"; "length_multiplier"] ->
                          In k (keys defaults))
    by (intros k; simpl; tauto).
  repeat match goal with
         | |- (if Str.contains ?a ?b then _ else _) = _ -> _ =>
             destruct (Str.contains a b)
         end;
    intros Hset;
    repeat match type of Hset with
           | context [second ?l] =>
               destruct (second l); cbn [mbind result_bind Py.bind
                                         try_except] in Hset
           | context [to_float ?t] =>
               destruct (to_float t); cbn [mbind result_bind Py.bind
                                           try_except] in Hset
           | context [to_int ?t] =>
               destruct (to_int t); cbn [mbind result_bind Py.bind
                                         try_except] in Hset
           end;
    try discriminate; injection Hset as <-;
    first [ exact Hd
          | apply header_keys_start; exact Hd
          | apply header_keys_set; [exact Hd | apply Hin; simpl; tauto] ].
Qed.

Lemma set_items_keys (items : list string) (d d' : dict) :
  header_keys d -> set_items d items = Ok d' -> header_keys d'.
Proof.
  revert d. induction items as [| item items IH]; intros d Hd Hset;
    simpl in Hset.
  - injection Hset as <-. exact Hd.
  - destruct (set_item d item) as [d1 |] eqn:H1; [| discriminate].
    apply (IH d1); [exact (set_item_keys d d1 item Hd H1) | exact Hset].
Qed.

Lemma header_keys_unexpected (d : dict) :
  header_keys d -> unexpected (dict_pop "start_datetime" d) = ["source"].
Proof.
  intros Hd. unfold unexpected. rewrite keys_dict_pop.
  destruct Hd as [-> | ->]; reflexivity.
Qed.

(** [from_namfile] never returns a reference.  The dictionary read
    from the header always has the key [source], which the constructor
    has no parameter for: whenever the header can be read, the call ends
    in [TypeError]; without a name file it ends in [TypeError] as well;
    and when reading the header raises, so does [from_namfile]. *)
Theorem from_namfile_never_returns (namefile : option string) :
  (forall sr : SpatialReference,
     from_namfile readlines construct namefile <> Ok sr) /\
  match attribs_from_namfile_header readlines namefile with
  | Ok (Some d) =>
      In "source" (keys d) /\ ~ In "source" init_parameters /\
      from_namfile readlines construct namefile
      = Raise (TypeError
                 "__init__() got an unexpected keyword argument 'source'")
  | Ok None =>
      namefile = None /\
      from_namfile readlines construct namefile
      = Raise (TypeError "argument after ** must be a mapping, not NoneType")
  | Raise e => from_namfile readlines construct namefile = Raise e
  end.
Proof.
  assert (Hcases :
    match attribs_from_namfile_header readlines namefile with
    | Ok (Some d) =>
        In "source" (keys d) /\ ~ In "source" init_parameters /\
        from_namfile readlines construct namefile
        = Raise (TypeError
                   "__init__() got an unexpected keyword argument 'source'")
    | Ok None =>
        namefile = None /\
        from_namfile readlines construct namefile
        = Raise (TypeError
                   "argument after ** must be a mapping, not NoneType")
    | Raise e => from_namfile readlines construct namefile = Raise e
    end).
  { unfold from_namfile.
    destruct (attribs_from_namfile_header readlines namefile)
      as [[d |] | e] eqn:Hattr; cbn [mbind result_bind Py.bind].
    - assert (Hd : header_keys d).
      { unfold attribs_from_namfile_header in Hattr.
        destruct namefile as [path |]; [| discriminate].
        destruct (readlines path) as [lines |]; [| discriminate].
        cbn [mbind result_bind Py.bind] in Hattr.
        destruct (set_items _ (header_items lines)) as [d1 |] eqn:Hitems;
          [| discriminate].
        injection Hattr as <-.
        apply (set_items_keys (header_items lines)
                 (dict_set "source" (PyStrV "namfile") defaults) d1);
          [left; reflexivity | exact Hitems]. }
      split; [| split].
      + destruct Hd as [-> | ->]; simpl; tauto.
      + simpl. intros Hin.
        repeat (destruct Hin as [Hin | Hin]; [discriminate |]). exact Hin.
      + cbv zeta. rewrite (header_keys_unexpected d Hd). reflexivity.
    - split; [| reflexivity].
      unfold attribs_from_namfile_header in Hattr.
      destruct namefile as [path |]; [| reflexivity].
      destruct (readlines path); [| discriminate].
      cbn [mbind result_bind Py.bind] in Hattr.
      destruct (set_items _ _); discriminate.
    - reflexivity. }
  split; [| exact Hcases].
  intros sr Hsr.
  destruct (attribs_from_namfile_header readlines namefile) as [[d |] | e].
  - destruct Hcases as (_ & _ & Hc). congruence.
  - destruct Hcases as (_ & Hc). congruence.
  - congruence.
Qed.

End Facts.

(** A header that is read without error, and the call that follows it. *)
Example from_namfile_header_read :
  let readlines := fun _ : string =>
    Ok ["# units: feet ; start_datetime:1-1-1970"; "LIST 7 model.lst"] in
  @attribs_from_namfile_header Samples.offline readlines (Some "model.nam")
  = Ok (Some [("xul", PyNone); ("yul", PyNone); ("rotation", PyFloatV 0%R);
              ("proj4_str", PyNone); ("units", PyStrV "feet");
              ("lenuni", PyIntV 2%Z); ("length_multiplier", PyNone);
              ("source", PyStrV "namfile");
              ("start_datetime", PyStrV "1-1-1970")]) /\
  @from_namfile Samples.offline readlines
    (fun _ => Ok Samples.rotated_sr) (Some "model.nam")
  = Raise (TypeError
             "__init__() got an unexpected keyword argument 'source'").
Proof. split; reflexivity. Qed.

End NamfileFacts.
